(** * The mock betting backend of fraud-detection-mobile-tests

    A shallow embedding of [src/mockServer/server.js]: the four in-memory
    stores, the authentication middleware and the five route handlers, with
    the JavaScript values they manipulate, followed by the properties of the
    account / bet state machine and of the fraud rules.  The [/health] route
    and the final 404 handler read and write none of the stores and are left
    out.

    The second part embeds the API client of the test utilities
    ([ApiClient]): the [Authorization] header it sends, its [login], and
    [placeFraudulentBet] with the six kinds of probe, run against the
    server of the first part. *)

From Stdlib Require Import ZArith List String Ascii Bool Lia Floats.
From Stdlib Require Import Permutation Sorted DecimalString.
Import ListNotations.

Local Open Scope string_scope.
Local Open Scope Z_scope.

(** ** JavaScript values

    A request body is what [bodyParser.json()] hands to the handlers.  Its
    fields are JSON scalars here; numbers are binary64 floats, as in
    JavaScript.  [JUndefined] is what reading an absent property gives.
    Strings are sequences of 8-bit code units. *)

Inductive JsValue : Type :=
| JUndefined
| JNull
| JBool (b : bool)
| JNumber (x : float)
| JString (s : string).

(** A parsed JSON object: its own properties, first binding wins. *)
Definition Object := list (string * JsValue).

Fixpoint own (o : Object) (k : string) : option JsValue :=
  match o with
  | [] => None
  | (k', v) :: o' => if String.eqb k' k then Some v else own o' k
  end.

(** [o.k] *)
Definition prop (o : Object) (k : string) : JsValue :=
  match own o k with
  | Some v => v
  | None => JUndefined
  end.

(** The conversions of strings to numbers and dates, and of numbers to
    strings, are those of the host (V8); the handlers are embedded over any
    such host. *)
Class JsRuntime : Type := {
  (** [parseFloat] on a string *)
  parseFloatString : string -> float;
  (** the time value of [new Date(s)]; [None] is the Invalid Date *)
  dateParse : string -> option Z;
  (** [String(x)] for a number [x] *)
  numberToString : float -> string
}.

Module Js.

(** ToBoolean: [undefined], [null], [false], [0], [-0], [NaN] and [""] are
    falsy. *)
Definition truthy (v : JsValue) : bool :=
  match v with
  | JUndefined | JNull => false
  | JBool b => b
  | JNumber x => negb (PrimFloat.eqb x 0 || PrimFloat.is_nan x)
  | JString s => negb (String.eqb s "")
  end.

(** [a === b] *)
Definition strict_eq (a b : JsValue) : bool :=
  match a, b with
  | JUndefined, JUndefined => true
  | JNull, JNull => true
  | JBool x, JBool y => Bool.eqb x y
  | JNumber x, JNumber y => PrimFloat.eqb x y
  | JString x, JString y => String.eqb x y
  | _, _ => false
  end.

(** SameValueZero, the key equality of [Map]: like [===] but [NaN] equals
    itself. *)
Definition same_value_zero (a b : JsValue) : bool :=
  match a, b with
  | JNumber x, JNumber y =>
      PrimFloat.eqb x y || (PrimFloat.is_nan x && PrimFloat.is_nan y)
  | _, _ => strict_eq a b
  end.

(** Outcome of an expression that may raise a [TypeError]. *)
Inductive Completion (A : Type) : Type :=
| Normal (a : A)
| TypeError.
Arguments Normal {A} a.
Arguments TypeError {A}.

(** [hay.includes(needle)] on strings *)
Fixpoint string_includes (needle hay : string) : bool :=
  if String.prefix needle hay then true
  else match hay with
       | EmptyString => false
       | String _ hay' => string_includes needle hay'
       end.

(** [v.includes(needle)]: only strings carry the method among the scalars;
    on [undefined] and [null] the property read itself raises. *)
Definition includes (v : JsValue) (needle : string) : Completion bool :=
  match v with
  | JString s => Normal (string_includes needle s)
  | _ => TypeError
  end.

(** [v.substring(0, n)] *)
Definition substring0 (v : JsValue) (n : nat) : Completion string :=
  match v with
  | JString s => Normal (String.substring 0 n s)
  | _ => TypeError
  end.

(** [s.split(c)] for a one-character separator *)
Fixpoint split (c : ascii) (s : string) : list string :=
  match s with
  | EmptyString => [EmptyString]
  | String a s' =>
      if Ascii.eqb a c then EmptyString :: split c s'
      else match split c s' with
           | [] => [String a EmptyString]
           | w :: ws => String a w :: ws
           end
  end.

(** [n.toString()] for an integer [n], as [Date.now()] is *)
Definition int_toString (n : Z) : string :=
  NilZero.string_of_int (Z.to_int n).

(** TimeClip of a number: the time value of [new Date(x)], truncated
    towards zero; [None] when [x] is not finite or beyond 8.64e15. *)
Definition timeClip (x : float) : option Z :=
  match Prim2SF x with
  | S754_zero _ => Some 0
  | S754_finite s m e =>
      let a := if 0 <=? e then Z.pos m * 2 ^ e else Z.pos m / 2 ^ (- e) in
      if 8640000000000000 <? a then None
      else Some (if s then - a else a)
  | _ => None
  end.

Section Host.
Context {rt : JsRuntime}.

(** [parseFloat(v)]: the argument is first converted to a string. *)
Definition parseFloat (v : JsValue) : float :=
  match v with
  | JNumber x => if PrimFloat.eqb x 0 then 0%float else x
  | JString s => parseFloatString s
  | _ => PrimFloat.nan
  end.

(** The time value of [new Date(v)]. *)
Definition newDate (v : JsValue) : option Z :=
  match v with
  | JUndefined => None
  | JNull => Some 0
  | JBool b => Some (if b then 1 else 0)
  | JNumber x => timeClip x
  | JString s => dateParse s
  end.

(** [`${v}`] *)
Definition toString (v : JsValue) : string :=
  match v with
  | JUndefined => "undefined"
  | JNull => "null"
  | JBool b => if b then "true" else "false"
  | JNumber x => numberToString x
  | JString s => s
  end.
End Host.

(** [d < t] for a date [d] and a valid time value [t]: false on the
    Invalid Date. *)
Definition date_lt (d : option Z) (t : Z) : bool :=
  match d with
  | Some x => x <? t
  | None => false
  end.

End Js.

(** [Buffer.from(s).toString('base64')] *)
Module Base64.

Definition alphabet : string :=
  "ABCDEFGHIJKLMNOPQRSTUVWXYZabcdefghijklmnopqrstuvwxyz0123456789+/".

Definition digit (n : N) : ascii :=
  match String.get (N.to_nat n) alphabet with
  | Some c => c
  | None => "="%char
  end.

Fixpoint of_bytes (l : list N) : string :=
  match l with
  | [] => ""
  | [a] =>
      String (digit (a / 4)) (String (digit (a mod 4 * 16)) "==")
  | [a; b] =>
      String (digit (a / 4))
        (String (digit (a mod 4 * 16 + b / 16))
           (String (digit (b mod 16 * 4)) "="))
  | a :: b :: c :: l' =>
      String (digit (a / 4))
        (String (digit (a mod 4 * 16 + b / 16))
           (String (digit (b mod 16 * 4 + c / 64))
              (String (digit (c mod 64)) (of_bytes l'))))
  end%N.

Definition encode (s : string) : string :=
  of_bytes (map N_of_ascii (list_ascii_of_string s)).

End Base64.

(** ** [Map]

    A JavaScript [Map] keeps its entries in insertion order; [set] on a key
    that is already there replaces the value in place. *)
Module JsMap.

Definition t (V : Type) : Type := list (JsValue * V).

Fixpoint get {V} (k : JsValue) (m : t V) : option V :=
  match m with
  | [] => None
  | (k', v) :: m' => if Js.same_value_zero k' k then Some v else get k m'
  end.

Fixpoint set {V} (k : JsValue) (v : V) (m : t V) : t V :=
  match m with
  | [] => [(k, v)]
  | (k', v') :: m' =>
      if Js.same_value_zero k' k then (k', v) :: m'
      else (k', v') :: set k v m'
  end.

Definition values {V} (m : t V) : list V := map snd m.

End JsMap.

(** ** The records of the four stores *)

Inductive Status : Type := active | blocked.

Module User.
(** [{ id: userId, ...userData, createdAt, status: 'active' }]: the spread
    comes after [id], so an [id] of the body replaces the minted one;
    [createdAt] and [status] come after the spread.  The body's further
    properties are copied too and never read. *)
Record t : Type := mk {
  id : JsValue;
  username : JsValue;
  email : JsValue;
  password : JsValue;
  createdAt : Z;
  status : Status
}.

(** [user.status = 'blocked'] *)
Definition block (u : t) : t :=
  mk (id u) (username u) (email u) (password u) (createdAt u) blocked.
End User.

Module Session.
(** [{ user, createdAt: new Date() }].  The handlers read only [user.id]
    through a session, and no handler ever writes [id]; the later write
    to [status] of the same object is therefore not observable here and
    the session holds the user as it was when the token was minted. *)
Record t : Type := mk {
  user : User.t;
  createdAt : Z
}.
End Session.

Module Flag.
(** [{ type: 'fraud_attempt', reason, timestamp, data: betData }] *)
Record t : Type := mk {
  type : string;
  reason : string;
  timestamp : Z;
  data : Object
}.
End Flag.

Module Bet.
(** [{ id: betId, userId, ...betData, status: 'pending', createdAt }]:
    [id] and [userId] can be replaced by the body, [status] and
    [createdAt] cannot.  [createdAt] is held as the time value that its
    ISO string denotes. *)
Record t : Type := mk {
  id : JsValue;
  userId : JsValue;
  matchId : JsValue;
  selection : JsValue;
  odds : JsValue;
  amount : JsValue;
  status : string;
  createdAt : Z
}.
End Bet.

(** The module-level [const users], [bets], [sessions], [accountFlags]. *)
Record State : Type := mkState {
  users : JsMap.t User.t;
  bets : JsMap.t Bet.t;
  sessions : JsMap.t Session.t;
  accountFlags : JsMap.t (list Flag.t)
}.

Definition emptyState : State := mkState [] [] [] [].

(** ** Responses *)

Module PublicUser.
Record t : Type := mk {
  id : JsValue;
  username : JsValue;
  email : JsValue;
  status : Status
}.
Definition of_user (u : User.t) : t :=
  mk (User.id u) (User.username u) (User.email u) (User.status u).
End PublicUser.

Module PlacedBet.
Record t : Type := mk {
  id : JsValue;
  matchId : JsValue;
  selection : JsValue;
  odds : JsValue;
  amount : JsValue;
  status : string
}.
End PlacedBet.

Module HistoryItem.
Record t : Type := mk {
  id : JsValue;
  matchId : JsValue;
  selection : JsValue;
  odds : JsValue;
  amount : JsValue;
  status : string;
  createdAt : Z
}.
Definition of_bet (bet : Bet.t) : t :=
  mk (Bet.id bet) (Bet.matchId bet) (Bet.selection bet) (Bet.odds bet)
     (Bet.amount bet) (Bet.status bet) (Bet.createdAt bet).
End HistoryItem.

Module AccountStatus.
Record t : Type := mk {
  accountId : JsValue;
  status : Status;
  flags : list Flag.t;
  restrictions : list string;
  verificationStatus : string;
  fraudWarnings : nat;
  lastUpdated : Z
}.
End AccountStatus.

Inductive Body : Type :=
| Error (error : string)
| FraudRejection (error fraudType details : string)
| Authenticated (message token : string) (user : PublicUser.t)
| BetAccepted (message : string) (betId : JsValue) (bet : PlacedBet.t)
| BetHistory (items : list HistoryItem.t)
| AccountReport (report : AccountStatus.t)
| Uncaught.

(** [res.status(code).json(body)]; an exception that escapes a handler is
    answered by Express with status 500 ([Uncaught]). *)
Record Response : Type := mkResponse {
  code : Z;
  body : Body
}.

(** ** The clock

    Every [Date.now()] and [new Date()] of a handler is a reading of the
    clock; a request carries the readings its handler will make, one per
    place in the source, in milliseconds since the epoch. *)

Record RegisterClock : Type := mkRegisterClock {
  idNow : Z;          (* userId = Date.now().toString() *)
  userCreatedAt : Z;  (* createdAt: new Date().toISOString() *)
  tokenNow : Z;       (* `${userId}:${Date.now()}` *)
  sessionAt : Z       (* createdAt: new Date() *)
}.

Record LoginClock : Type := mkLoginClock {
  loginTokenNow : Z;
  loginSessionAt : Z
}.

Record PlaceClock : Type := mkPlaceClock {
  checkNow : Z;       (* new Date(Date.now() - 3600000) *)
  flagAt : Z;         (* timestamp: new Date().toISOString() *)
  betIdNow : Z;       (* `BET-${Date.now()}-...` *)
  betCreatedAt : Z    (* createdAt: new Date().toISOString() *)
}.

(** ** The server *)

Module Server.

(** What the fraud checks leave in [isFraudulent], [fraudReason] and
    [fraudType]. *)
Record Verdict : Type := mkVerdict {
  isFraudulent : bool;
  fraudReason : string;
  fraudType : string
}.

Definition is_fraud_attempt (flag : Flag.t) : bool :=
  String.eqb (Flag.type flag) "fraud_attempt".

(** [.sort((a, b) => new Date(b.createdAt) - new Date(a.createdAt))]:
    [Array.prototype.sort] is stable, and the comparator orders the time
    values totally, so the result is the stable arrangement by decreasing
    [createdAt]; it is computed here by insertion. *)
Fixpoint insert_newest (a : Bet.t) (l : list Bet.t) : list Bet.t :=
  match l with
  | [] => [a]
  | b :: l' =>
      if Bet.createdAt b <=? Bet.createdAt a then a :: l
      else b :: insert_newest a l'
  end.

Definition sort_newest_first (l : list Bet.t) : list Bet.t :=
  fold_right insert_newest [] l.

Section Handlers.
Context {rt : JsRuntime}.

Definition respond (st : State) (c : Z) (b : Body) : State * Response :=
  (st, mkResponse c b).

(** [authHeader && authHeader.split(' ')[1]]; [None] is [undefined]. *)
Definition tokenOf (authHeader : option string) : option string :=
  match authHeader with
  | None => None
  | Some h => if String.eqb h "" then Some "" else nth_error (Js.split " " h) 1
  end.

(** [authenticateToken]: either answers the request itself or calls [next]
    with [req.user]. *)
Definition authenticateToken (st : State) (authHeader : option string)
  : Response + User.t :=
  match tokenOf authHeader with
  | None => inl (mkResponse 401 (Error "Unauthorized: Missing token"))
  | Some token =>
      if String.eqb token "" then
        inl (mkResponse 401 (Error "Unauthorized: Missing token"))
      else
        match JsMap.get (JString token) (sessions st) with
        | None => inl (mkResponse 401 (Error "Unauthorized: Invalid token"))
        | Some session => inr (Session.user session)
        end
  end.

(** [app.post('/auth/register', ...)] *)
Definition register (st : State) (clk : RegisterClock) (userData : Object)
  : State * Response :=
  if negb (Js.truthy (prop userData "username"))
     || negb (Js.truthy (prop userData "email"))
     || negb (Js.truthy (prop userData "password"))
  then respond st 400 (Error "Missing required fields")
  else if existsb
            (fun user =>
               Js.strict_eq (User.username user) (prop userData "username")
               || Js.strict_eq (User.email user) (prop userData "email"))
            (JsMap.values (users st))
  then respond st 409 (Error "Username or email already exists")
  else
    let userId := Js.int_toString (idNow clk) in
    let user :=
      User.mk
        (match own userData "id" with Some v => v | None => JString userId end)
        (prop userData "username") (prop userData "email")
        (prop userData "password") (userCreatedAt clk) active in
    let users' := JsMap.set (JString userId) user (users st) in
    let accountFlags' := JsMap.set (JString userId) [] (accountFlags st) in
    let token :=
      Base64.encode (userId ++ ":" ++ Js.int_toString (tokenNow clk)) in
    let sessions' :=
      JsMap.set (JString token) (Session.mk user (sessionAt clk)) (sessions st) in
    respond (mkState users' (bets st) sessions' accountFlags') 201
      (Authenticated "User registered successfully" token
         (PublicUser.of_user user)).

(** [app.post('/auth/login', ...)] *)
Definition login (st : State) (clk : LoginClock) (body : Object)
  : State * Response :=
  let username := prop body "username" in
  let password := prop body "password" in
  match find
          (fun u =>
             Js.strict_eq (User.username u) username
             && Js.strict_eq (User.password u) password)
          (JsMap.values (users st)) with
  | None => respond st 401 (Error "Invalid credentials")
  | Some user =>
      match User.status user with
      | blocked => respond st 403 (Error "Account is blocked")
      | active =>
          let token :=
            Base64.encode
              (Js.toString (User.id user) ++ ":"
               ++ Js.int_toString (loginTokenNow clk)) in
          let sessions' :=
            JsMap.set (JString token) (Session.mk user (loginSessionAt clk))
              (sessions st) in
          respond (mkState (users st) (bets st) sessions' (accountFlags st)) 200
            (Authenticated "Login successful" token (PublicUser.of_user user))
      end
  end.

(** The fraud checks of [/bets/place], in source order; each one that
    fires assigns the three variables again.  [now] is the reading used by
    the timestamp check. *)
Definition fraudDetection (now : Z) (betData : Object)
  : Js.Completion Verdict :=
  let v := mkVerdict false "" "" in
  let v :=
    if PrimFloat.leb (Js.parseFloat (prop betData "amount")) 0
    then mkVerdict true "Fraud detected: Invalid bet amount" "negative-amount"
    else v in
  let v :=
    if PrimFloat.ltb 20 (Js.parseFloat (prop betData "odds"))
    then mkVerdict true "Fraud detected: Suspicious odds manipulation"
           "odds-manipulation"
    else v in
  match Js.includes (prop betData "matchId") "-altered" with
  | Js.TypeError => Js.TypeError
  | Js.Normal altered =>
      let v :=
        if altered
        then mkVerdict true "Fraud detected: Match ID tampering detected"
               "match-alteration"
        else v in
      let v :=
        if Js.truthy (prop betData "timestamp")
           && Js.date_lt (Js.newDate (prop betData "timestamp")) (now - 3600000)
        then mkVerdict true "Fraud detected: Timestamp manipulation detected"
               "timestamp-manipulation"
        else v in
      let v :=
        if Js.truthy (prop betData "serverBypass")
           || Js.truthy (prop betData "adminApproval")
        then mkVerdict true "Fraud detected: Unauthorized request fields"
               "request-tampering"
        else v in
      Js.Normal v
  end.

(** [`BET-${Date.now()}-${userId.substring(0, 5)}`] *)
Definition betIdOf (clk : PlaceClock) (prefix : string) : string :=
  "BET-" ++ Js.int_toString (betIdNow clk) ++ "-" ++ prefix.

(** [{ id: betId, userId, ...betData, status: 'pending', createdAt: new
    Date().toISOString() }] *)
Definition newBet (clk : PlaceClock) (userId : JsValue) (betId : string)
  (betData : Object) : Bet.t :=
  Bet.mk
    (match own betData "id" with Some v => v | None => JString betId end)
    (match own betData "userId" with Some v => v | None => userId end)
    (prop betData "matchId") (prop betData "selection")
    (prop betData "odds") (prop betData "amount")
    "pending" (betCreatedAt clk).

(** The required-field check of [/bets/place]. *)
Definition missingBetInformation (betData : Object) : bool :=
  negb (Js.truthy (prop betData "matchId"))
  || negb (Js.truthy (prop betData "amount"))
  || negb (Js.truthy (prop betData "odds"))
  || negb (Js.truthy (prop betData "selection")).

(** [accountFlags.get(userId) || []] *)
Definition flagsOf (st : State) (userId : JsValue) : list Flag.t :=
  match JsMap.get userId (accountFlags st) with
  | Some userFlags => userFlags
  | None => []
  end.

(** The handler of [app.post('/bets/place', authenticateToken, ...)], for
    [req.user = user]. *)
Definition placeBet (st : State) (clk : PlaceClock) (user : User.t)
  (betData : Object) : State * Response :=
  let userId := User.id user in
  if missingBetInformation betData
  then respond st 400 (Error "Missing required bet information")
  else
    match fraudDetection (checkNow clk) betData with
    | Js.TypeError => respond st 500 Uncaught
    | Js.Normal v =>
        if isFraudulent v then
          let userFlags :=
            (flagsOf st userId
             ++ [Flag.mk "fraud_attempt" (fraudReason v) (flagAt clk) betData])%list
          in
          let accountFlags' := JsMap.set userId userFlags (accountFlags st) in
          let users' :=
            if Nat.leb 3 (List.length (filter is_fraud_attempt userFlags)) then
              match JsMap.get userId (users st) with
              | Some user => JsMap.set userId (User.block user) (users st)
              | None => users st
              end
            else users st in
          respond (mkState users' (bets st) (sessions st) accountFlags') 400
            (FraudRejection (fraudReason v) (fraudType v) (fraudReason v))
        else
          match Js.substring0 userId 5 with
          | Js.TypeError => respond st 500 Uncaught
          | Js.Normal prefix =>
              let betId := betIdOf clk prefix in
              let bet := newBet clk userId betId betData in
              respond
                (mkState (users st) (JsMap.set (JString betId) bet (bets st))
                   (sessions st) (accountFlags st))
                201
                (BetAccepted "Bet placed successfully" (Bet.id bet)
                   (PlacedBet.mk (Bet.id bet) (Bet.matchId bet)
                      (Bet.selection bet) (Bet.odds bet) (Bet.amount bet)
                      "pending"))
          end
    end.

(** The handler of [app.get('/bets/history', authenticateToken, ...)]. *)
Definition userBets (st : State) (userId : JsValue) : list Bet.t :=
  sort_newest_first
    (filter (fun bet => Js.strict_eq (Bet.userId bet) userId)
       (JsMap.values (bets st))).

Definition betHistory (st : State) (user : User.t) : State * Response :=
  let userId := User.id user in
  respond st 200 (BetHistory (map HistoryItem.of_bet (userBets st userId))).

(** The handler of [app.get('/users/account-status', authenticateToken,
    ...)]; [now] is the reading behind [lastUpdated]. *)
Definition accountStatus (st : State) (now : Z) (user : User.t)
  : State * Response :=
  let userId := User.id user in
  match JsMap.get userId (users st) with
  | None => respond st 404 (Error "User not found")
  | Some user =>
      let userFlags := flagsOf st userId in
      let hasFraudFlags := existsb is_fraud_attempt userFlags in
      respond st 200
        (AccountReport
           (AccountStatus.mk userId (User.status user) userFlags
              (if hasFraudFlags
               then ["betting_restricted"; "withdrawal_restricted"]
               else [])
              (match User.status user with
               | blocked => "rejected"
               | active => "verified"
               end)
              (List.length (filter is_fraud_attempt userFlags))
              now))
  end.

(** A route behind [authenticateToken]. *)
Definition protected (st : State) (authHeader : option string)
  (handler : User.t -> State * Response) : State * Response :=
  match authenticateToken st authHeader with
  | inl response => (st, response)
  | inr user => handler user
  end.

End Handlers.

(** The requests the server answers, each with its clock readings, the
    [Authorization] header where the route reads it, and the JSON body. *)
Inductive Request : Type :=
| PostRegister (clk : RegisterClock) (body : Object)
| PostLogin (clk : LoginClock) (body : Object)
| PostBetsPlace (clk : PlaceClock) (authorization : option string)
    (body : Object)
| GetBetsHistory (authorization : option string)
| GetAccountStatus (now : Z) (authorization : option string).

Definition handle {rt : JsRuntime} (st : State) (req : Request)
  : State * Response :=
  match req with
  | PostRegister clk body => register st clk body
  | PostLogin clk body => login st clk body
  | PostBetsPlace clk auth body =>
      protected st auth (fun user => placeBet st clk user body)
  | GetBetsHistory auth => protected st auth (betHistory st)
  | GetAccountStatus now auth => protected st auth (accountStatus st now)
  end.

(** The three routes registered behind [authenticateToken], and the
    handler each one runs once [req.user] is set. *)
Inductive ProtectedRoute : Type :=
| PlaceRoute (clk : PlaceClock) (body : Object)
| HistoryRoute
| StatusRoute (now : Z).

Definition request (route : ProtectedRoute) (authorization : option string)
  : Request :=
  match route with
  | PlaceRoute clk body => PostBetsPlace clk authorization body
  | HistoryRoute => GetBetsHistory authorization
  | StatusRoute now => GetAccountStatus now authorization
  end.

Definition downstream {rt : JsRuntime} (route : ProtectedRoute) (st : State)
  (user : User.t) : State * Response :=
  match route with
  | PlaceRoute clk body => placeBet st clk user body
  | HistoryRoute => betHistory st user
  | StatusRoute now => accountStatus st now user
  end.

(** The server answers one request at a time. *)
Fixpoint run {rt : JsRuntime} (st : State) (reqs : list Request)
  : State * list Response :=
  match reqs with
  | [] => (st, [])
  | req :: reqs' =>
      let (st1, r) := handle st req in
      let (st2, rs) := run st1 reqs' in
      (st2, r :: rs)
  end.

End Server.

(** ** A host for running the handlers

    [Reference.host] computes the three conversions on the values the
    examples below use: decimal literals without exponent of fewer than 16
    digits, integral numbers, and timestamps in the format of
    [toISOString].  The theorems hold for every host. *)

Module Reference.

Definition digit_of (c : ascii) : option Z :=
  let n := Z.of_nat (nat_of_ascii c) in
  if (48 <=? n) && (n <=? 57) then Some (n - 48) else None.

(** The value of the longest prefix of decimal digits, the number of
    digits read, and the rest. *)
Fixpoint read_digits (acc : Z) (n : nat) (s : string) : Z * nat * string :=
  match s with
  | EmptyString => (acc, n, s)
  | String c s' =>
      match digit_of c with
      | Some d => read_digits (10 * acc + d) (S n) s'
      | None => (acc, n, s)
      end
  end.

Fixpoint skip_spaces (s : string) : string :=
  match s with
  | String c s' =>
      let n := nat_of_ascii c in
      if Nat.eqb n 32 || (Nat.leb 9 n && Nat.leb n 13) then skip_spaces s'
      else s
  | EmptyString => s
  end.

Definition float_of_Z (n : Z) : float := PrimFloat.of_uint63 (Uint63.of_Z n).

Definition parse_unsigned (s : string) : option float :=
  let '(i, ni, rest) := read_digits 0 0 s in
  match rest with
  | String "." rest' =>
      let '(f, nf, _) := read_digits 0 0 rest' in
      if Nat.eqb ni 0 && Nat.eqb nf 0 then None
      else Some (float_of_Z (i * 10 ^ Z.of_nat nf + f)
                 / float_of_Z (10 ^ Z.of_nat nf))%float
  | _ => if Nat.eqb ni 0 then None else Some (float_of_Z i)
  end.

Definition parse_decimal (s : string) : float :=
  let s := skip_spaces s in
  let (neg, s) :=
    match s with
    | String "-" s' => (true, s')
    | String "+" s' => (false, s')
    | _ => (false, s)
    end in
  match parse_unsigned s with
  | Some x => if neg then (- x)%float else x
  | None => PrimFloat.nan
  end.

(** Days from 1970-01-01 to the civil date. *)
Definition days_from_civil (y m d : Z) : Z :=
  let y := if m <=? 2 then y - 1 else y in
  let era := y / 400 in
  let yoe := y - era * 400 in
  let mp := (m + 9) mod 12 in
  let doy := (153 * mp + 2) / 5 + d - 1 in
  let doe := yoe * 365 + yoe / 4 - yoe / 100 + doy in
  era * 146097 + doe - 719468.

Definition number_at (s : string) (from len : nat) : option Z :=
  let '(v, n, _) := read_digits 0 0 (String.substring from len s) in
  if Nat.eqb n len then Some v else None.

Definition char_at (s : string) (i : nat) (c : string) : bool :=
  String.eqb (String.substring i 1 s) c.

(** [YYYY-MM-DDTHH:mm:ss.sssZ] *)
Definition parse_iso (s : string) : option Z :=
  if Nat.eqb (String.length s) 24
     && char_at s 4 "-" && char_at s 7 "-" && char_at s 10 "T"
     && char_at s 13 ":" && char_at s 16 ":" && char_at s 19 "."
     && char_at s 23 "Z"
  then
    match number_at s 0 4, number_at s 5 2, number_at s 8 2,
          number_at s 11 2, number_at s 14 2, number_at s 17 2,
          number_at s 20 3 with
    | Some y, Some mo, Some d, Some h, Some mi, Some sec, Some ms =>
        if (1 <=? mo) && (mo <=? 12) && (1 <=? d) && (d <=? 31)
           && (h <=? 23) && (mi <=? 59) && (sec <=? 59)
        then Some ((((days_from_civil y mo d * 24 + h) * 60 + mi) * 60 + sec)
                   * 1000 + ms)
        else None
    | _, _, _, _, _, _, _ => None
    end
  else None.

Definition integral_toString (x : float) : string :=
  match Js.timeClip x with
  | Some n => Js.int_toString n
  | None => "NaN"
  end.

#[export] Instance host : JsRuntime := {
  parseFloatString := parse_decimal;
  dateParse := parse_iso;
  numberToString := integral_toString
}.

End Reference.

(** ** Sample requests and states, for the examples *)

Module Sample.
Import Server Reference.

Definition at_ (t : Z) : PlaceClock := mkPlaceClock t t t t.

Definition alice : Object :=
  [("username", JString "alice"); ("email", JString "alice@example.com");
   ("password", JString "AlicePass123")].

Definition aliceClock : RegisterClock :=
  mkRegisterClock 1700000000000 1700000000000 1700000000001 1700000000001.

(** After alice has registered. *)
Definition registered : State :=
  Eval vm_compute in fst (register emptyState aliceClock alice).

Definition aliceId : JsValue := JString "1700000000000".

Definition bearer : option string :=
  Some "Bearer MTcwMDAwMDAwMDAwMDoxNzAwMDAwMDAwMDAx".

Definition legitBet : Object :=
  [("matchId", JString "match-123"); ("amount", JNumber 50);
   ("odds", JString "2.5"); ("selection", JString "home")].

Definition negativeBet : Object :=
  [("matchId", JString "match-123"); ("amount", JNumber (-50));
   ("odds", JString "2.5"); ("selection", JString "home")].

Definition zeroBet : Object :=
  [("matchId", JString "match-123"); ("amount", JNumber 0);
   ("odds", JString "2.5"); ("selection", JString "home")].

Definition aliceUser : User.t :=
  User.mk aliceId (JString "alice") (JString "alice@example.com")
    (JString "AlicePass123") 1700000000000 active.

(** Negative amount and inflated odds at once. *)
Definition doubleFraud : Object :=
  [("matchId", JString "match-123"); ("amount", JNumber (-50));
   ("odds", JString "100.0"); ("selection", JString "home")].

(** Negative amount, and a [serverBypass] field that is present and
    false. *)
Definition bypassFalse : Object :=
  [("matchId", JString "match-123"); ("amount", JNumber (-50));
   ("odds", JNumber 2.5); ("selection", JString "home");
   ("serverBypass", JBool false)].

(** Inflated odds, and the number 0 as timestamp: the epoch. *)
Definition inflatedOddsAtTheEpoch : Object :=
  [("matchId", JString "match-123"); ("amount", JNumber 50);
   ("odds", JString "100.0"); ("selection", JString "home");
   ("timestamp", JNumber 0)].

(** Negative amount, inflated odds, and a number as matchId. *)
Definition doubleFraudNumberedMatch : Object :=
  [("matchId", JNumber 12345); ("amount", JNumber (-50));
   ("odds", JString "100.0"); ("selection", JString "home")].

(** Negative amount, and an [adminApproval] field that is present and
    truthy. *)
Definition negativeWithApproval : Object :=
  [("matchId", JString "match-123"); ("amount", JNumber (-50));
   ("odds", JString "2.5"); ("selection", JString "home");
   ("adminApproval", JBool true)].

(** alice's username again, another email, no password. *)
Definition aliceAgainNoPassword : Object :=
  [("username", JString "alice"); ("email", JString "other@example.com")].

(** alice's username again, another email. *)
Definition aliceAgain : Object :=
  [("username", JString "alice"); ("email", JString "other@example.com");
   ("password", JString "OtherPass456")].

Definition legitBet75 : Object :=
  [("matchId", JString "match-456"); ("amount", JNumber 75);
   ("odds", JString "1.8"); ("selection", JString "away")].

(** A bet that no rule matches, with a [userId] field of its own. *)
Definition legitBetForSomeoneElse : Object :=
  [("matchId", JString "match-123"); ("amount", JNumber 50);
   ("odds", JString "2.5"); ("selection", JString "home");
   ("userId", JString "someone-else")].

(** A registration whose body carries an [id] of its own, a number. *)
Definition bob : Object :=
  [("username", JString "bob"); ("email", JString "bob@example.com");
   ("password", JString "BobPass123"); ("id", JNumber 7)].

Definition bobClock : RegisterClock :=
  mkRegisterClock 1700000000500 1700000000500 1700000000501 1700000000501.

Definition bobRegistered : State :=
  Eval vm_compute in fst (register emptyState bobClock bob).

Definition bobBearer : option string :=
  Eval vm_compute in
    match snd (register emptyState bobClock bob) with
    | mkResponse _ (Authenticated _ token _) => Some ("Bearer " ++ token)
    | _ => None
    end.

Definition bobUser : User.t :=
  User.mk (JNumber 7) (JString "bob") (JString "bob@example.com")
    (JString "BobPass123") 1700000000500 active.

(** After one accepted bet of alice. *)
Definition oneBet : State :=
  Eval vm_compute in
    fst (handle registered
           (PostBetsPlace (at_ 1700000001000) bearer legitBet)).

(** bob registers with an [id] of his own, sends four bets with a negative
    amount, logs in and asks for his account status. *)
Definition bobAttempts : list Request :=
  [PostRegister bobClock bob;
   PostBetsPlace (at_ 1700000001000) bobBearer negativeBet;
   PostBetsPlace (at_ 1700000002000) bobBearer negativeBet;
   PostBetsPlace (at_ 1700000003000) bobBearer negativeBet;
   PostBetsPlace (at_ 1700000004000) bobBearer negativeBet;
   PostLogin (mkLoginClock 1700000005000 1700000005000) bob;
   GetAccountStatus 1700000006000 bobBearer].

(** After two rejected attempts of alice. *)
Definition twoFlags : State :=
  Eval vm_compute in
    fst (run registered
           [PostBetsPlace (at_ 1700000001000) bearer negativeBet;
            PostBetsPlace (at_ 1700000002000) bearer negativeBet]).

Definition betM1 : Object :=
  [("matchId", JString "M1"); ("amount", JNumber 50); ("odds", JNumber 2.5);
   ("selection", JString "home")].

Definition betM1Altered : Object :=
  [("matchId", JString "M1-altered"); ("amount", JNumber 50);
   ("odds", JNumber 2.5); ("selection", JString "home")].

Definition betBackdated : Object :=
  [("matchId", JString "M1"); ("amount", JNumber 50); ("odds", JNumber 2.5);
   ("selection", JString "home");
   ("timestamp", JString "2023-11-13T22:13:20.000Z")].

Definition betWithBypass : Object :=
  [("matchId", JString "M1"); ("amount", JNumber 50); ("odds", JNumber 2.5);
   ("selection", JString "home"); ("serverBypass", JBool true);
   ("adminApproval", JBool true)].

(** Register, log in, place a bet, read the history, then three rejected
    attempts of three kinds, with the history and the account status read
    after them. *)
Definition scenario : list Request :=
  [PostRegister aliceClock alice;
   PostLogin (mkLoginClock 1700000000100 1700000000100) alice;
   PostBetsPlace (at_ 1700000001000) bearer betM1;
   GetBetsHistory bearer;
   PostBetsPlace (at_ 1700000002000) bearer betM1Altered;
   GetBetsHistory bearer;
   PostBetsPlace (at_ 1700090000000) bearer betBackdated;
   PostBetsPlace (at_ 1700090001000) bearer betWithBypass;
   GetAccountStatus 1700090002000 bearer;
   PostLogin (mkLoginClock 1700090003000 1700090003000) alice].

(** After three rejected attempts of alice: her account is blocked, her
    token still resolves. *)
Definition blockedState : State :=
  Eval vm_compute in
    fst (run registered
           [PostBetsPlace (at_ 1700000001000) bearer negativeBet;
            PostBetsPlace (at_ 1700000002000) bearer negativeBet;
            PostBetsPlace (at_ 1700000003000) bearer negativeBet]).

End Sample.

(** ** Statements

    The vocabulary of the properties below. *)

Import Server.

(** The number of flags of kind fraud attempt, counted one by one. *)
Fixpoint count_fraud_attempts (flags : list Flag.t) : nat :=
  match flags with
  | [] => 0%nat
  | flag :: flags' =>
      if string_dec (Flag.type flag) "fraud_attempt"
      then S (count_fraud_attempts flags')
      else count_fraud_attempts flags'
  end.

Definition is_fraud_attempt_flag (flag : Flag.t) : Prop :=
  Flag.type flag = "fraud_attempt".

(** The status of the account stored under [userId], if there is one. *)
Definition statusOf (st : State) (userId : JsValue) : option Status :=
  option_map User.status (JsMap.get userId (users st)).

(** The operations other than registration: bet placement, login, bet
    history and account status. *)
Definition not_registration (req : Request) : Prop :=
  match req with
  | PostRegister _ _ => False
  | _ => True
  end.

(** A bet request that passes the required-field check and that the fraud
    checks judge with verdict [v]. *)
Definition judged {rt : JsRuntime} (clk : PlaceClock) (betData : Object)
  (v : Verdict) : Prop :=
  missingBetInformation betData = false
  /\ fraudDetection (checkNow clk) betData = Js.Normal v.

(** Every key of the account store is a string. *)
Definition wellKeyed (st : State) : Prop :=
  Forall (fun entry => exists s, fst entry = JString s) (users st).

(** The fraud checks as a table of rules in evaluation order: whether the
    rule's condition holds for the request, and the category and reason it
    reports.  [tampering] is the condition of the last rule. *)
Record Rule : Type := mkRule {
  fires : bool;
  category : string;
  reasonText : string
}.

Definition ruleTableWith {rt : JsRuntime} (tampering : bool) (now : Z)
  (betData : Object) : list Rule :=
  [ mkRule (PrimFloat.leb (Js.parseFloat (prop betData "amount")) 0)
      "negative-amount" "Fraud detected: Invalid bet amount";
    mkRule (PrimFloat.ltb 20 (Js.parseFloat (prop betData "odds")))
      "odds-manipulation" "Fraud detected: Suspicious odds manipulation";
    mkRule
      (match prop betData "matchId" with
       | JString m => Js.string_includes "-altered" m
       | _ => false
       end)
      "match-alteration" "Fraud detected: Match ID tampering detected";
    mkRule
      (Js.truthy (prop betData "timestamp")
       && Js.date_lt (Js.newDate (prop betData "timestamp")) (now - 3600000))
      "timestamp-manipulation"
      "Fraud detected: Timestamp manipulation detected";
    mkRule tampering
      "request-tampering" "Fraud detected: Unauthorized request fields" ].

(** The table with the last rule as the code tests it: one of the two
    fields is truthy. *)
Definition ruleTable {rt : JsRuntime} (now : Z) (betData : Object)
  : list Rule :=
  ruleTableWith
    (Js.truthy (prop betData "serverBypass")
     || Js.truthy (prop betData "adminApproval"))
    now betData.

(** [o] has an own property [k]. *)
Definition present (o : Object) (k : string) : bool :=
  match own o k with Some _ => true | None => false end.

(** The table with the last rule read as "one of the two fields is
    present"; the fourth rule is the code's: the timestamp is truthy and
    more than one hour in the past. *)
Definition ruleTableByPresence {rt : JsRuntime} (now : Z) (betData : Object)
  : list Rule :=
  ruleTableWith
    (present betData "serverBypass" || present betData "adminApproval")
    now betData.

(** [r] is the last rule of the table whose condition holds. *)
Definition last_firing (rules : list Rule) (r : Rule) : Prop :=
  exists before after,
    rules = (before ++ r :: after)%list
    /\ fires r = true
    /\ Forall (fun r' => fires r' = false) after.

(** What the rejection of a bet judged by rule [r] looks like. *)
Definition rejection (r : Rule) : Response :=
  mkResponse 400 (FraudRejection (reasonText r) (category r) (reasonText r)).

(** The verdict variables after the checks of a table have run in order
    from [v]. *)
Definition overwrite (rules : list Rule) (v : Verdict) : Verdict :=
  fold_left
    (fun v r => if fires r then mkVerdict true (reasonText r) (category r)
                else v)
    rules v.

(** The table as the claim C1 words it: the fourth rule is "timestamp
    more than 1 hour in the past", the fifth "serverBypass or adminApproval
    field present". *)
Definition ruleTableAsStated {rt : JsRuntime} (now : Z) (betData : Object)
  : list Rule :=
  [ mkRule (PrimFloat.leb (Js.parseFloat (prop betData "amount")) 0)
      "negative-amount" "Fraud detected: Invalid bet amount";
    mkRule (PrimFloat.ltb 20 (Js.parseFloat (prop betData "odds")))
      "odds-manipulation" "Fraud detected: Suspicious odds manipulation";
    mkRule
      (match prop betData "matchId" with
       | JString m => Js.string_includes "-altered" m
       | _ => false
       end)
      "match-alteration" "Fraud detected: Match ID tampering detected";
    mkRule
      (Js.date_lt (Js.newDate (prop betData "timestamp")) (now - 3600000))
      "timestamp-manipulation"
      "Fraud detected: Timestamp manipulation detected";
    mkRule (present betData "serverBypass" || present betData "adminApproval")
      "request-tampering" "Fraud detected: Unauthorized request fields" ].

(** C1 as stated: when more than one rule of the claim's table holds, the
    response is the rejection by the last of them. *)
Definition verdict_is_last_as_stated {rt : JsRuntime} (st : State)
  (clk : PlaceClock) (auth : option string) (betData : Object) : Prop :=
  missingBetInformation betData = false ->
  forall r,
    (2 <= List.length
            (filter fires (ruleTableAsStated (checkNow clk) betData)))%nat ->
    last_firing (ruleTableAsStated (checkNow clk) betData) r ->
    snd (handle st (PostBetsPlace clk auth betData)) = rejection r.

(** Neither [serverBypass] nor [adminApproval] is present with a falsy
    value. *)
Definition noFalsyTamperingField (betData : Object) : Prop :=
  (present betData "serverBypass" = true ->
   Js.truthy (prop betData "serverBypass") = true)
  /\ (present betData "adminApproval" = true ->
      Js.truthy (prop betData "adminApproval") = true).

(** C3's last part as stated: a request judged legitimate adds exactly
    one bet, with status pending, to the bets. *)
Definition legitimate_request_adds_one_bet {rt : JsRuntime} (st : State)
  (clk : PlaceClock) (auth : option string) (betData : Object) : Prop :=
  forall user v,
    authenticateToken st auth = inr user -> judged clk betData v ->
    isFraudulent v = false ->
    exists bet,
      Bet.status bet = "pending"
      /\ JsMap.values (bets (fst (handle st (PostBetsPlace clk auth betData))))
         = (JsMap.values (bets st) ++ [bet])%list.

(** C2 as stated: every authenticated request with [amount <= 0] is
    rejected, leaves the bets alone and appends a fraud-attempt flag. *)
Definition nonpositive_amount_is_flagged {rt : JsRuntime} (st : State)
  (clk : PlaceClock) (auth : option string) (user : User.t)
  (betData : Object) : Prop :=
  authenticateToken st auth = inr user ->
  PrimFloat.leb (Js.parseFloat (prop betData "amount")) 0 = true ->
  code (snd (handle st (PostBetsPlace clk auth betData))) = 400
  /\ bets (fst (handle st (PostBetsPlace clk auth betData))) = bets st
  /\ exists flag,
       is_fraud_attempt_flag flag
       /\ flagsOf (fst (handle st (PostBetsPlace clk auth betData)))
            (User.id user)
          = (flagsOf st (User.id user) ++ [flag])%list.

(** C6 as stated: every registration whose username or email equals that
    of an account of the store is answered 409 and changes nothing. *)
Definition duplicate_is_conflict (st : State) (clk : RegisterClock)
  (userData : Object) : Prop :=
  (exists existing,
      In existing (JsMap.values (users st))
      /\ (Js.strict_eq (User.username existing) (prop userData "username")
          = true
          \/ Js.strict_eq (User.email existing) (prop userData "email")
             = true)) ->
  register st clk userData
  = (st, mkResponse 409 (Error "Username or email already exists")).

(** All three required fields of a registration are there. *)
Definition hasRequiredFields (userData : Object) : Prop :=
  Js.truthy (prop userData "username") = true
  /\ Js.truthy (prop userData "email") = true
  /\ Js.truthy (prop userData "password") = true.

(** Newest first: no later element is newer. *)
Definition newest_first (a b : Bet.t) : Prop :=
  Bet.createdAt b <= Bet.createdAt a.

Definition item_newest_first (x y : HistoryItem.t) : Prop :=
  HistoryItem.createdAt y <= HistoryItem.createdAt x.

(** [bet.userId === userId] *)
Definition owned_by (userId : JsValue) (bet : Bet.t) : bool :=
  Js.strict_eq (Bet.userId bet) userId.

(** A sequence of bet placements with one token. *)
Definition placeAll (auth : option string)
  (placements : list (PlaceClock * Object)) : list Request :=
  map (fun p => PostBetsPlace (fst p) auth (snd p)) placements.

(** The bet id minted for a placement by the account [uid], and the record
    stored under it. *)
Definition mintedId (uid : string) (p : PlaceClock * Object) : string :=
  betIdOf (fst p) (String.substring 0 5 uid).

Definition mintedBet (uid : string) (p : PlaceClock * Object) : Bet.t :=
  newBet (fst p) (JString uid) (mintedId uid p) (snd p).

Definition storeAll (uid : string) (placements : list (PlaceClock * Object))
  (m : JsMap.t Bet.t) : JsMap.t Bet.t :=
  fold_left (fun m p => JsMap.set (JString (mintedId uid p)) (mintedBet uid p) m)
    placements m.

(** A history item shows the bet that a 201 response announced. *)
Definition shows (item : HistoryItem.t) (bet : PlacedBet.t) : Prop :=
  HistoryItem.id item = PlacedBet.id bet
  /\ HistoryItem.matchId item = PlacedBet.matchId bet
  /\ HistoryItem.selection item = PlacedBet.selection bet
  /\ HistoryItem.odds item = PlacedBet.odds bet
  /\ HistoryItem.amount item = PlacedBet.amount bet
  /\ HistoryItem.status item = PlacedBet.status bet.

(** C7 as stated: after any sequence of accepted placements by an
    account, its history is newest-first and shows every bet that was
    accepted. *)
Definition history_shows_every_accepted_bet {rt : JsRuntime} (st : State)
  (auth : option string) (placements : list (PlaceClock * Object)) : Prop :=
  Forall (fun r => code r = 201) (snd (run st (placeAll auth placements))) ->
  exists items,
    snd (handle (fst (run st (placeAll auth placements)))
           (GetBetsHistory auth))
    = mkResponse 200 (BetHistory items)
    /\ StronglySorted item_newest_first items
    /\ forall r message betId bet,
         In r (snd (run st (placeAll auth placements))) ->
         body r = BetAccepted message betId bet ->
         exists item, In item items /\ shows item bet.

(** C9 as stated: a blocked account with a valid token places a bet that
    no rule matches; it is accepted and shows in the account's history. *)
Definition blocked_bet_shows_in_own_history {rt : JsRuntime} (st : State)
  (clk : PlaceClock) (auth : option string) (user : User.t)
  (betData : Object) : Prop :=
  authenticateToken st auth = inr user ->
  statusOf st (User.id user) = Some blocked ->
  (exists v, judged clk betData v /\ isFraudulent v = false) ->
  exists message betId bet items,
    snd (handle st (PostBetsPlace clk auth betData))
    = mkResponse 201 (BetAccepted message betId bet)
    /\ snd (handle (fst (handle st (PostBetsPlace clk auth betData)))
              (GetBetsHistory auth))
       = mkResponse 200 (BetHistory items)
    /\ exists item, In item items /\ shows item bet.

(** ** Statements about sessions, sequences of requests and the stores

    The vocabulary of the properties of registration, login and of the
    states the server reaches. *)

(** No character of [s] is a space. *)
Fixpoint spaceless (s : string) : bool :=
  match s with
  | EmptyString => true
  | String c s' => negb (Ascii.eqb c " ") && spaceless s'
  end.

(** No account of the store has the username or the email of [userData]:
    the [some] of the registration handler is false. *)
Definition noAccountWith (st : State) (userData : Object) : Prop :=
  forall existing,
    In existing (JsMap.values (users st)) ->
    Js.strict_eq (User.username existing) (prop userData "username") = false
    /\ Js.strict_eq (User.email existing) (prop userData "email") = false.

(** The account that a registration stores. *)
Definition registeredUser (clk : RegisterClock) (userData : Object) : User.t :=
  User.mk
    (match own userData "id" with
     | Some v => v
     | None => JString (Js.int_toString (idNow clk))
     end)
    (prop userData "username") (prop userData "email")
    (prop userData "password") (userCreatedAt clk) active.

(** The token that a registration mints:
    [Buffer.from(`${userId}:${Date.now()}`).toString('base64')]. *)
Definition registerToken (clk : RegisterClock) : string :=
  Base64.encode
    (Js.int_toString (idNow clk) ++ ":" ++ Js.int_toString (tokenNow clk)).

(** The test of the [find] of the login handler. *)
Definition hasCredentials (body : Object) (u : User.t) : bool :=
  Js.strict_eq (User.username u) (prop body "username")
  && Js.strict_eq (User.password u) (prop body "password").

(** The flag that a rejected placement appends. *)
Definition flagOf (clk : PlaceClock) (betData : Object) (v : Verdict)
  : Flag.t :=
  Flag.mk "fraud_attempt" (fraudReason v) (flagAt clk) betData.

(** What a rejection with verdict [v] answers. *)
Definition rejectedWith (v : Verdict) : Response :=
  mkResponse 400 (FraudRejection (fraudReason v) (fraudType v) (fraudReason v)).

(** Every stored bet is pending. *)
Definition allPending (st : State) : Prop :=
  Forall (fun bet => Bet.status bet = "pending") (JsMap.values (bets st)).

(** Every flag of every flag list is a fraud attempt. *)
Definition allFraudAttempts (st : State) : Prop :=
  Forall (Forall is_fraud_attempt_flag) (JsMap.values (accountFlags st)).

(** Two accounts that differ in username and in email, by [===]. *)
Definition apart (a b : User.t) : Prop :=
  Js.strict_eq (User.username a) (User.username b) = false
  /\ Js.strict_eq (User.email a) (User.email b) = false.

(** Each account is apart from every later one of the store. *)
Definition distinctAccounts (st : State) : Prop :=
  ForallOrdPairs apart (JsMap.values (users st)).

(** Every key of [m] is a key of [m']. *)
Definition keeps {V} (m m' : JsMap.t V) : Prop :=
  forall k v, JsMap.get k m = Some v -> exists v', JsMap.get k m' = Some v'.

Definition keepsAll (st st' : State) : Prop :=
  keeps (users st) (users st')
  /\ keeps (bets st) (bets st')
  /\ keeps (sessions st) (sessions st')
  /\ keeps (accountFlags st) (accountFlags st').

(** ** The API client

    [ApiClient] of the test utilities: the [Authorization] header it sends
    and [placeFraudulentBet], which turns a legitimate bet into a probe of
    one fraud technique, posts it and reports whether the backend refused
    it.  The backend is the mock server above; a request body reaches it
    through [JSON.stringify] and [JSON.parse]. *)

(** The conversions of the client that are those of the host. *)
Class ClientRuntime : Type := {
  (** [Number(s)] for a string [s] *)
  stringToNumber : string -> float;
  (** [new Date(t).toISOString()] for a time value [t] *)
  dateToISOString : Z -> string
}.

Module Json.

(** [JSON.parse(JSON.stringify(v))] of a property value: [NaN] and the
    infinities come back as [null], [-0] as [0]; a property whose value is
    [undefined] is left out ([None]). *)
Definition scalar (v : JsValue) : option JsValue :=
  match v with
  | JUndefined => None
  | JNumber x =>
      if PrimFloat.is_finite x
      then Some (JNumber (if PrimFloat.eqb x 0 then 0%float else x))
      else Some JNull
  | _ => Some v
  end.

(** The properties of [o] that are not shadowed by one of [seen], after
    the round trip. *)
Fixpoint roundtrip_from (seen : list string) (o : Object) : Object :=
  match o with
  | [] => []
  | (k, v) :: o' =>
      if existsb (String.eqb k) seen then roundtrip_from seen o'
      else match scalar v with
           | Some v' => (k, v') :: roundtrip_from (k :: seen) o'
           | None => roundtrip_from (k :: seen) o'
           end
  end.

(** [JSON.parse(JSON.stringify(o))] *)
Definition roundtrip (o : Object) : Object := roundtrip_from [] o.

End Json.

(** [o.k = v] *)
Fixpoint assign (o : Object) (k : string) (v : JsValue) : Object :=
  match o with
  | [] => [(k, v)]
  | (k', v') :: o' =>
      if String.eqb k' k then (k', v) :: o' else (k', v') :: assign o' k v
  end.

Module ApiClient.

(** The client: of the axios instance, the two places that can hold an
    [Authorization] header.  [headers] is [defaults.headers.Authorization],
    where [axios.create({ headers })] puts the header of the constructor;
    [common] is [defaults.headers.common.Authorization], the one
    [setAuthToken] writes. *)
Record t : Type := mk {
  headers : option string;
  common : option string
}.

(** The header a request carries: axios merges [defaults.headers.common],
    then the headers of the method, then [defaults.headers] itself, so
    the header of the constructor, when there is one, overrides the
    common one. *)
Definition authorization (client : t) : option string :=
  match headers client with
  | Some header => Some header
  | None => common client
  end.

(** [new ApiClient(baseURL, authToken)]:
    [...(authToken && { Authorization: `Bearer ${authToken}` })] *)
Definition create (authToken : option string) : t :=
  mk (match authToken with
      | Some token =>
          if String.eqb token "" then None else Some ("Bearer " ++ token)
      | None => None
      end)
     None.

(** [setAuthToken(token)]:
    [this.client.defaults.headers.common.Authorization = `Bearer ${token}`] *)
Definition setAuthToken (token : string) (client : t) : t :=
  mk (headers client) (Some ("Bearer " ++ token)).

(** [await this.client.post(...)]: axios returns a response whose status
    is 2xx and throws any other, as [error.response]. *)
Inductive Settled : Type :=
| Returned (response : Response)
| Thrown (response : Response).

Definition settle (r : Response) : Settled :=
  if (200 <=? code r) && (code r <? 300) then Returned r else Thrown r.

(** What [placeFraudulentBet] returns: [{ success, data, fraudDetected }]
    or [{ success, error, fraudDetected, statusCode }]; [answer] is [data]
    or [error]. *)
Record Probe : Type := mkProbe {
  success : bool;
  answer : Body;
  fraudDetected : bool;
  statusCode : option Z
}.

Definition report (s : Settled) : Probe :=
  match s with
  | Returned r => mkProbe true (body r) false None
  | Thrown r => mkProbe false (body r) true (Some (code r))
  end.

Section Methods.
Context {rt : JsRuntime} {crt : ClientRuntime}.

(** ToNumber, as [Math.abs] applies it to its argument. *)
Definition toNumber (v : JsValue) : float :=
  match v with
  | JUndefined => PrimFloat.nan
  | JNull => 0%float
  | JBool b => if b then 1%float else 0%float
  | JNumber x => x
  | JString s => stringToNumber s
  end.

(** [-Math.abs(o.amount)] *)
Definition negatedAmount (o : Object) : JsValue :=
  JNumber (- PrimFloat.abs (toNumber (prop o "amount")))%float.

(** [(parseFloat(o.odds) * factor).toString()] *)
Definition inflatedOdds (o : Object) (factor : float) : JsValue :=
  JString (numberToString (Js.parseFloat (prop o "odds") * factor)%float).

(** The [switch (fraudType)] of [placeFraudulentBet] on the clone of the
    legitimate bet; [now] is the reading of [Date.now()]. *)
Definition fraudulentBetData (now : Z) (legitimateBetData : Object)
  (fraudType : JsValue) : Object :=
  let o := legitimateBetData in
  if Js.strict_eq fraudType (JString "negative-amount") then
    assign o "amount" (negatedAmount o)
  else if Js.strict_eq fraudType (JString "odds-manipulation") then
    assign o "odds" (inflatedOdds o 10)
  else if Js.strict_eq fraudType (JString "match-alteration") then
    assign o "matchId"
      (JString (Js.toString (prop o "matchId") ++ "-altered"))
  else if Js.strict_eq fraudType (JString "timestamp-manipulation") then
    assign o "timestamp" (JString (dateToISOString (now - 86400000)))
  else if Js.strict_eq fraudType (JString "request-tampering") then
    assign (assign o "serverBypass" (JBool true)) "adminApproval" (JBool true)
  else
    let o := assign o "amount" (negatedAmount o) in
    assign o "odds" (inflatedOdds o 5).

(** [placeFraudulentBet(legitimateBetData, fraudType)] against the mock
    server in state [st]; [clk] holds the readings of the server. *)
Definition placeFraudulentBet (client : t) (st : State) (now : Z)
  (clk : PlaceClock) (legitimateBetData : Object) (fraudType : JsValue)
  : State * Probe :=
  let (st', r) :=
    handle st
      (PostBetsPlace clk (authorization client)
         (Json.roundtrip (fraudulentBetData now legitimateBetData fraudType)))
  in
  (st', report (settle r)).

(** [login(credentials)] against the mock server: the token of the
    response, when there is one, is passed to [setAuthToken]. *)
Definition login (client : t) (st : State) (clk : LoginClock)
  (credentials : Object) : State * t * Settled :=
  let (st', r) := handle st (PostLogin clk (Json.roundtrip credentials)) in
  match settle r with
  | Returned r =>
      (st',
       match body r with
       | Authenticated _ token _ =>
           if String.eqb token "" then client else setAuthToken token client
       | _ => client
       end,
       Returned r)
  | Thrown r => (st', client, Thrown r)
  end.

End Methods.

End ApiClient.

(** A host for running the client: [toISOString] for the years 0000 to
    9999 and [Number] on decimal literals. *)
Module ReferenceClient.

(** The civil date of a day number counted from 1970-01-01. *)
Definition civil_from_days (z : Z) : Z * Z * Z :=
  let z := z + 719468 in
  let era := z / 146097 in
  let doe := z - era * 146097 in
  let yoe := (doe - doe / 1460 + doe / 36524 - doe / 146096) / 365 in
  let doy := doe - (365 * yoe + yoe / 4 - yoe / 100) in
  let mp := (5 * doy + 2) / 153 in
  let d := doy - (153 * mp + 2) / 5 + 1 in
  let m := if mp <? 10 then mp + 3 else mp - 9 in
  ((if m <=? 2 then yoe + era * 400 + 1 else yoe + era * 400), m, d).

(** [n] in decimal, padded with zeros to [width] digits. *)
Definition padded (width : nat) (n : Z) : string :=
  let s := Js.int_toString n in
  String.concat "" (repeat "0" (width - String.length s)) ++ s.

Definition iso_of_time (t : Z) : string :=
  let days := t / 86400000 in
  let ms := t mod 86400000 in
  let '(y, m, d) := civil_from_days days in
  padded 4 y ++ "-" ++ padded 2 m ++ "-" ++ padded 2 d ++ "T"
  ++ padded 2 (ms / 3600000) ++ ":" ++ padded 2 (ms / 60000 mod 60) ++ ":"
  ++ padded 2 (ms / 1000 mod 60) ++ "." ++ padded 3 (ms mod 1000) ++ "Z".

#[export] Instance host : ClientRuntime := {
  stringToNumber := Reference.parse_decimal;
  dateToISOString := iso_of_time
}.

End ReferenceClient.

(** A payload that arrives complete: as the server parses it, it passes
    the required-field check and its [matchId] is a string. *)
Definition arrivesComplete (betData : Object) : Prop :=
  missingBetInformation (Json.roundtrip betData) = false
  /\ exists m, prop (Json.roundtrip betData) "matchId" = JString m.

(** A payload that the server accepts at [clk]: it arrives complete and
    none of the rules holds. *)
Definition legitimate {rt : JsRuntime} (clk : PlaceClock) (betData : Object)
  : Prop :=
  arrivesComplete betData
  /\ Forall (fun r => fires r = false)
       (ruleTable (checkNow clk) (Json.roundtrip betData)).

(** What a probe reports when the server rejects it as [fraudType]. *)
Definition detectedAs (fraudType reason : string) : ApiClient.Probe :=
  ApiClient.mkProbe false (FraudRejection reason fraudType reason) true
    (Some 400).

(** A [fraudType] that is none of the five cases of the [switch]. *)
Definition unknownTechnique (fraudType : JsValue) : Prop :=
  Js.strict_eq fraudType (JString "negative-amount") = false
  /\ Js.strict_eq fraudType (JString "odds-manipulation") = false
  /\ Js.strict_eq fraudType (JString "match-alteration") = false
  /\ Js.strict_eq fraudType (JString "timestamp-manipulation") = false
  /\ Js.strict_eq fraudType (JString "request-tampering") = false.

(** The client of the examples: alice's, with the token of her
    registration. *)
Module ProbeSample.

Definition client : ApiClient.t :=
  ApiClient.create (Some "MTcwMDAwMDAwMDAwMDoxNzAwMDAwMDAwMDAx").

(** The readings of the client and of the server for a probe. *)
Definition now : Z := 1700000001000.
Definition clk : PlaceClock := Sample.at_ 1700000001000.

End ProbeSample.

(** ** Facts about [Map] *)

Lemma same_value_zero_refl (k : JsValue) : Js.same_value_zero k k = true.
Proof.
  destruct k as [| |b|x|s]; simpl; trivial.
  - apply Bool.eqb_reflx.
  - unfold PrimFloat.is_nan. destruct (PrimFloat.eqb x x); reflexivity.
  - apply String.eqb_refl.
Qed.

Lemma same_value_zero_string (k : JsValue) (s : string) :
  Js.same_value_zero k (JString s) = true -> k = JString s.
Proof.
  destruct k; simpl; try discriminate.
  intros H. apply String.eqb_eq in H. now subst.
Qed.

Lemma get_set_same {V} (k : JsValue) (v : V) (m : JsMap.t V) :
  JsMap.get k (JsMap.set k v m) = Some v.
Proof.
  induction m as [|[k' v'] m IH]; simpl.
  - now rewrite same_value_zero_refl.
  - destruct (Js.same_value_zero k' k) eqn:E; simpl; rewrite E; auto.
Qed.

(** Whatever the keys, a [set] changes a lookup only to the value set. *)
Lemma get_set_cases {V} (k k2 : JsValue) (v : V) (m : JsMap.t V) :
  JsMap.get k (JsMap.set k2 v m) = Some v
  \/ JsMap.get k (JsMap.set k2 v m) = JsMap.get k m.
Proof.
  induction m as [|[k' v'] m IH]; simpl.
  - destruct (Js.same_value_zero k2 k); auto.
  - destruct (Js.same_value_zero k' k2) eqn:E2; simpl;
      destruct (Js.same_value_zero k' k); auto.
Qed.

Lemma get_set_other_string {V} (a b : string) (v : V) (m : JsMap.t V) :
  a <> b ->
  JsMap.get (JString a) (JsMap.set (JString b) v m) = JsMap.get (JString a) m.
Proof.
  intros Hab. induction m as [|[k' v'] m IH]; simpl.
  - destruct (String.eqb b a) eqn:E; trivial.
    apply String.eqb_eq in E. congruence.
  - destruct (Js.same_value_zero k' (JString b)) eqn:E2; simpl.
    + apply same_value_zero_string in E2. subst k'. simpl.
      destruct (String.eqb b a) eqn:E; trivial.
      apply String.eqb_eq in E. congruence.
    + now rewrite IH.
Qed.

Lemma values_set_fresh {V} (k : JsValue) (v : V) (m : JsMap.t V) :
  JsMap.get k m = None ->
  JsMap.values (JsMap.set k v m) = (JsMap.values m ++ [v])%list.
Proof.
  unfold JsMap.values.
  induction m as [|[k' v'] m IH]; simpl; trivial.
  destruct (Js.same_value_zero k' k); [discriminate|].
  intros H. simpl. now rewrite IH.
Qed.

(** ** Facts about the handlers *)

Lemma count_fraud_attempts_filter (flags : list Flag.t) :
  List.length (filter is_fraud_attempt flags) = count_fraud_attempts flags.
Proof.
  induction flags as [|f flags IH]; simpl; trivial.
  unfold is_fraud_attempt at 1.
  destruct (string_dec (Flag.type f) "fraud_attempt") as [E|E].
  - rewrite E. simpl. now rewrite IH.
  - apply String.eqb_neq in E. now rewrite E.
Qed.

Lemma existsb_fraud_attempt (flags : list Flag.t) :
  existsb is_fraud_attempt flags = true <-> Exists is_fraud_attempt_flag flags.
Proof.
  rewrite existsb_exists, Exists_exists.
  unfold is_fraud_attempt, is_fraud_attempt_flag.
  split; intros [f [Hin Hf]]; exists f; split; trivial;
    now apply String.eqb_eq.
Qed.

Lemma handle_protected {rt : JsRuntime} (st : State) (route : ProtectedRoute)
  (auth : option string) :
  handle st (request route auth)
  = protected st auth (downstream route st).
Proof. destruct route; reflexivity. Qed.

(** ** The authentication gate *)

(** C5.  A request to a protected route (place bet, bet history, account
    status) without an [Authorization] header is answered 401
    "Unauthorized: Missing token"; with a header from which a token is
    extracted that the session store does not hold, 401 "Unauthorized:
    Invalid token"; in both cases the stores are those before the request.
    When the token resolves, the route's handler runs with the user of the
    session as [req.user]. *)
Theorem authentication_gate {rt : JsRuntime} (st : State)
  (route : ProtectedRoute) :
  handle st (request route None)
  = (st, mkResponse 401 (Error "Unauthorized: Missing token"))
  /\ (forall header token,
        tokenOf (Some header) = Some token -> token <> "" ->
        JsMap.get (JString token) (sessions st) = None ->
        handle st (request route (Some header))
        = (st, mkResponse 401 (Error "Unauthorized: Invalid token")))
  /\ (forall header token session,
        tokenOf (Some header) = Some token -> token <> "" ->
        JsMap.get (JString token) (sessions st) = Some session ->
        handle st (request route (Some header))
        = downstream route st (Session.user session)).
Proof.
  repeat split.
  - now rewrite handle_protected.
  - intros header token Htok Hne Hget.
    rewrite handle_protected. unfold protected, authenticateToken.
    rewrite Htok. apply String.eqb_neq in Hne. now rewrite Hne, Hget.
  - intros header token session Htok Hne Hget.
    rewrite handle_protected. unfold protected, authenticateToken.
    rewrite Htok. apply String.eqb_neq in Hne. now rewrite Hne, Hget.
Qed.

Lemma authentication_gate_witness :
  @handle Reference.host Sample.registered
    (PostBetsPlace (Sample.at_ 1700000001000) None Sample.legitBet)
  = (Sample.registered,
     mkResponse 401 (Error "Unauthorized: Missing token"))
  /\ @handle Reference.host Sample.registered
       (GetBetsHistory (Some "Bearer stale"))
     = (Sample.registered,
        mkResponse 401 (Error "Unauthorized: Invalid token"))
  /\ @handle Reference.host Sample.registered
       (GetAccountStatus 1700000001000 Sample.bearer)
     = @accountStatus Sample.registered 1700000001000 Sample.aliceUser.
Proof.
  split; [|split].
  - exact (proj1 (@authentication_gate Reference.host Sample.registered
                    (PlaceRoute (Sample.at_ 1700000001000) Sample.legitBet))).
  - apply (proj1 (proj2 (@authentication_gate Reference.host
                           Sample.registered HistoryRoute))
             "Bearer stale" "stale");
      [reflexivity | discriminate | reflexivity].
  - apply (proj2 (proj2 (@authentication_gate Reference.host
                           Sample.registered (StatusRoute 1700000001000)))
             "Bearer MTcwMDAwMDAwMDAwMDoxNzAwMDAwMDAwMDAx"
             "MTcwMDAwMDAwMDAwMDoxNzAwMDAwMDAwMDAx"
             (Session.mk Sample.aliceUser 1700000000001));
      [reflexivity | discriminate | reflexivity].
Defined.

(** ** The account-status report *)

(** C8.  For an account of the store, the account-status report carries
    the account's current status, the account's whole flag list, the two
    restrictions exactly when a flag of kind fraud attempt exists and none
    otherwise, verification status "rejected" when the account is blocked
    and "verified" otherwise, and the number of fraud-attempt flags as
    [fraudWarnings]; the stores are left as they were. *)
Theorem account_status_report {rt : JsRuntime} (st : State) (now : Z)
  (auth : option string) (user account : User.t) :
  authenticateToken st auth = inr user ->
  JsMap.get (User.id user) (users st) = Some account ->
  exists report,
    handle st (GetAccountStatus now auth)
    = (st, mkResponse 200 (AccountReport report))
    /\ AccountStatus.accountId report = User.id user
    /\ AccountStatus.status report = User.status account
    /\ AccountStatus.flags report = flagsOf st (User.id user)
    /\ (Exists is_fraud_attempt_flag (flagsOf st (User.id user)) ->
        AccountStatus.restrictions report
        = ["betting_restricted"; "withdrawal_restricted"])
    /\ (~ Exists is_fraud_attempt_flag (flagsOf st (User.id user)) ->
        AccountStatus.restrictions report = [])
    /\ (User.status account = blocked ->
        AccountStatus.verificationStatus report = "rejected")
    /\ (User.status account <> blocked ->
        AccountStatus.verificationStatus report = "verified")
    /\ AccountStatus.fraudWarnings report
       = count_fraud_attempts (flagsOf st (User.id user)).
Proof.
  intros Hauth Hget. simpl. unfold protected, accountStatus.
  rewrite Hauth, Hget. eexists. split; [reflexivity|]. simpl.
  repeat split.
  - intros H. apply existsb_fraud_attempt in H. now rewrite H.
  - intros H. destruct (existsb is_fraud_attempt _) eqn:E; trivial.
    apply existsb_fraud_attempt in E. contradiction.
  - intros H. now rewrite H.
  - intros H. destruct (User.status account); congruence.
  - apply count_fraud_attempts_filter.
Qed.

Lemma account_status_report_witness :
  exists report,
    @handle Reference.host Sample.blockedState
      (GetAccountStatus 1700000004000 Sample.bearer)
    = (Sample.blockedState, mkResponse 200 (AccountReport report))
    /\ AccountStatus.status report = blocked
    /\ AccountStatus.fraudWarnings report = 3%nat.
Proof.
  destruct (@account_status_report Reference.host Sample.blockedState
              1700000004000 Sample.bearer
              (User.mk Sample.aliceId (JString "alice")
                 (JString "alice@example.com") (JString "AlicePass123")
                 1700000000000 active)
              (User.mk Sample.aliceId (JString "alice")
                 (JString "alice@example.com") (JString "AlicePass123")
                 1700000000000 blocked)
              eq_refl eq_refl)
    as [report (Hr & _ & Hs & _ & _ & _ & _ & _ & Hw)].
  exists report. repeat split; assumption.
Defined.

(** ** Required fields of a bet *)

(** C10.  An authenticated bet request whose [amount] is the number 0, or
    whose [odds] is the number 0, or whose [matchId] or [selection] is the
    empty string, is answered 400 "Missing required bet information" by
    the required-field check: no fraud check runs, no flag is appended
    and no store changes, so such a request is never flagged. *)
Theorem zero_or_empty_field_is_missing {rt : JsRuntime} (st : State)
  (clk : PlaceClock) (auth : option string) (user : User.t)
  (betData : Object) :
  authenticateToken st auth = inr user ->
  prop betData "amount" = JNumber 0
  \/ prop betData "odds" = JNumber 0
  \/ prop betData "matchId" = JString ""
  \/ prop betData "selection" = JString "" ->
  handle st (PostBetsPlace clk auth betData)
  = (st, mkResponse 400 (Error "Missing required bet information")).
Proof.
  intros Hauth H. simpl. unfold protected, placeBet. rewrite Hauth.
  replace (missingBetInformation betData) with true; [reflexivity|].
  unfold missingBetInformation.
  destruct H as [H|[H|[H|H]]]; rewrite H; simpl;
    repeat rewrite Bool.orb_true_r; reflexivity.
Qed.

Lemma zero_or_empty_field_is_missing_witness :
  @handle Reference.host Sample.registered
    (PostBetsPlace (Sample.at_ 1700000001000) Sample.bearer Sample.zeroBet)
  = (Sample.registered,
     mkResponse 400 (Error "Missing required bet information")).
Proof.
  apply (@zero_or_empty_field_is_missing Reference.host Sample.registered
           (Sample.at_ 1700000001000) Sample.bearer
           (User.mk Sample.aliceId (JString "alice")
              (JString "alice@example.com") (JString "AlicePass123")
              1700000000000 active)
           Sample.zeroBet eq_refl).
  left. reflexivity.
Defined.

(** ** Blocking *)

Lemma placeBet_fraudulent {rt : JsRuntime} (st : State) (clk : PlaceClock)
  (user : User.t) (betData : Object) (v : Verdict) :
  judged clk betData v -> isFraudulent v = true ->
  placeBet st clk user betData
  = (let userFlags :=
       (flagsOf st (User.id user)
        ++ [Flag.mk "fraud_attempt" (fraudReason v) (flagAt clk) betData])%list
     in
     mkState
       (if Nat.leb 3 (List.length (filter is_fraud_attempt userFlags)) then
          match JsMap.get (User.id user) (users st) with
          | Some account =>
              JsMap.set (User.id user) (User.block account) (users st)
          | None => users st
          end
        else users st)
       (bets st) (sessions st)
       (JsMap.set (User.id user) userFlags (accountFlags st)),
     mkResponse 400
       (FraudRejection (fraudReason v) (fraudType v) (fraudReason v))).
Proof.
  intros [Hm Hv] Hf. unfold placeBet. now rewrite Hm, Hv, Hf.
Qed.

Lemma placeBet_users {rt : JsRuntime} (st : State) (clk : PlaceClock)
  (user : User.t) (betData : Object) :
  users (fst (placeBet st clk user betData)) = users st
  \/ exists account,
       JsMap.get (User.id user) (users st) = Some account
       /\ users (fst (placeBet st clk user betData))
          = JsMap.set (User.id user) (User.block account) (users st).
Proof.
  unfold placeBet.
  destruct (missingBetInformation betData); [now left|].
  destruct (fraudDetection _ _) as [v|]; [|now left].
  destruct (isFraudulent v).
  - unfold respond. cbn [fst users].
    match goal with |- context [Nat.leb 3 ?n] => destruct (Nat.leb 3 n) end;
      [|now left].
    destruct (JsMap.get (User.id user) (users st)) as [account|];
      [right; now exists account | now left].
  - destruct (Js.substring0 _ _); now left.
Qed.

Lemma handle_keeps_blocked {rt : JsRuntime} (st : State) (req : Request)
  (userId : JsValue) :
  not_registration req ->
  statusOf st userId = Some blocked ->
  statusOf (fst (handle st req)) userId = Some blocked.
Proof.
  intros Hreq Hb.
  destruct req as [clk body|clk body|clk auth body|auth|now auth];
    simpl in *; try contradiction.
  - unfold login. destruct (find _ _) as [u|]; trivial.
    destruct (User.status u); trivial.
  - unfold protected. destruct (authenticateToken st auth) as [r|user]; trivial.
    destruct (placeBet_users st clk user body) as [E|[account [Hget E]]];
      unfold statusOf; rewrite E; trivial.
    destruct (get_set_cases userId (User.id user) (User.block account)
                (users st)) as [H|H]; rewrite H; trivial.
  - unfold protected. destruct (authenticateToken st auth); trivial.
  - unfold protected, accountStatus.
    destruct (authenticateToken st auth) as [r|user]; trivial.
    destruct (JsMap.get (User.id user) (users st)); trivial.
Qed.

Lemma run_keeps_blocked {rt : JsRuntime} (reqs : list Request) :
  forall (st : State) (userId : JsValue),
    Forall not_registration reqs ->
    statusOf st userId = Some blocked ->
    statusOf (fst (run st reqs)) userId = Some blocked.
Proof.
  induction reqs as [|req reqs IH]; intros st userId Hall Hb; simpl; trivial.
  inversion Hall as [|? ? Hreq Hrest]; subst.
  pose proof (handle_keeps_blocked st req userId Hreq Hb) as H1.
  destruct (handle st req) as [st1 r]. simpl in H1.
  specialize (IH st1 userId Hrest H1).
  destruct (run st1 reqs) as [st2 rs]. exact IH.
Qed.

(** Registration keeps a blocked account blocked when the identity it
    mints is not yet a key of the account store. *)
Lemma register_keeps_blocked (st : State) (clk : RegisterClock)
  (userData : Object) (userId : JsValue) :
  JsMap.get (JString (Js.int_toString (idNow clk))) (users st) = None ->
  statusOf st userId = Some blocked ->
  statusOf (fst (register st clk userData)) userId = Some blocked.
Proof.
  intros Hfresh Hb. unfold register.
  destruct (_ || _); trivial. destruct (existsb _ _); trivial.
  simpl. unfold statusOf in *. simpl.
  set (k := JString (Js.int_toString (idNow clk))) in *.
  generalize dependent (users st). intros m.
  induction m as [|[k0 v0] m IH]; simpl; [discriminate|].
  destruct (Js.same_value_zero k0 k); [discriminate|]. simpl.
  destruct (Js.same_value_zero k0 userId); auto.
Qed.

Lemma flagsOf_set (us : JsMap.t User.t) (bs : JsMap.t Bet.t)
  (ss : JsMap.t Session.t) (fs : JsMap.t (list Flag.t)) (userId : JsValue)
  (userFlags : list Flag.t) :
  flagsOf (mkState us bs ss (JsMap.set userId userFlags fs)) userId
  = userFlags.
Proof. unfold flagsOf. cbn [accountFlags]. now rewrite get_set_same. Qed.

(** X21.  For a caller whose session identity is a key of the account
    store: once the flag appended by a rejected bet brings the count of
    fraud-attempt flags filed under that identity to 3 or more, the status
    of the account stored under it is [blocked].  An account that is
    blocked stays blocked under every sequence of bet placements (rejected
    or accepted), logins, history and status queries; and blocking a
    blocked account changes nothing. *)
Theorem blocking_is_monotonic {rt : JsRuntime} :
  (forall st clk auth user betData v account st' r,
      authenticateToken st auth = inr user ->
      judged clk betData v -> isFraudulent v = true ->
      JsMap.get (User.id user) (users st) = Some account ->
      handle st (PostBetsPlace clk auth betData) = (st', r) ->
      flagsOf st' (User.id user)
      = (flagsOf st (User.id user)
         ++ [Flag.mk "fraud_attempt" (fraudReason v) (flagAt clk) betData])%list
      /\ ((3 <= count_fraud_attempts (flagsOf st' (User.id user)))%nat ->
          statusOf st' (User.id user) = Some blocked))
  /\ (forall st reqs userId,
        Forall not_registration reqs ->
        statusOf st userId = Some blocked ->
        statusOf (fst (run st reqs)) userId = Some blocked)
  /\ (forall account,
        User.status account = blocked -> User.block account = account).
Proof.
  split; [|split].
  - intros st clk auth user betData v account st' r Hauth Hj Hf Hget H.
    change (protected st auth (fun user => placeBet st clk user betData)
            = (st', r)) in H.
    unfold protected in H.
    rewrite Hauth, (placeBet_fraudulent st clk user betData v Hj Hf) in H.
    cbv zeta in H. apply (f_equal fst) in H. cbn [fst] in H. subst st'.
    rewrite flagsOf_set. split; [reflexivity|].
    rewrite <- count_fraud_attempts_filter. intros Hc.
    apply Nat.leb_le in Hc. rewrite Hc, Hget.
    unfold statusOf. cbn [users]. now rewrite get_set_same.
  - intros st reqs userId. apply run_keeps_blocked.
  - intros [i u e p c s0] Hs. simpl in Hs. subst. reflexivity.
Qed.

Lemma blocking_is_monotonic_witness :
  (forall st' r,
      @handle Reference.host Sample.twoFlags
        (PostBetsPlace (Sample.at_ 1700000003000) Sample.bearer
           Sample.negativeBet)
      = (st', r) ->
      statusOf st' Sample.aliceId = Some blocked)
  /\ statusOf
       (fst (@run Reference.host Sample.blockedState
               [PostBetsPlace (Sample.at_ 1700000005000) Sample.bearer
                  Sample.legitBet;
                PostBetsPlace (Sample.at_ 1700000006000) Sample.bearer
                  Sample.negativeBet;
                PostLogin (mkLoginClock 1700000007000 1700000007000)
                  Sample.alice;
                GetAccountStatus 1700000008000 Sample.bearer;
                GetBetsHistory Sample.bearer]))
       Sample.aliceId
     = Some blocked.
Proof.
  split.
  - intros st' r H.
    destruct (proj1 (@blocking_is_monotonic Reference.host) Sample.twoFlags
                (Sample.at_ 1700000003000) Sample.bearer Sample.aliceUser
                Sample.negativeBet
                (mkVerdict true "Fraud detected: Invalid bet amount"
                   "negative-amount")
                Sample.aliceUser st' r eq_refl (conj eq_refl eq_refl) eq_refl
                eq_refl H) as [Hflags Hblocked].
    apply Hblocked. rewrite Hflags. vm_compute. repeat constructor.
  - apply (proj1 (proj2 (@blocking_is_monotonic Reference.host)));
      [repeat constructor | reflexivity].
Defined.

(** C4, on an account registered with an [id] field of its own.  bob
    registers with [id: 7] in the body: the account is stored under the
    minted id "1700000000500" and carries the identity 7, and so does the
    session.  His four bets with a negative amount are each answered 400
    and flagged under 7, where the account store holds nothing: the
    account is not blocked after the third flag nor after the fourth, his
    login is answered 200, and his account status 404. *)
Theorem an_account_registered_with_an_id_is_not_blocked :
  let out := @run Reference.host emptyState Sample.bobAttempts in
  map code (snd out) = [201; 400; 400; 400; 400; 200; 404]%Z
  /\ count_fraud_attempts (flagsOf (fst out) (JNumber 7)) = 4%nat
  /\ flagsOf (fst out) (JString "1700000000500") = []
  /\ statusOf (fst out) (JNumber 7) = None
  /\ JsMap.values (users (fst out)) = [Sample.bobUser]
  /\ User.status Sample.bobUser = active.
Proof.
  vm_compute. repeat split; reflexivity.
Qed.

(** ** The fraud rules *)

Lemma fraudDetection_table {rt : JsRuntime} (now : Z) (betData : Object)
  (m : string) :
  prop betData "matchId" = JString m ->
  fraudDetection now betData
  = Js.Normal (overwrite (ruleTable now betData) (mkVerdict false "" "")).
Proof.
  intros Hm. unfold fraudDetection, ruleTable, ruleTableWith, overwrite.
  rewrite Hm. cbn [Js.includes fold_left fires category reasonText].
  reflexivity.
Qed.

Lemma overwrite_quiet (rules : list Rule) (v : Verdict) :
  Forall (fun r => fires r = false) rules -> overwrite rules v = v.
Proof.
  unfold overwrite. revert v.
  induction rules as [|r rules IH]; intros v H; simpl; trivial.
  inversion H as [|? ? Hr Hrest]; subst. rewrite Hr. now apply IH.
Qed.

Lemma overwrite_last_firing (rules : list Rule) (r : Rule) (v : Verdict) :
  last_firing rules r ->
  overwrite rules v = mkVerdict true (reasonText r) (category r).
Proof.
  intros (before & after & -> & Hr & Hafter).
  unfold overwrite. rewrite fold_left_app. simpl. rewrite Hr.
  now apply overwrite_quiet.
Qed.

Lemma last_firing_unique (rules : list Rule) (r r' : Rule) :
  last_firing rules r -> last_firing rules r' ->
  category r = category r' /\ reasonText r = reasonText r'.
Proof.
  intros H H'.
  pose proof (overwrite_last_firing rules r (mkVerdict false "" "") H) as E.
  rewrite (overwrite_last_firing rules r' _ H') in E.
  inversion E. split; congruence.
Qed.

Lemma last_firing_or_quiet (rules : list Rule) :
  (exists r, last_firing rules r) \/ Forall (fun r => fires r = false) rules.
Proof.
  induction rules as [|r0 rules IH].
  - right. constructor.
  - destruct IH as [[r (before & after & -> & Hr & Hq)]|Hq].
    + left. exists r, (r0 :: before), after. auto.
    + destruct (fires r0) eqn:E.
      * left. exists r0, [], rules. auto.
      * right. now constructor.
Qed.

(** A request that passes the required-field check and whose last firing
    rule is [r] is rejected by [r]: one flag is appended, the account is
    blocked if that makes three, nothing else changes. *)
Lemma rejected_by_rule {rt : JsRuntime} (st : State) (clk : PlaceClock)
  (auth : option string) (user : User.t) (betData : Object) (m : string)
  (r : Rule) :
  authenticateToken st auth = inr user ->
  missingBetInformation betData = false ->
  prop betData "matchId" = JString m ->
  last_firing (ruleTable (checkNow clk) betData) r ->
  exists st',
    handle st (PostBetsPlace clk auth betData) = (st', rejection r)
    /\ bets st' = bets st
    /\ sessions st' = sessions st
    /\ flagsOf st' (User.id user)
       = (flagsOf st (User.id user)
          ++ [Flag.mk "fraud_attempt" (reasonText r) (flagAt clk) betData])%list.
Proof.
  intros Hauth Hmiss Hm Hlast.
  pose proof (fraudDetection_table (checkNow clk) betData m Hm) as Hv.
  rewrite (overwrite_last_firing _ r _ Hlast) in Hv.
  simpl. unfold protected. rewrite Hauth.
  rewrite (placeBet_fraudulent st clk user betData _ (conj Hmiss Hv) eq_refl).
  cbv zeta. cbn [isFraudulent fraudReason fraudType].
  eexists. split; [reflexivity|]. cbn [bets sessions].
  repeat split. apply flagsOf_set.
Qed.

Lemma presence_is_truthiness {rt : JsRuntime} (now : Z) (betData : Object) :
  noFalsyTamperingField betData ->
  ruleTableByPresence now betData = ruleTable now betData.
Proof.
  intros [Hs Ha]. unfold ruleTableByPresence, ruleTable. f_equal.
  unfold present, prop in *.
  destruct (own betData "serverBypass") as [s|];
    destruct (own betData "adminApproval") as [a|]; simpl.
  - now rewrite (Hs eq_refl).
  - now rewrite (Hs eq_refl).
  - now rewrite (Ha eq_refl).
  - reflexivity.
Qed.

(** C1, for requests in which neither [serverBypass] nor [adminApproval]
    is present with a falsy value.  When a bet request passes the
    required-field check, its matchId being a string, and at least one
    fraud rule holds, the 400 response carries the category and the
    reason of the last rule whose condition holds, in the order
    negative-amount (amount at most 0), odds-manipulation (odds above 20),
    match-alteration (matchId contains "-altered"), timestamp-manipulation
    (timestamp truthy and more than one hour in the past),
    request-tampering ([serverBypass] or [adminApproval] present), and the
    flag appended to the account records that rule's reason. *)
Theorem last_matching_rule_wins {rt : JsRuntime} (st : State)
  (clk : PlaceClock) (auth : option string) (user : User.t)
  (betData : Object) (m : string) (r : Rule) :
  authenticateToken st auth = inr user ->
  missingBetInformation betData = false ->
  prop betData "matchId" = JString m ->
  noFalsyTamperingField betData ->
  last_firing (ruleTableByPresence (checkNow clk) betData) r ->
  exists st',
    handle st (PostBetsPlace clk auth betData) = (st', rejection r)
    /\ flagsOf st' (User.id user)
       = (flagsOf st (User.id user)
          ++ [Flag.mk "fraud_attempt" (reasonText r) (flagAt clk) betData])%list.
Proof.
  intros Hauth Hmiss Hm Hfields Hlast.
  rewrite (presence_is_truthiness _ _ Hfields) in Hlast.
  destruct (rejected_by_rule st clk auth user betData m r Hauth Hmiss Hm Hlast)
    as (st' & H & _ & _ & Hf).
  now exists st'.
Qed.

Lemma last_matching_rule_wins_witness :
  (exists st',
     @handle Reference.host Sample.registered
       (PostBetsPlace (Sample.at_ 1700000001000) Sample.bearer
          Sample.doubleFraud)
     = (st',
        mkResponse 400
          (FraudRejection "Fraud detected: Suspicious odds manipulation"
             "odds-manipulation"
             "Fraud detected: Suspicious odds manipulation"))
     /\ flagsOf st' Sample.aliceId
        = [Flag.mk "fraud_attempt"
             "Fraud detected: Suspicious odds manipulation" 1700000001000
             Sample.doubleFraud])
  /\ (exists st',
        @handle Reference.host Sample.registered
          (PostBetsPlace (Sample.at_ 1700000001000) Sample.bearer
             Sample.negativeWithApproval)
        = (st',
           mkResponse 400
             (FraudRejection "Fraud detected: Unauthorized request fields"
                "request-tampering"
                "Fraud detected: Unauthorized request fields"))
        /\ flagsOf st' Sample.aliceId
           = [Flag.mk "fraud_attempt"
                "Fraud detected: Unauthorized request fields" 1700000001000
                Sample.negativeWithApproval]).
Proof.
  split.
  - apply (@last_matching_rule_wins Reference.host Sample.registered
             (Sample.at_ 1700000001000) Sample.bearer Sample.aliceUser
             Sample.doubleFraud "match-123"
             (mkRule true "odds-manipulation"
                "Fraud detected: Suspicious odds manipulation")
             eq_refl eq_refl eq_refl).
    + split; intros H; discriminate H.
    + exists
        [mkRule true "negative-amount" "Fraud detected: Invalid bet amount"].
      eexists. split; [vm_compute; reflexivity|].
      split; [reflexivity|]. repeat constructor.
  - apply (@last_matching_rule_wins Reference.host Sample.registered
             (Sample.at_ 1700000001000) Sample.bearer Sample.aliceUser
             Sample.negativeWithApproval "match-123"
             (mkRule true "request-tampering"
                "Fraud detected: Unauthorized request fields")
             eq_refl eq_refl eq_refl).
    + split; intros H; [discriminate H|reflexivity].
    + exists
        [mkRule true "negative-amount" "Fraud detected: Invalid bet amount";
         mkRule false "odds-manipulation"
           "Fraud detected: Suspicious odds manipulation";
         mkRule false "match-alteration"
           "Fraud detected: Match ID tampering detected";
         mkRule false "timestamp-manipulation"
           "Fraud detected: Timestamp manipulation detected"].
      exists []. split; [vm_compute; reflexivity|].
      split; [reflexivity|constructor].
Defined.

(** The claim C1 as stated fails in three ways.  With odds "100.0" and the
    number 0 as timestamp, the rules odds-manipulation and
    timestamp-manipulation of the claim's table hold, the last being
    timestamp-manipulation, and the request is rejected as
    odds-manipulation: the code's fourth check asks for a truthy
    timestamp first.  With a negative amount and [serverBypass: false],
    the rules negative-amount and request-tampering hold and the request
    is rejected as negative-amount.  With a negative amount, odds "100.0"
    and a number as matchId, the rules negative-amount and
    odds-manipulation hold and the request is answered 500. *)
Lemma the_last_rule_stated_does_not_decide :
  ~ @verdict_is_last_as_stated Reference.host Sample.registered
      (Sample.at_ 1700000001000) Sample.bearer Sample.inflatedOddsAtTheEpoch
  /\ ~ @verdict_is_last_as_stated Reference.host Sample.registered
         (Sample.at_ 1700000001000) Sample.bearer Sample.bypassFalse
  /\ ~ @verdict_is_last_as_stated Reference.host Sample.registered
         (Sample.at_ 1700000001000) Sample.bearer
         Sample.doubleFraudNumberedMatch.
Proof.
  split; [|split].
  - intros H.
    specialize (H eq_refl
                  (mkRule true "timestamp-manipulation"
                     "Fraud detected: Timestamp manipulation detected")).
    assert (Hresp :
      snd (@handle Reference.host Sample.registered
             (PostBetsPlace (Sample.at_ 1700000001000) Sample.bearer
                Sample.inflatedOddsAtTheEpoch))
      = mkResponse 400
          (FraudRejection "Fraud detected: Suspicious odds manipulation"
             "odds-manipulation"
             "Fraud detected: Suspicious odds manipulation"))
      by (vm_compute; reflexivity).
    rewrite Hresp in H.
    assert (Hr : mkResponse 400
                   (FraudRejection
                      "Fraud detected: Suspicious odds manipulation"
                      "odds-manipulation"
                      "Fraud detected: Suspicious odds manipulation")
                 = rejection
                     (mkRule true "timestamp-manipulation"
                        "Fraud detected: Timestamp manipulation detected")).
    { apply H.
      - vm_compute. repeat constructor.
      - exists
          [mkRule false "negative-amount"
             "Fraud detected: Invalid bet amount";
           mkRule true "odds-manipulation"
             "Fraud detected: Suspicious odds manipulation";
           mkRule false "match-alteration"
             "Fraud detected: Match ID tampering detected"].
        exists
          [mkRule false "request-tampering"
             "Fraud detected: Unauthorized request fields"].
        split; [vm_compute; reflexivity|].
        split; [reflexivity|repeat constructor]. }
    discriminate Hr.
  - intros H.
    specialize (H eq_refl
                  (mkRule true "request-tampering"
                     "Fraud detected: Unauthorized request fields")).
    assert (Hresp :
      snd (@handle Reference.host Sample.registered
             (PostBetsPlace (Sample.at_ 1700000001000) Sample.bearer
                Sample.bypassFalse))
      = mkResponse 400
          (FraudRejection "Fraud detected: Invalid bet amount"
             "negative-amount" "Fraud detected: Invalid bet amount"))
      by (vm_compute; reflexivity).
    rewrite Hresp in H.
    assert (Hr : mkResponse 400
                   (FraudRejection "Fraud detected: Invalid bet amount"
                      "negative-amount" "Fraud detected: Invalid bet amount")
                 = rejection
                     (mkRule true "request-tampering"
                        "Fraud detected: Unauthorized request fields")).
    { apply H.
      - vm_compute. repeat constructor.
      - exists
          [mkRule true "negative-amount" "Fraud detected: Invalid bet amount";
           mkRule false "odds-manipulation"
             "Fraud detected: Suspicious odds manipulation";
           mkRule false "match-alteration"
             "Fraud detected: Match ID tampering detected";
           mkRule false "timestamp-manipulation"
             "Fraud detected: Timestamp manipulation detected"].
        exists []. split; [vm_compute; reflexivity|].
        split; [reflexivity|constructor]. }
    discriminate Hr.
  - intros H.
    specialize (H eq_refl
                  (mkRule true "odds-manipulation"
                     "Fraud detected: Suspicious odds manipulation")).
    assert (Hresp :
      snd (@handle Reference.host Sample.registered
             (PostBetsPlace (Sample.at_ 1700000001000) Sample.bearer
                Sample.doubleFraudNumberedMatch))
      = mkResponse 500 Uncaught)
      by (vm_compute; reflexivity).
    rewrite Hresp in H.
    assert (Hr : mkResponse 500 Uncaught
                 = rejection
                     (mkRule true "odds-manipulation"
                        "Fraud detected: Suspicious odds manipulation")).
    { apply H.
      - vm_compute. repeat constructor.
      - exists
          [mkRule true "negative-amount"
             "Fraud detected: Invalid bet amount"].
        eexists. split; [vm_compute; reflexivity|].
        split; [reflexivity|repeat constructor]. }
    discriminate Hr.
Qed.

(** ** Negative amounts *)

(** C2, for requests that pass the required-field check.  An
    authenticated bet request that passes the required-field check, which
    a zero amount does not, and whose amount is at most 0 is rejected
    with status 400; the bets are left as they were and one fraud-attempt
    flag is appended to the account's flag list.  The category and reason
    reported are those of the last rule that fires: negative-amount when
    no later rule fires. *)
Theorem negative_amount_is_flagged {rt : JsRuntime} (st : State)
  (clk : PlaceClock) (auth : option string) (user : User.t)
  (betData : Object) (m : string) :
  authenticateToken st auth = inr user ->
  missingBetInformation betData = false ->
  prop betData "matchId" = JString m ->
  PrimFloat.leb (Js.parseFloat (prop betData "amount")) 0 = true ->
  exists st' r,
    last_firing (ruleTable (checkNow clk) betData) r
    /\ handle st (PostBetsPlace clk auth betData) = (st', rejection r)
    /\ bets st' = bets st
    /\ flagsOf st' (User.id user)
       = (flagsOf st (User.id user)
          ++ [Flag.mk "fraud_attempt" (reasonText r) (flagAt clk) betData])%list
    /\ (Forall (fun r' => fires r' = false)
          (tl (ruleTable (checkNow clk) betData)) ->
        category r = "negative-amount"
        /\ reasonText r = "Fraud detected: Invalid bet amount").
Proof.
  intros Hauth Hmiss Hm Hamount.
  destruct (last_firing_or_quiet (ruleTable (checkNow clk) betData))
    as [[r Hlast]|Hq].
  - destruct (rejected_by_rule st clk auth user betData m r Hauth Hmiss Hm
                Hlast) as (st' & H & Hb & _ & Hf).
    exists st', r.
    split; [exact Hlast|]. split; [exact H|]. split; [exact Hb|].
    split; [exact Hf|]. intros Hquiet.
    apply (last_firing_unique _ r
             (mkRule true "negative-amount"
                "Fraud detected: Invalid bet amount") Hlast).
    exists [], (tl (ruleTable (checkNow clk) betData)).
    split; [|split; [reflexivity|exact Hquiet]].
    unfold ruleTable, ruleTableWith. rewrite Hamount. reflexivity.
  - unfold ruleTable, ruleTableWith in Hq. inversion Hq as [|? ? Hr _].
    simpl in Hr. congruence.
Qed.

Lemma negative_amount_is_flagged_witness :
  exists st',
    @handle Reference.host Sample.registered
      (PostBetsPlace (Sample.at_ 1700000001000) Sample.bearer
         Sample.negativeBet)
    = (st',
       mkResponse 400
         (FraudRejection "Fraud detected: Invalid bet amount"
            "negative-amount" "Fraud detected: Invalid bet amount"))
    /\ bets st' = []
    /\ flagsOf st' Sample.aliceId
       = [Flag.mk "fraud_attempt" "Fraud detected: Invalid bet amount"
            1700000001000 Sample.negativeBet].
Proof.
  destruct (@negative_amount_is_flagged Reference.host Sample.registered
              (Sample.at_ 1700000001000) Sample.bearer Sample.aliceUser
              Sample.negativeBet "match-123" eq_refl eq_refl eq_refl eq_refl)
    as (st' & r & _ & H & Hb & Hf & Hcat).
  destruct Hcat as [Hc Hr]; [vm_compute; repeat constructor|].
  unfold rejection in H. rewrite Hc, Hr in H. rewrite Hr in Hf.
  exists st'. repeat split; assumption.
Defined.

(** The claim C2 as stated fails at amount 0: the request is answered by
    the required-field check and no flag is appended. *)
Lemma zero_amount_is_not_flagged :
  ~ @nonpositive_amount_is_flagged Reference.host Sample.registered
      (Sample.at_ 1700000001000) Sample.bearer Sample.aliceUser
      Sample.zeroBet.
Proof.
  intros H. destruct (H eq_refl eq_refl) as (_ & _ & flag & _ & Hf).
  vm_compute in Hf. discriminate Hf.
Qed.

(** ** The keys of the account store *)

Lemma set_keeps_string_keys {V} (s : string) (v : V) (m : JsMap.t V) :
  Forall (fun entry => exists s, fst entry = JString s) m ->
  Forall (fun entry => exists s, fst entry = JString s)
    (JsMap.set (JString s) v m).
Proof.
  induction 1 as [|[k0 v0] m Hk Hm IH]; simpl.
  - repeat constructor. now exists s.
  - destruct (Js.same_value_zero k0 (JString s)); constructor; trivial.
Qed.

Lemma set_present_keeps_string_keys {V} (k : JsValue) (v v0 : V)
  (m : JsMap.t V) :
  JsMap.get k m = Some v0 ->
  Forall (fun entry => exists s, fst entry = JString s) m ->
  Forall (fun entry => exists s, fst entry = JString s) (JsMap.set k v m).
Proof.
  intros Hget Hm. revert Hget.
  induction Hm as [|[k0 v1] m Hk Hm IH]; simpl; [discriminate|].
  destruct (Js.same_value_zero k0 k); intros Hget; constructor; auto.
Qed.

Lemma handle_wellKeyed {rt : JsRuntime} (st : State) (req : Request) :
  wellKeyed st -> wellKeyed (fst (handle st req)).
Proof.
  intros Hwf.
  destruct req as [clk body|clk body|clk auth body|auth|now auth]; simpl.
  - unfold register. destruct (_ || _); trivial.
    destruct (existsb _ _); trivial.
    unfold wellKeyed. cbn [fst respond users].
    now apply set_keeps_string_keys.
  - unfold login. destruct (find _ _) as [u|]; trivial.
    destruct (User.status u); trivial.
  - unfold protected. destruct (authenticateToken st auth) as [r|user]; trivial.
    destruct (placeBet_users st clk user body) as [E|[account [Hget E]]];
      unfold wellKeyed; rewrite E; trivial.
    now apply (set_present_keeps_string_keys _ _ account).
  - unfold protected. destruct (authenticateToken st auth); trivial.
  - unfold protected, accountStatus.
    destruct (authenticateToken st auth) as [r|user]; trivial.
    destruct (JsMap.get (User.id user) (users st)); trivial.
Qed.

(** In every state the server reaches from the empty stores, the keys of
    the account store are strings. *)
Lemma reachable_wellKeyed {rt : JsRuntime} (reqs : list Request) :
  forall st, wellKeyed st -> wellKeyed (fst (run st reqs)).
Proof.
  induction reqs as [|req reqs IH]; intros st Hwf; simpl; trivial.
  pose proof (handle_wellKeyed st req Hwf) as H1.
  destruct (handle st req) as [st1 r]. simpl in H1.
  specialize (IH st1 H1). destruct (run st1 reqs) as [st2 rs]. exact IH.
Qed.

(** The identity under which an account is found in such a store is a
    string. *)
Lemma account_identity_is_string (st : State) (userId : JsValue)
  (account : User.t) :
  wellKeyed st ->
  JsMap.get userId (users st) = Some account ->
  exists uid, userId = JString uid.
Proof.
  unfold wellKeyed. generalize (users st). intros m Hwf.
  induction Hwf as [|[k0 v0] m [s Hk] Hm IH]; simpl; [discriminate|].
  simpl in Hk. subst k0.
  destruct (Js.same_value_zero (JString s) userId) eqn:E; [|exact IH].
  intros _. exists s. destruct userId; simpl in E; try discriminate.
  apply String.eqb_eq in E. now subst.
Qed.

(** ** Flags and bets exclude each other *)

Lemma placeBet_legitimate {rt : JsRuntime} (st : State) (clk : PlaceClock)
  (user : User.t) (betData : Object) (v : Verdict) (uid : string) :
  judged clk betData v -> isFraudulent v = false ->
  User.id user = JString uid ->
  placeBet st clk user betData
  = (let betId := betIdOf clk (String.substring 0 5 uid) in
     let bet := newBet clk (JString uid) betId betData in
     (mkState (users st) (JsMap.set (JString betId) bet (bets st))
        (sessions st) (accountFlags st),
      mkResponse 201
        (BetAccepted "Bet placed successfully" (Bet.id bet)
           (PlacedBet.mk (Bet.id bet) (Bet.matchId bet) (Bet.selection bet)
              (Bet.odds bet) (Bet.amount bet) "pending")))).
Proof.
  intros [Hm Hv] Hf Hid. unfold placeBet. now rewrite Hm, Hv, Hf, Hid.
Qed.

(** What a call to bet placement can do to the stores. *)
Lemma place_outcome {rt : JsRuntime} (st : State) (clk : PlaceClock)
  (auth : option string) (betData : Object) (st' : State) (r : Response) :
  handle st (PostBetsPlace clk auth betData) = (st', r) ->
  st' = st
  \/ (exists user v,
        authenticateToken st auth = inr user /\ judged clk betData v
        /\ isFraudulent v = true
        /\ bets st' = bets st /\ sessions st' = sessions st)
  \/ (exists user v,
        authenticateToken st auth = inr user /\ judged clk betData v
        /\ isFraudulent v = false
        /\ users st' = users st /\ accountFlags st' = accountFlags st
        /\ sessions st' = sessions st).
Proof.
  simpl. unfold protected.
  destruct (authenticateToken st auth) as [resp|user] eqn:Hauth;
    [intros H; inversion H; now left|].
  unfold placeBet.
  destruct (missingBetInformation betData) eqn:Hm;
    [intros H; inversion H; now left|].
  destruct (fraudDetection (checkNow clk) betData) as [v|] eqn:Hv;
    [|intros H; inversion H; now left].
  destruct (isFraudulent v) eqn:Hf.
  - intros H. inversion H; subst. right. left. exists user, v.
    repeat split; trivial.
  - destruct (Js.substring0 (User.id user) 5);
      intros H; inversion H; subst; [|now left].
    right. right. exists user, v. repeat split; trivial.
Qed.

(** C3, with the identity of the caller and the bet id made explicit.
    In one call to bet placement, a flag is appended or a status changed
    only when the request was judged fraudulent, and then the bets are
    left as they were; a bet is stored only when the request was judged
    legitimate, and then the flags and the accounts are left as they
    were.  A request judged fraudulent is answered 400 with the verdict,
    stores no bet and has one flag appended to the caller's flag list.  A
    request judged legitimate, from a caller whose identity is a string,
    is answered 201, leaves accounts, flags and sessions as they were and
    stores the new bet, with status pending, under the bet id minted from
    the clock and the identity; when that id is not yet a key of the
    bets, the bets are the former ones followed by the new one. *)
Theorem flag_and_bet_are_exclusive {rt : JsRuntime} (st : State)
  (clk : PlaceClock) (auth : option string) (betData : Object)
  (st' : State) (r : Response) :
  handle st (PostBetsPlace clk auth betData) = (st', r) ->
  (accountFlags st' <> accountFlags st \/ users st' <> users st ->
   bets st' = bets st
   /\ exists user v,
        authenticateToken st auth = inr user /\ judged clk betData v
        /\ isFraudulent v = true)
  /\ (bets st' <> bets st ->
      accountFlags st' = accountFlags st /\ users st' = users st
      /\ exists user v,
           authenticateToken st auth = inr user /\ judged clk betData v
           /\ isFraudulent v = false)
  /\ (forall user v,
        authenticateToken st auth = inr user -> judged clk betData v ->
        isFraudulent v = true ->
        r = mkResponse 400
              (FraudRejection (fraudReason v) (fraudType v) (fraudReason v))
        /\ bets st' = bets st
        /\ flagsOf st' (User.id user)
           = (flagsOf st (User.id user)
              ++ [Flag.mk "fraud_attempt" (fraudReason v) (flagAt clk)
                    betData])%list)
  /\ (forall user v uid,
        authenticateToken st auth = inr user -> judged clk betData v ->
        isFraudulent v = false -> User.id user = JString uid ->
        let betId := betIdOf clk (String.substring 0 5 uid) in
        let bet := newBet clk (JString uid) betId betData in
        r = mkResponse 201
              (BetAccepted "Bet placed successfully" (Bet.id bet)
                 (PlacedBet.mk (Bet.id bet) (Bet.matchId bet)
                    (Bet.selection bet) (Bet.odds bet) (Bet.amount bet)
                    "pending"))
        /\ accountFlags st' = accountFlags st /\ users st' = users st
        /\ sessions st' = sessions st
        /\ bets st' = JsMap.set (JString betId) bet (bets st)
        /\ Bet.status bet = "pending"
        /\ (JsMap.get (JString betId) (bets st) = None ->
            JsMap.values (bets st')
            = (JsMap.values (bets st) ++ [bet])%list)).
Proof.
  intros H. pose proof (place_outcome st clk auth betData st' r H) as Hout.
  split; [|split; [|split]].
  - intros Hch.
    destruct Hout as [->|[(user & v & Ha & Hj & Hf & Hb & _)
                         |(user & v & _ & _ & _ & Hu & Hfl & _)]].
    + destruct Hch; congruence.
    + split; trivial. now exists user, v.
    + destruct Hch; congruence.
  - intros Hch.
    destruct Hout as [->|[(user & v & _ & _ & _ & Hb & _)
                         |(user & v & Ha & Hj & Hf & Hu & Hfl & _)]];
      try congruence.
    repeat split; trivial. now exists user, v.
  - intros user v Ha Hj Hf. simpl in H. unfold protected in H.
    rewrite Ha, (placeBet_fraudulent st clk user betData v Hj Hf) in H.
    inversion H; subst. cbn [bets].
    split; [reflexivity|]. split; [reflexivity|]. apply flagsOf_set.
  - intros user v uid Ha Hj Hf Hid. simpl in H. unfold protected in H.
    rewrite Ha, (placeBet_legitimate st clk user betData v uid Hj Hf Hid) in H.
    inversion H; subst. cbn [accountFlags users bets sessions].
    repeat split; trivial.
    apply values_set_fresh.
Qed.

Lemma flag_and_bet_are_exclusive_witness :
  (exists st',
     @handle Reference.host Sample.registered
       (PostBetsPlace (Sample.at_ 1700000001000) Sample.bearer
          Sample.legitBet)
     = (st',
        mkResponse 201
          (BetAccepted "Bet placed successfully"
             (JString "BET-1700000001000-17000")
             (PlacedBet.mk (JString "BET-1700000001000-17000")
                (JString "match-123") (JString "home") (JString "2.5")
                (JNumber 50) "pending")))
     /\ accountFlags st' = accountFlags Sample.registered
     /\ users st' = users Sample.registered
     /\ JsMap.values (bets st')
        = [Bet.mk (JString "BET-1700000001000-17000") Sample.aliceId
             (JString "match-123") (JString "home") (JString "2.5")
             (JNumber 50) "pending" 1700000001000])
  /\ (exists st',
        @handle Reference.host Sample.registered
          (PostBetsPlace (Sample.at_ 1700000001000) Sample.bearer
             Sample.negativeBet)
        = (st',
           mkResponse 400
             (FraudRejection "Fraud detected: Invalid bet amount"
                "negative-amount" "Fraud detected: Invalid bet amount"))
        /\ bets st' = bets Sample.registered
        /\ flagsOf st' Sample.aliceId
           = [Flag.mk "fraud_attempt" "Fraud detected: Invalid bet amount"
                1700000001000 Sample.negativeBet]).
Proof.
  split.
  - destruct (proj2 (proj2 (proj2
                (@flag_and_bet_are_exclusive Reference.host Sample.registered
                   (Sample.at_ 1700000001000) Sample.bearer Sample.legitBet
                   _ _ (surjective_pairing _))))
                Sample.aliceUser (mkVerdict false "" "") "1700000000000"
                eq_refl (conj eq_refl eq_refl) eq_refl eq_refl)
      as (Hr & Hf & Hu & _ & _ & _ & Hv).
    eexists. split.
    { etransitivity; [apply surjective_pairing|].
      apply f_equal. exact Hr. }
    split; [exact Hf|]. split; [exact Hu|].
    exact (Hv eq_refl).
  - destruct (proj1 (proj2 (proj2
                (@flag_and_bet_are_exclusive Reference.host Sample.registered
                   (Sample.at_ 1700000001000) Sample.bearer
                   Sample.negativeBet _ _ (surjective_pairing _))))
                Sample.aliceUser
                (mkVerdict true "Fraud detected: Invalid bet amount"
                   "negative-amount")
                eq_refl (conj eq_refl eq_refl) eq_refl)
      as (Hr & Hb & Hf).
    eexists. split.
    { etransitivity; [apply surjective_pairing|].
      apply f_equal. exact Hr. }
    split; [exact Hb|exact Hf].
Defined.

(** The last part of the claim C3 as stated fails in two ways.  A bet
    accepted in the same millisecond as an earlier bet of the caller is
    stored under the earlier one's id and replaces it: the bets are as
    many as before.  A request that no rule matches, from a caller whose
    session identity is the number 7 that the registration body carried,
    is answered 500 and stores nothing. *)
Lemma a_legitimate_request_may_add_no_bet :
  ~ @legitimate_request_adds_one_bet Reference.host Sample.oneBet
      (Sample.at_ 1700000001000) Sample.bearer Sample.legitBet75
  /\ ~ @legitimate_request_adds_one_bet Reference.host Sample.bobRegistered
         (Sample.at_ 1700000001000) Sample.bobBearer Sample.legitBet.
Proof.
  split; intros H.
  - destruct (H Sample.aliceUser (mkVerdict false "" "") eq_refl
                (conj eq_refl eq_refl) eq_refl) as (bet & _ & Hv).
    vm_compute in Hv. discriminate Hv.
  - destruct (H Sample.bobUser (mkVerdict false "" "") eq_refl
                (conj eq_refl eq_refl) eq_refl) as (bet & _ & Hv).
    vm_compute in Hv. discriminate Hv.
Qed.

(** ** Registration *)

Lemma strict_eq_truthy_refl (v : JsValue) :
  Js.truthy v = true -> Js.strict_eq v v = true.
Proof.
  destruct v as [| |b|x|s]; simpl; try discriminate.
  - intros ->. reflexivity.
  - unfold PrimFloat.is_nan. destruct (PrimFloat.eqb x x); trivial.
    now rewrite Bool.orb_true_r.
  - intros _. apply String.eqb_refl.
Qed.

Lemma in_values_set {V} (k : JsValue) (v : V) (m : JsMap.t V) :
  In v (JsMap.values (JsMap.set k v m)).
Proof.
  unfold JsMap.values.
  induction m as [|[k' v'] m IH]; simpl; auto.
  destruct (Js.same_value_zero k' k); simpl; auto.
Qed.

Lemma register_conflict (st : State) (clk : RegisterClock)
  (userData : Object) (existing : User.t) :
  hasRequiredFields userData ->
  In existing (JsMap.values (users st)) ->
  Js.strict_eq (User.username existing) (prop userData "username") = true
  \/ Js.strict_eq (User.email existing) (prop userData "email") = true ->
  register st clk userData
  = (st, mkResponse 409 (Error "Username or email already exists")).
Proof.
  intros (Hu & He & Hp) Hin Heq. unfold register.
  rewrite Hu, He, Hp. cbn [negb orb].
  replace (existsb _ _) with true; [reflexivity|].
  symmetry. apply existsb_exists. exists existing. split; trivial.
  apply Bool.orb_true_iff. exact Heq.
Qed.

(** C6, for requests that carry the three required fields.  Whatever the
    account store holds, a registration that carries username, email and
    password and whose username or email equals that of an account of the
    store is answered 409: no account, no flag list and no session are
    created.  In particular, after a registration that succeeded, a
    second one with the same username is answered 409 whatever its
    email. *)
Theorem duplicate_registration_conflicts :
  (forall st clk userData existing,
      hasRequiredFields userData ->
      In existing (JsMap.values (users st)) ->
      Js.strict_eq (User.username existing) (prop userData "username") = true
      \/ Js.strict_eq (User.email existing) (prop userData "email") = true ->
      register st clk userData
      = (st, mkResponse 409 (Error "Username or email already exists")))
  /\ (forall st clk1 first st1 r1 clk2 second,
        register st clk1 first = (st1, r1) -> code r1 = 201 ->
        hasRequiredFields second ->
        prop second "username" = prop first "username" ->
        register st1 clk2 second
        = (st1, mkResponse 409 (Error "Username or email already exists"))).
Proof.
  split; [exact register_conflict|].
  intros st clk1 first st1 r1 clk2 second Hreg Hcode Hreq Hsame.
  unfold register in Hreg.
  destruct (_ || _) eqn:Hmiss; [inversion Hreg; subst; discriminate|].
  destruct (existsb _ _); [inversion Hreg; subst; discriminate|].
  inversion Hreg; subst st1 r1; clear Hreg.
  eapply register_conflict; trivial.
  - cbn [users]. apply in_values_set.
  - left. cbn [User.username]. rewrite Hsame. apply strict_eq_truthy_refl.
    apply Bool.orb_false_iff in Hmiss. destruct Hmiss as [Hmiss _].
    apply Bool.orb_false_iff in Hmiss. destruct Hmiss as [Hmiss _].
    now apply Bool.negb_false_iff in Hmiss.
Qed.

Lemma duplicate_registration_conflicts_witness :
  register Sample.registered
    (mkRegisterClock 1700000009000 1700000009000 1700000009000 1700000009000)
    Sample.aliceAgain
  = (Sample.registered,
     mkResponse 409 (Error "Username or email already exists")).
Proof.
  apply (proj2 duplicate_registration_conflicts emptyState Sample.aliceClock
           Sample.alice Sample.registered
           (snd (register emptyState Sample.aliceClock Sample.alice)));
    [vm_compute; reflexivity | reflexivity | repeat split | reflexivity].
Defined.

(** The claim C6 as stated fails when a required field is missing: the
    username is alice's, the password is absent, and the answer is 400. *)
Lemma duplicate_without_password_is_400 :
  ~ duplicate_is_conflict Sample.registered
      (mkRegisterClock 1700000009000 1700000009000 1700000009000
         1700000009000)
      Sample.aliceAgainNoPassword.
Proof.
  intros H.
  assert (E : register Sample.registered
                (mkRegisterClock 1700000009000 1700000009000 1700000009000
                   1700000009000)
                Sample.aliceAgainNoPassword
              = (Sample.registered,
                 mkResponse 400 (Error "Missing required fields")))
    by reflexivity.
  unfold duplicate_is_conflict in H. rewrite E in H.
  assert (Hc : (Sample.registered,
                mkResponse 400 (Error "Missing required fields"))
               = (Sample.registered,
                  mkResponse 409 (Error "Username or email already exists"))).
  { apply H. exists Sample.aliceUser. split; [left; reflexivity|].
    left. reflexivity. }
  inversion Hc.
Qed.

(** ** Bet history *)

Lemma insert_newest_perm (a : Bet.t) (l : list Bet.t) :
  Permutation (a :: l) (insert_newest a l).
Proof.
  induction l as [|b l IH]; simpl; auto.
  destruct (Bet.createdAt b <=? Bet.createdAt a); auto.
  rewrite perm_swap. now constructor.
Qed.

Lemma sort_newest_first_perm (l : list Bet.t) :
  Permutation l (sort_newest_first l).
Proof.
  induction l as [|a l IH]; simpl; auto.
  rewrite <- insert_newest_perm. now constructor.
Qed.

Lemma insert_newest_sorted (a : Bet.t) (l : list Bet.t) :
  Sorted newest_first l -> Sorted newest_first (insert_newest a l).
Proof.
  induction l as [|b l IH]; intros Hs; simpl.
  - repeat constructor.
  - destruct (Bet.createdAt b <=? Bet.createdAt a) eqn:E.
    + constructor; trivial. constructor. unfold newest_first. lia.
    + inversion Hs as [|? ? Hl Hhd]; subst.
      constructor; [now apply IH|].
      destruct l as [|c l]; simpl.
      * constructor. unfold newest_first. lia.
      * destruct (Bet.createdAt c <=? Bet.createdAt a);
          constructor; unfold newest_first; try lia.
        now inversion Hhd.
Qed.

Lemma sort_newest_first_sorted (l : list Bet.t) :
  StronglySorted newest_first (sort_newest_first l).
Proof.
  apply Sorted_StronglySorted.
  - intros a b c Hab Hbc. unfold newest_first in *. lia.
  - induction l as [|a l IH]; simpl; [constructor|].
    now apply insert_newest_sorted.
Qed.

Lemma items_newest_first (l : list Bet.t) :
  StronglySorted newest_first l ->
  StronglySorted item_newest_first (map HistoryItem.of_bet l).
Proof.
  induction 1 as [|a l Hl IH Ha]; simpl; constructor; trivial.
  rewrite Forall_map. exact Ha.
Qed.

Lemma authenticateToken_sessions (st st1 : State) (auth : option string) :
  sessions st1 = sessions st ->
  authenticateToken st1 auth = authenticateToken st auth.
Proof. intros H. unfold authenticateToken. now rewrite H. Qed.

(** What the history route answers. *)
Lemma history_response {rt : JsRuntime} (st : State) (auth : option string)
  (user : User.t) :
  authenticateToken st auth = inr user ->
  handle st (GetBetsHistory auth)
  = (st, mkResponse 200
           (BetHistory (map HistoryItem.of_bet (userBets st (User.id user))))).
Proof. intros H. simpl. unfold protected. now rewrite H. Qed.

Lemma userBets_perm (st : State) (userId : JsValue) :
  Permutation (userBets st userId)
    (filter (owned_by userId) (JsMap.values (bets st))).
Proof. symmetry. apply sort_newest_first_perm. Qed.

(** A placement answered 201 stored the minted bet and nothing else. *)
Lemma accepted_step {rt : JsRuntime} (st : State) (auth : option string)
  (user : User.t) (uid : string) (p : PlaceClock * Object) (st1 : State)
  (r : Response) :
  authenticateToken st auth = inr user ->
  User.id user = JString uid ->
  handle st (PostBetsPlace (fst p) auth (snd p)) = (st1, r) ->
  code r = 201 ->
  st1 = mkState (users st)
          (JsMap.set (JString (mintedId uid p)) (mintedBet uid p) (bets st))
          (sessions st) (accountFlags st)
  /\ r = mkResponse 201
           (BetAccepted "Bet placed successfully" (Bet.id (mintedBet uid p))
              (PlacedBet.mk (Bet.id (mintedBet uid p))
                 (Bet.matchId (mintedBet uid p))
                 (Bet.selection (mintedBet uid p))
                 (Bet.odds (mintedBet uid p)) (Bet.amount (mintedBet uid p))
                 "pending")).
Proof.
  intros Hauth Hid. simpl. unfold protected, placeBet. rewrite Hauth, Hid.
  destruct (missingBetInformation (snd p));
    [intros H; inversion H; subst; discriminate|].
  destruct (fraudDetection _ _) as [v|];
    [|intros H; inversion H; subst; discriminate].
  destruct (isFraudulent v); intros H; inversion H; subst;
    [discriminate|]. intros _. split; reflexivity.
Qed.

Lemma run_placeAll {rt : JsRuntime} (auth : option string) (user : User.t)
  (uid : string) (placements : list (PlaceClock * Object)) :
  forall st,
    authenticateToken st auth = inr user ->
    User.id user = JString uid ->
    Forall (fun r => code r = 201) (snd (run st (placeAll auth placements))) ->
    fst (run st (placeAll auth placements))
    = mkState (users st) (storeAll uid placements (bets st)) (sessions st)
        (accountFlags st).
Proof.
  induction placements as [|p ps IH]; intros st Hauth Hid Hall.
  - now destruct st.
  - cbn [placeAll map run] in *.
    destruct (handle st (PostBetsPlace (fst p) auth (snd p))) as [st1 r] eqn:E.
    fold (placeAll auth ps) in *.
    destruct (run st1 (placeAll auth ps)) as [st2 rs] eqn:E2.
    cbn [fst snd] in *. inversion Hall as [|? ? Hr Hrs]; subst.
    destruct (accepted_step st auth user uid p st1 r Hauth Hid E Hr)
      as [Hst1 _].
    specialize (IH st1). rewrite E2 in IH. cbn [fst snd] in IH.
    rewrite IH; trivial.
    + subst st1. reflexivity.
    + rewrite <- Hauth. apply authenticateToken_sessions.
      subst st1. reflexivity.
Qed.

Lemma values_storeAll (uid : string) (placements : list (PlaceClock * Object)) :
  forall m,
    NoDup (map (mintedId uid) placements) ->
    Forall (fun p => JsMap.get (JString (mintedId uid p)) m = None)
      placements ->
    JsMap.values (storeAll uid placements m)
    = (JsMap.values m ++ map (mintedBet uid) placements)%list.
Proof.
  induction placements as [|p ps IH]; intros m Hnd Hfresh; simpl.
  - now rewrite app_nil_r.
  - inversion Hnd as [|? ? Hnotin Hnd']; subst.
    inversion Hfresh as [|? ? Hp Hps]; subst.
    unfold storeAll in *. rewrite IH; trivial.
    + rewrite values_set_fresh by exact Hp. now rewrite <- app_assoc.
    + rewrite Forall_forall in *. intros q Hq.
      rewrite get_set_other_string; [now apply Hps|].
      intros Heq. apply Hnotin. rewrite <- Heq. now apply in_map.
Qed.

Lemma mintedBet_owned (uid : string) (placements : list (PlaceClock * Object)) :
  Forall (fun p => own (snd p) "userId" = None) placements ->
  filter (owned_by (JString uid)) (map (mintedBet uid) placements)
  = map (mintedBet uid) placements.
Proof.
  induction 1 as [|p ps Hp Hps IH]; simpl; trivial.
  unfold owned_by at 1, mintedBet at 1, newBet. cbn [Bet.userId].
  rewrite Hp. cbn [Js.strict_eq]. rewrite String.eqb_refl. now rewrite IH.
Qed.

(** C7, for placements with distinct, unused bet ids and no [userId] of
    their own.  The history of an authenticated account is exactly the
    stored bets whose [userId] is the account's identity, newest first by
    creation time, each as id, matchId, selection, odds, amount, status
    and createdAt.  After a sequence of N accepted placements by the
    account whose minted bet ids are pairwise distinct and not yet in the
    bet store, and whose bodies carry no [userId] field, the history
    holds these N bets besides the account's earlier ones. *)
Theorem history_is_own_bets_newest_first {rt : JsRuntime} (st : State)
  (auth : option string) (user : User.t) :
  authenticateToken st auth = inr user ->
  (exists items,
      handle st (GetBetsHistory auth)
      = (st, mkResponse 200 (BetHistory items))
      /\ StronglySorted item_newest_first items
      /\ Permutation items
           (map HistoryItem.of_bet
              (filter (owned_by (User.id user)) (JsMap.values (bets st)))))
  /\ (forall uid placements,
        User.id user = JString uid ->
        Forall (fun r => code r = 201)
          (snd (run st (placeAll auth placements))) ->
        Forall (fun p => own (snd p) "userId" = None) placements ->
        NoDup (map (mintedId uid) placements) ->
        Forall (fun p => JsMap.get (JString (mintedId uid p)) (bets st) = None)
          placements ->
        exists items,
          handle (fst (run st (placeAll auth placements)))
            (GetBetsHistory auth)
          = (fst (run st (placeAll auth placements)),
             mkResponse 200 (BetHistory items))
          /\ StronglySorted item_newest_first items
          /\ Permutation items
               (map HistoryItem.of_bet
                  (map (mintedBet uid) placements
                   ++ userBets st (JString uid)))).
Proof.
  intros Hauth. split.
  - eexists. split; [exact (history_response st auth user Hauth)|]. split.
    + apply items_newest_first, sort_newest_first_sorted.
    + apply Permutation_map, userBets_perm.
  - intros uid placements Hid Hall Hown Hnd Hfresh.
    rewrite (run_placeAll auth user uid placements st Hauth Hid Hall).
    eexists. split.
    + apply (history_response _ auth user). rewrite <- Hauth.
      now apply authenticateToken_sessions.
    + split; [apply items_newest_first, sort_newest_first_sorted|].
      apply Permutation_map. rewrite Hid.
      rewrite userBets_perm. cbn [bets].
      rewrite (values_storeAll uid placements (bets st) Hnd Hfresh).
      rewrite filter_app, (mintedBet_owned uid placements Hown).
      rewrite Permutation_app_comm. apply Permutation_app_head.
      symmetry. apply userBets_perm.
Qed.

Lemma history_is_own_bets_newest_first_witness :
  exists items,
    @handle Reference.host
      (fst (@run Reference.host Sample.registered
              (placeAll Sample.bearer
                 [(Sample.at_ 1700000001000, Sample.legitBet);
                  (Sample.at_ 1700000002000, Sample.legitBet75)])))
      (GetBetsHistory Sample.bearer)
    = (fst (@run Reference.host Sample.registered
              (placeAll Sample.bearer
                 [(Sample.at_ 1700000001000, Sample.legitBet);
                  (Sample.at_ 1700000002000, Sample.legitBet75)])),
       mkResponse 200 (BetHistory items))
    /\ StronglySorted item_newest_first items
    /\ Permutation items
         (map HistoryItem.of_bet
            (map (mintedBet "1700000000000")
               [(Sample.at_ 1700000001000, Sample.legitBet);
                (Sample.at_ 1700000002000, Sample.legitBet75)]
             ++ userBets Sample.registered (JString "1700000000000"))).
Proof.
  apply (proj2 (@history_is_own_bets_newest_first Reference.host
                  Sample.registered Sample.bearer Sample.aliceUser eq_refl)
           "1700000000000"
           [(Sample.at_ 1700000001000, Sample.legitBet);
            (Sample.at_ 1700000002000, Sample.legitBet75)] eq_refl).
  - vm_compute. repeat constructor.
  - repeat constructor.
  - vm_compute. repeat constructor.
    + intros [H|[]]. discriminate H.
    + intros [].
  - repeat constructor.
Defined.

(** The claim C7 as stated fails when two accepted bets are minted in the
    same millisecond: they get the same bet id, the second replaces the
    first in the bet store, and the history shows one bet.  It also fails
    for an accepted bet whose body has a [userId] field: the bet is stored
    under that identity and the account's history does not show it. *)
Lemma same_millisecond_bets_collide :
  ~ @history_shows_every_accepted_bet Reference.host Sample.registered
      Sample.bearer
      [(Sample.at_ 1700000001000, Sample.legitBet);
       (Sample.at_ 1700000001000, Sample.legitBet75)]
  /\ ~ @history_shows_every_accepted_bet Reference.host Sample.registered
         Sample.bearer
         [(Sample.at_ 1700000001000, Sample.legitBetForSomeoneElse)].
Proof.
  split.
  - intros H. destruct H as (items & Hresp & _ & Hall).
    + vm_compute. repeat constructor.
    + assert (E :
        snd (@handle Reference.host
               (fst (@run Reference.host Sample.registered
                       (placeAll Sample.bearer
                          [(Sample.at_ 1700000001000, Sample.legitBet);
                           (Sample.at_ 1700000001000, Sample.legitBet75)])))
               (GetBetsHistory Sample.bearer))
        = mkResponse 200
            (BetHistory
               [HistoryItem.mk (JString "BET-1700000001000-17000")
                  (JString "match-456") (JString "away") (JString "1.8")
                  (JNumber 75) "pending" 1700000001000]))
        by (vm_compute; reflexivity).
      rewrite E in Hresp. inversion Hresp; subst items; clear Hresp E.
      vm_compute in Hall.
      destruct (Hall _ _ _ _ (or_introl eq_refl) eq_refl)
        as (item & [<-|[]] & _ & Hmatch & _).
      discriminate Hmatch.
  - intros H. destruct H as (items & Hresp & _ & Hall).
    + vm_compute. repeat constructor.
    + vm_compute in Hresp. inversion Hresp; subst items; clear Hresp.
      vm_compute in Hall.
      destruct (Hall _ _ _ _ (or_introl eq_refl) eq_refl) as (item & [] & _).
Qed.

(** ** Blocked accounts and bet placement *)

(** C9, for requests that carry no [userId] field.  Bet placement does
    not read the account's status: for an account of the store that is
    blocked and still holds a token that resolves, a bet request that
    passes the required-field check, that no fraud rule matches and that
    carries no [userId] field is answered 201, stored as a pending bet,
    and is in the account's bet history afterwards; the account stays
    blocked, and the response is the one given whatever the account
    store holds. *)
Theorem blocked_account_can_still_bet {rt : JsRuntime} (st : State)
  (clk : PlaceClock) (auth : option string) (user account : User.t)
  (uid : string) (betData : Object) (v : Verdict) :
  authenticateToken st auth = inr user ->
  User.id user = JString uid ->
  JsMap.get (JString uid) (users st) = Some account ->
  User.status account = blocked ->
  judged clk betData v -> isFraudulent v = false ->
  own betData "userId" = None ->
  exists st' bet,
    handle st (PostBetsPlace clk auth betData)
    = (st',
       mkResponse 201
         (BetAccepted "Bet placed successfully" (Bet.id bet)
            (PlacedBet.mk (Bet.id bet) (Bet.matchId bet) (Bet.selection bet)
               (Bet.odds bet) (Bet.amount bet) "pending")))
    /\ Bet.status bet = "pending"
    /\ Bet.userId bet = JString uid
    /\ JsMap.get (JString (betIdOf clk (String.substring 0 5 uid))) (bets st')
       = Some bet
    /\ statusOf st' (JString uid) = Some blocked
    /\ (exists items,
          handle st' (GetBetsHistory auth)
          = (st', mkResponse 200 (BetHistory items))
          /\ In (HistoryItem.of_bet bet) items)
    /\ (forall accounts,
          snd (placeBet
                 (mkState accounts (bets st) (sessions st) (accountFlags st))
                 clk user betData)
          = snd (placeBet st clk user betData)).
Proof.
  intros Hauth Hid Hget Hblocked Hj Hf Hown.
  pose proof (placeBet_legitimate st clk user betData v uid Hj Hf Hid) as Hp.
  cbv zeta in Hp.
  set (betId := betIdOf clk (String.substring 0 5 uid)) in *.
  set (bet := newBet clk (JString uid) betId betData) in *.
  assert (Huid : Bet.userId bet = JString uid).
  { unfold bet, newBet. cbn [Bet.userId]. now rewrite Hown. }
  eexists. exists bet.
  split; [simpl; unfold protected; rewrite Hauth; exact Hp|].
  split; [reflexivity|]. split; [exact Huid|].
  split; [cbn [bets]; apply get_set_same|].
  split; [unfold statusOf; cbn [users]; rewrite Hget; cbn [option_map];
          now rewrite Hblocked|].
  split.
  - eexists. split.
    + apply (history_response _ auth user). rewrite <- Hauth.
      now apply authenticateToken_sessions.
    + apply in_map. rewrite Hid.
      apply (Permutation_in bet (Permutation_sym (userBets_perm _ _))).
      apply filter_In. split.
      * cbn [bets]. apply in_values_set.
      * unfold owned_by. rewrite Huid. cbn [Js.strict_eq].
        apply String.eqb_refl.
  - intros accounts. rewrite Hp.
    now rewrite (placeBet_legitimate _ clk user betData v uid Hj Hf Hid).
Qed.

Lemma blocked_account_can_still_bet_witness :
  exists st' bet,
    @handle Reference.host Sample.blockedState
      (PostBetsPlace (Sample.at_ 1700000005000) Sample.bearer Sample.legitBet)
    = (st',
       mkResponse 201
         (BetAccepted "Bet placed successfully" (Bet.id bet)
            (PlacedBet.mk (Bet.id bet) (Bet.matchId bet) (Bet.selection bet)
               (Bet.odds bet) (Bet.amount bet) "pending")))
    /\ Bet.status bet = "pending"
    /\ statusOf st' Sample.aliceId = Some blocked
    /\ exists items,
         @handle Reference.host st' (GetBetsHistory Sample.bearer)
         = (st', mkResponse 200 (BetHistory items))
         /\ In (HistoryItem.of_bet bet) items.
Proof.
  destruct (@blocked_account_can_still_bet Reference.host Sample.blockedState
              (Sample.at_ 1700000005000) Sample.bearer Sample.aliceUser
              (User.block Sample.aliceUser) "1700000000000" Sample.legitBet
              (mkVerdict false "" "")
              eq_refl eq_refl eq_refl eq_refl (conj eq_refl eq_refl) eq_refl
              eq_refl)
    as (st' & bet & H & Hs & _ & _ & Hb & Hh & _).
  exists st', bet. repeat split; assumption.
Defined.

(** The claim C9 as stated fails for a body with a [userId] field: the
    bet of the blocked account is accepted and stored under that other
    identity, and the account's own history stays empty. *)
Lemma bet_with_foreign_userId_is_not_in_own_history :
  ~ @blocked_bet_shows_in_own_history Reference.host Sample.blockedState
      (Sample.at_ 1700000005000) Sample.bearer Sample.aliceUser
      Sample.legitBetForSomeoneElse.
Proof.
  intros H.
  destruct H as (message & betId & bet & items & _ & Hh & item & Hin & _).
  - reflexivity.
  - reflexivity.
  - exists (mkVerdict false "" ""). repeat split.
  - vm_compute in Hh. inversion Hh; subst items. destruct Hin.
Qed.

Example split_bearer : Js.split " " "Bearer abc" = ["Bearer"; "abc"].
Proof. reflexivity. Qed.

Example timeClip_ex : Js.timeClip 1500.75%float = Some 1500.
Proof. vm_compute. reflexivity. Qed.

Example int_toString_ex : Js.int_toString 1700000000000 = "1700000000000".
Proof. vm_compute. reflexivity. Qed.

Example parse_decimal_ex :
  Reference.parse_decimal "2.5" = 2.5%float
  /\ Reference.parse_decimal "100.0" = 100%float
  /\ Reference.parse_decimal "-7" = (-7)%float.
Proof. vm_compute. repeat split. Qed.

Example parse_iso_ex :
  Reference.parse_iso "2024-01-01T00:00:00.000Z" = Some 1704067200000.
Proof. vm_compute. reflexivity. Qed.

Example base64_ex : Base64.encode "17:42" = "MTc6NDI=".
Proof. vm_compute. reflexivity. Qed.

Example split_double_space :
  Js.split " " "Bearer  abc" = ["Bearer"; ""; "abc"].
Proof. reflexivity. Qed.

Example includes_altered :
  Js.includes (JString "M1-altered") "-altered" = Js.Normal true
  /\ Js.includes (JString "M1") "-altered" = Js.Normal false
  /\ Js.includes (JNumber 12) "-altered" = Js.TypeError.
Proof. repeat split. Qed.

Example truthy_numbers :
  Js.truthy (JNumber 0) = false /\ Js.truthy (JNumber (-0)) = false
  /\ Js.truthy (JNumber PrimFloat.nan) = false
  /\ Js.truthy (JNumber (-50)) = true /\ Js.truthy (JString "0") = true.
Proof. repeat split. Qed.

(** The end-to-end scenario: the legitimate bet is accepted and is the
    history; the altered match id is rejected as match-alteration and the
    history is unchanged; after the third rejected attempt the account is
    blocked with three warnings, and a new login is refused. *)
Example end_to_end_scenario :
  map code (snd (@run Reference.host emptyState Sample.scenario))
  = [201; 200; 201; 200; 400; 200; 400; 400; 200; 403]
  /\ nth_error (snd (@run Reference.host emptyState Sample.scenario)) 4
     = Some (mkResponse 400
               (FraudRejection "Fraud detected: Match ID tampering detected"
                  "match-alteration"
                  "Fraud detected: Match ID tampering detected"))
  /\ nth_error (snd (@run Reference.host emptyState Sample.scenario)) 3
     = nth_error (snd (@run Reference.host emptyState Sample.scenario)) 5
  /\ (exists report,
        nth_error (snd (@run Reference.host emptyState Sample.scenario)) 8
        = Some (mkResponse 200 (AccountReport report))
        /\ AccountStatus.status report = blocked
        /\ AccountStatus.fraudWarnings report = 3%nat
        /\ map Flag.reason (AccountStatus.flags report)
           = ["Fraud detected: Match ID tampering detected";
              "Fraud detected: Timestamp manipulation detected";
              "Fraud detected: Unauthorized request fields"]).
Proof.
  split; [vm_compute; reflexivity|].
  split; [vm_compute; reflexivity|].
  split; [vm_compute; reflexivity|].
  eexists. split; [vm_compute; reflexivity|]. repeat split.
Qed.

(** A registration body with an [id] of its own replaces the identity of
    the session's user; with the number 7 there is no account under that
    identity, and a bet placed with the token ends in the [TypeError] of
    [userId.substring], answered 500, with the stores as they were. *)
Example identity_replaced_by_the_body :
  authenticateToken Sample.bobRegistered Sample.bobBearer
  = inr Sample.bobUser
  /\ statusOf Sample.bobRegistered (User.id Sample.bobUser) = None
  /\ @handle Reference.host Sample.bobRegistered
       (PostBetsPlace (Sample.at_ 1700000001000) Sample.bobBearer
          Sample.legitBet)
     = (Sample.bobRegistered, mkResponse 500 Uncaught).
Proof. repeat split. Qed.

(** ** Tokens and the [Authorization] header *)

Lemma get_in_string (s : string) :
  forall i c, String.get i s = Some c -> In c (list_ascii_of_string s).
Proof.
  induction s as [|a s IH]; intros [|i] c; simpl; try discriminate.
  - intros H. inversion H. now left.
  - intros H. right. now apply (IH i).
Qed.

Lemma digit_not_space (n : N) : Ascii.eqb (Base64.digit n) " " = false.
Proof.
  unfold Base64.digit.
  destruct (String.get (N.to_nat n) Base64.alphabet) as [c|] eqn:E;
    [|reflexivity].
  apply get_in_string in E. unfold Base64.alphabet in E. simpl in E.
  repeat (destruct E as [E|E]; [subst c; reflexivity|]). destruct E.
Qed.

Lemma of_bytes_spaceless (n : nat) :
  forall l, (List.length l <= n)%nat -> spaceless (Base64.of_bytes l) = true.
Proof.
  induction n as [|n IH]; intros l Hl.
  - destruct l; [reflexivity|simpl in Hl; lia].
  - destruct l as [|a [|b [|c l]]]; trivial;
      cbn [Base64.of_bytes spaceless]; rewrite ?digit_not_space; trivial.
    cbn [negb andb]. apply IH. simpl in Hl. lia.
Qed.

Lemma encode_spaceless (s : string) : spaceless (Base64.encode s) = true.
Proof. unfold Base64.encode. now apply (of_bytes_spaceless _ _ (le_n _)). Qed.

Lemma encode_nonempty (s : string) : s <> "" -> Base64.encode s <> "".
Proof.
  destruct s as [|a s]; [congruence|]. intros _.
  unfold Base64.encode. cbn [list_ascii_of_string map].
  destruct (map N_of_ascii (list_ascii_of_string s)) as [|b [|c l]];
    discriminate.
Qed.

Lemma split_spaceless (t : string) :
  spaceless t = true -> Js.split " " t = [t].
Proof.
  induction t as [|a t IH]; simpl; trivial.
  destruct (Ascii.eqb a " "); [discriminate|]. simpl.
  intros H. now rewrite IH.
Qed.

(** The header [`Bearer ${token}`] carries the token back. *)
Lemma tokenOf_bearer (t : string) :
  spaceless t = true -> tokenOf (Some ("Bearer " ++ t)) = Some t.
Proof.
  intros H. unfold tokenOf. simpl. now rewrite split_spaceless.
Qed.

Lemma bearer_authenticates (st : State) (t : string) (session : Session.t) :
  spaceless t = true -> t <> "" ->
  JsMap.get (JString t) (sessions st) = Some session ->
  authenticateToken st (Some ("Bearer " ++ t)) = inr (Session.user session).
Proof.
  intros Hs Ht Hget. unfold authenticateToken. rewrite tokenOf_bearer by trivial.
  apply String.eqb_neq in Ht. now rewrite Ht, Hget.
Qed.

Lemma append_colon_nonempty (a b : string) : (a ++ ":" ++ b) <> "".
Proof. destruct a; discriminate. Qed.

Lemma authenticateToken_inl (st : State) (auth : option string)
  (r : Response) :
  authenticateToken st auth = inl r -> code r = 401.
Proof.
  unfold authenticateToken.
  destruct (tokenOf auth) as [token|]; [|intros H; now inversion H].
  destruct (String.eqb token ""); [intros H; now inversion H|].
  destruct (JsMap.get _ _); intros H; now inversion H.
Qed.

(** ** Registration opens a session *)

Lemma noAccountWith_existsb (st : State) (userData : Object) :
  noAccountWith st userData ->
  existsb
    (fun user =>
       Js.strict_eq (User.username user) (prop userData "username")
       || Js.strict_eq (User.email user) (prop userData "email"))
    (JsMap.values (users st)) = false.
Proof.
  intros H. apply not_true_is_false. intros E.
  apply existsb_exists in E. destruct E as (u & Hin & Hu).
  destruct (H u Hin) as [H1 H2]. now rewrite H1, H2 in Hu.
Qed.

Lemma existsb_noAccountWith (st : State) (userData : Object) :
  existsb
    (fun user =>
       Js.strict_eq (User.username user) (prop userData "username")
       || Js.strict_eq (User.email user) (prop userData "email"))
    (JsMap.values (users st)) = false ->
  noAccountWith st userData.
Proof.
  intros E u Hin. apply orb_false_elim.
  apply not_true_is_false. intros Hu.
  apply not_true_iff_false in E. apply E. apply existsb_exists.
  exists u. now split.
Qed.

(** What a registration that passes both checks does. *)
Lemma register_created (st : State) (clk : RegisterClock) (userData : Object) :
  hasRequiredFields userData -> noAccountWith st userData ->
  register st clk userData
  = (mkState
       (JsMap.set (JString (Js.int_toString (idNow clk)))
          (registeredUser clk userData) (users st))
       (bets st)
       (JsMap.set (JString (registerToken clk))
          (Session.mk (registeredUser clk userData) (sessionAt clk))
          (sessions st))
       (JsMap.set (JString (Js.int_toString (idNow clk))) []
          (accountFlags st)),
     mkResponse 201
       (Authenticated "User registered successfully" (registerToken clk)
          (PublicUser.of_user (registeredUser clk userData)))).
Proof.
  intros (Hu & He & Hp) Hnone. unfold register.
  rewrite Hu, He, Hp. cbn [negb orb].
  now rewrite (noAccountWith_existsb st userData Hnone).
Qed.

(** A registration answered 201 passed both checks. *)
Lemma register_201 (st st' : State) (clk : RegisterClock) (userData : Object)
  (r : Response) :
  register st clk userData = (st', r) -> code r = 201 ->
  hasRequiredFields userData /\ noAccountWith st userData.
Proof.
  unfold register, hasRequiredFields.
  destruct (Js.truthy (prop userData "username"));
    [|intros H; inversion H; subst; discriminate].
  destruct (Js.truthy (prop userData "email"));
    [|intros H; inversion H; subst; discriminate].
  destruct (Js.truthy (prop userData "password"));
    [|intros H; inversion H; subst; discriminate].
  cbn [negb orb].
  destruct (existsb _ _) eqn:E;
    [intros H; inversion H; subst; discriminate|].
  intros _ _. split; [auto|]. now apply existsb_noAccountWith.
Qed.

(** X1.  A registration that carries a truthy username, email and
    password, none of which an account of the store has, is answered 201
    with a token.  Sent back as [Authorization: Bearer <token>], this token
    passes [authenticateToken], with the new account as [req.user].  The
    account is stored under the minted id with status active, the flag
    list under that id is empty, and the bet store is untouched. *)
Theorem registration_opens_a_session (st : State) (clk : RegisterClock)
  (userData : Object) :
  hasRequiredFields userData -> noAccountWith st userData ->
  exists st' token,
    register st clk userData
    = (st', mkResponse 201
              (Authenticated "User registered successfully" token
                 (PublicUser.of_user (registeredUser clk userData))))
    /\ authenticateToken st' (Some ("Bearer " ++ token))
       = inr (registeredUser clk userData)
    /\ JsMap.get (JString (Js.int_toString (idNow clk))) (users st')
       = Some (registeredUser clk userData)
    /\ User.status (registeredUser clk userData) = active
    /\ flagsOf st' (JString (Js.int_toString (idNow clk))) = []
    /\ bets st' = bets st.
Proof.
  intros Hreq Hnone. rewrite (register_created st clk userData Hreq Hnone).
  eexists. eexists. split; [reflexivity|].
  split.
  - apply (bearer_authenticates _ _
             (Session.mk (registeredUser clk userData) (sessionAt clk))).
    + apply encode_spaceless.
    + apply encode_nonempty, append_colon_nonempty.
    + cbn [sessions]. apply get_set_same.
  - split; [cbn [users]; apply get_set_same|]. split; [reflexivity|].
    split; [apply flagsOf_set|reflexivity].
Qed.

Lemma registration_opens_a_session_witness :
  exists st' token,
    register emptyState Sample.aliceClock Sample.alice
    = (st', mkResponse 201
              (Authenticated "User registered successfully" token
                 (PublicUser.of_user Sample.aliceUser)))
    /\ authenticateToken st' (Some ("Bearer " ++ token))
       = inr Sample.aliceUser
    /\ flagsOf st' Sample.aliceId = [].
Proof.
  destruct (registration_opens_a_session emptyState Sample.aliceClock
              Sample.alice (conj eq_refl (conj eq_refl eq_refl))
              (fun existing (H : In existing []) => match H with end))
    as (st' & token & Hr & Ha & _ & _ & Hf & _).
  exists st', token. split; [exact Hr|]. split; [exact Ha|exact Hf].
Defined.

(** ** Login *)

Lemma login_cases {rt : JsRuntime} (st : State) (clk : LoginClock)
  (body : Object) :
  login st clk body
  = match find (hasCredentials body) (JsMap.values (users st)) with
    | None => (st, mkResponse 401 (Error "Invalid credentials"))
    | Some user =>
        match User.status user with
        | blocked => (st, mkResponse 403 (Error "Account is blocked"))
        | active =>
            (mkState (users st) (bets st)
               (JsMap.set
                  (JString
                     (Base64.encode
                        (Js.toString (User.id user) ++ ":"
                         ++ Js.int_toString (loginTokenNow clk))))
                  (Session.mk user (loginSessionAt clk)) (sessions st))
               (accountFlags st),
             mkResponse 200
               (Authenticated "Login successful"
                  (Base64.encode
                     (Js.toString (User.id user) ++ ":"
                      ++ Js.int_toString (loginTokenNow clk)))
                  (PublicUser.of_user user)))
        end
    end.
Proof. reflexivity. Qed.

(** X2.  The three outcomes of a login.  It is answered 401 "Invalid
    credentials" exactly when no account of the store has both the
    username and the password of the body, 403 "Account is blocked" when
    the first account that has them is blocked, and the stores are then
    those before the request.  Otherwise it is answered 200 with a token
    for an account of the store that has these credentials and is active;
    sent back as [Authorization: Bearer <token>], the token passes
    [authenticateToken] with that account as [req.user]; accounts, bets
    and flags are untouched, and every token that resolved still
    resolves. *)
Theorem login_outcomes {rt : JsRuntime} (st : State) (clk : LoginClock)
  (body : Object) (st' : State) (r : Response) :
  login st clk body = (st', r) ->
  (st' = st
   /\ r = mkResponse 401 (Error "Invalid credentials")
   /\ forall u, In u (JsMap.values (users st)) -> hasCredentials body u = false)
  \/ (st' = st
      /\ r = mkResponse 403 (Error "Account is blocked")
      /\ exists u,
           In u (JsMap.values (users st)) /\ hasCredentials body u = true
           /\ User.status u = blocked)
  \/ (exists token u,
        r = mkResponse 200
              (Authenticated "Login successful" token (PublicUser.of_user u))
        /\ In u (JsMap.values (users st)) /\ hasCredentials body u = true
        /\ User.status u = active
        /\ authenticateToken st' (Some ("Bearer " ++ token)) = inr u
        /\ users st' = users st /\ bets st' = bets st
        /\ accountFlags st' = accountFlags st
        /\ forall k session,
             JsMap.get k (sessions st) = Some session ->
             exists session', JsMap.get k (sessions st') = Some session').
Proof.
  rewrite login_cases.
  destruct (find _ _) as [u|] eqn:E.
  - apply find_some in E. destruct E as [Hin Hu].
    destruct (User.status u) eqn:Es; intros H; inversion H; subst; clear H.
    + right. right. eexists. exists u. split; [reflexivity|].
      repeat (split; trivial).
      * apply (bearer_authenticates _ _ (Session.mk u (loginSessionAt clk))).
        -- apply encode_spaceless.
        -- apply encode_nonempty, append_colon_nonempty.
        -- cbn [sessions]. apply get_set_same.
      * intros k session Hk. cbn [sessions].
        match goal with
        | |- context [JsMap.get k (JsMap.set ?k2 ?v ?m)] =>
            destruct (get_set_cases k k2 v m) as [Hc|Hc]; rewrite Hc; eauto
        end.
    + right. left. repeat split. exists u. auto.
  - intros H. inversion H; subst. left. repeat split.
    intros u Hin. exact (find_none _ _ E u Hin).
Qed.

Lemma login_outcomes_witness :
  exists token u,
    snd (@login Reference.host Sample.registered
           (mkLoginClock 1700000000100 1700000000100) Sample.alice)
    = mkResponse 200
        (Authenticated "Login successful" token (PublicUser.of_user u))
    /\ User.status u = active
    /\ authenticateToken
         (fst (@login Reference.host Sample.registered
                 (mkLoginClock 1700000000100 1700000000100) Sample.alice))
         (Some ("Bearer " ++ token))
       = inr u.
Proof.
  destruct (@login_outcomes Reference.host Sample.registered
              (mkLoginClock 1700000000100 1700000000100) Sample.alice
              (fst (@login Reference.host Sample.registered
                      (mkLoginClock 1700000000100 1700000000100)
                      Sample.alice))
              (snd (@login Reference.host Sample.registered
                      (mkLoginClock 1700000000100 1700000000100)
                      Sample.alice))
              eq_refl)
    as [(_ & Hr & _)|[(_ & Hr & _)|(token & u & Hr & _ & _ & Hs & Ha & _)]].
  - vm_compute in Hr. discriminate Hr.
  - vm_compute in Hr. discriminate Hr.
  - exists token, u. split; [exact Hr|]. split; [exact Hs|exact Ha].
Defined.

Lemma find_values_set {V} (p : V -> bool) (k : JsValue) (v : V)
  (m : JsMap.t V) :
  (forall x, In x (JsMap.values m) -> p x = false) -> p v = true ->
  find p (JsMap.values (JsMap.set k v m)) = Some v.
Proof.
  unfold JsMap.values. intros Hm Hv.
  induction m as [|[k' v'] m IH]; simpl.
  - now rewrite Hv.
  - destruct (Js.same_value_zero k' k); simpl.
    + now rewrite Hv.
    + rewrite (Hm v') by now left. apply IH.
      intros x Hx. apply Hm. now right.
Qed.

Lemma in_values_set_inv {V} (k : JsValue) (v x : V) (m : JsMap.t V) :
  In x (JsMap.values (JsMap.set k v m)) -> x = v \/ In x (JsMap.values m).
Proof.
  unfold JsMap.values. induction m as [|[k' v'] m IH]; simpl.
  - intros [H|[]]. now left.
  - destruct (Js.same_value_zero k' k); simpl.
    + intros [H|H]; auto.
    + intros [H|H]; auto. destruct (IH H); auto.
Qed.

Lemma find_values_set_none {V} (p : V -> bool) (k : JsValue) (v : V)
  (m : JsMap.t V) :
  (forall x, In x (JsMap.values m) -> p x = false) -> p v = false ->
  find p (JsMap.values (JsMap.set k v m)) = None.
Proof.
  intros Hm Hv.
  destruct (find p (JsMap.values (JsMap.set k v m))) as [x|] eqn:E; trivial.
  apply find_some in E. destruct E as [Hin Hx].
  destruct (in_values_set_inv k v x m Hin) as [->|Hin'].
  - congruence.
  - rewrite (Hm x Hin') in Hx. discriminate.
Qed.

Lemma set_set {V} (k : JsValue) (v v' : V) (m : JsMap.t V) :
  JsMap.set k v' (JsMap.set k v m) = JsMap.set k v' m.
Proof.
  induction m as [|[k0 v0] m IH]; simpl.
  - now rewrite same_value_zero_refl.
  - destruct (Js.same_value_zero k0 k) eqn:E; simpl; rewrite E; trivial.
    now rewrite IH.
Qed.

Lemma registered_hasCredentials (clk : RegisterClock)
  (userData body : Object) :
  hasRequiredFields userData ->
  prop body "username" = prop userData "username" ->
  prop body "password" = prop userData "password" ->
  hasCredentials body (registeredUser clk userData) = true.
Proof.
  intros (Hu & _ & Hp) Eu Ep. unfold hasCredentials, registeredUser.
  cbn [User.username User.password]. rewrite Eu, Ep.
  now rewrite !strict_eq_truthy_refl.
Qed.

Lemma others_lack_credentials (st : State) (userData body : Object) :
  noAccountWith st userData ->
  prop body "username" = prop userData "username" ->
  forall x, In x (JsMap.values (users st)) -> hasCredentials body x = false.
Proof.
  intros Hnone Eu x Hx. unfold hasCredentials. rewrite Eu.
  now rewrite (proj1 (Hnone x Hx)).
Qed.

(** X3.  Registration followed by login.  After a registration that is
    accepted, a login with the username and the password of the
    registration is answered 200 for the new account, with a token that
    passes [authenticateToken] as that account; a login with the username
    and a password that is not [===] to the registered one is answered
    401 and changes nothing. *)
Theorem login_after_registration {rt : JsRuntime} (st : State)
  (rclk : RegisterClock) (userData : Object) (lclk : LoginClock) :
  hasRequiredFields userData -> noAccountWith st userData ->
  (forall body,
      prop body "username" = prop userData "username" ->
      prop body "password" = prop userData "password" ->
      exists st' token,
        login (fst (register st rclk userData)) lclk body
        = (st', mkResponse 200
                  (Authenticated "Login successful" token
                     (PublicUser.of_user (registeredUser rclk userData))))
        /\ authenticateToken st' (Some ("Bearer " ++ token))
           = inr (registeredUser rclk userData))
  /\ (forall body,
        prop body "username" = prop userData "username" ->
        Js.strict_eq (prop userData "password") (prop body "password")
        = false ->
        login (fst (register st rclk userData)) lclk body
        = (fst (register st rclk userData),
           mkResponse 401 (Error "Invalid credentials"))).
Proof.
  intros Hreq Hnone.
  rewrite (register_created st rclk userData Hreq Hnone).
  split; intros body Eu Ep; rewrite login_cases;
    cbn [fst users bets sessions accountFlags].
  - rewrite (find_values_set (hasCredentials body) _
               (registeredUser rclk userData));
      [|now apply (others_lack_credentials st userData)
       |now apply registered_hasCredentials].
    cbn [registeredUser User.status].
    eexists. eexists. split; [reflexivity|].
    apply (bearer_authenticates _ _
             (Session.mk (registeredUser rclk userData)
                (loginSessionAt lclk))).
    + apply encode_spaceless.
    + apply encode_nonempty, append_colon_nonempty.
    + cbn [sessions]. apply get_set_same.
  - rewrite (find_values_set_none (hasCredentials body) _
               (registeredUser rclk userData));
      [reflexivity|now apply (others_lack_credentials st userData)|].
    unfold hasCredentials, registeredUser. cbn [User.password].
    rewrite Ep. apply andb_false_r.
Qed.

Lemma login_after_registration_witness :
  (exists st' token,
      @login Reference.host
        (fst (register emptyState Sample.aliceClock Sample.alice))
        (mkLoginClock 1700000000100 1700000000100) Sample.alice
      = (st', mkResponse 200
                (Authenticated "Login successful" token
                   (PublicUser.of_user Sample.aliceUser)))
      /\ authenticateToken st' (Some ("Bearer " ++ token))
         = inr Sample.aliceUser)
  /\ @login Reference.host
       (fst (register emptyState Sample.aliceClock Sample.alice))
       (mkLoginClock 1700000000100 1700000000100) Sample.aliceAgain
     = (fst (register emptyState Sample.aliceClock Sample.alice),
        mkResponse 401 (Error "Invalid credentials")).
Proof.
  destruct (@login_after_registration Reference.host emptyState
              Sample.aliceClock Sample.alice
              (mkLoginClock 1700000000100 1700000000100)
              (conj eq_refl (conj eq_refl eq_refl))
              (fun existing (H : In existing []) => match H with end))
    as [Hok Hwrong].
  split.
  - exact (Hok Sample.alice eq_refl eq_refl).
  - exact (Hwrong Sample.aliceAgain eq_refl eq_refl).
Defined.

(** ** Three rejected bets *)

Lemma filter_fraud_attempts (flags : list Flag.t) :
  Forall is_fraud_attempt_flag flags -> filter is_fraud_attempt flags = flags.
Proof.
  induction 1 as [|f flags Hf _ IH]; simpl; trivial.
  unfold is_fraud_attempt at 1. rewrite Hf. simpl. now rewrite IH.
Qed.

(** A rejected placement on an account whose flags are all fraud
    attempts: the flag is appended, and the account is blocked from the
    third flag on. *)
Lemma strike {rt : JsRuntime} (st : State) (clk : PlaceClock)
  (auth : option string) (user account : User.t) (betData : Object)
  (v : Verdict) :
  authenticateToken st auth = inr user ->
  judged clk betData v -> isFraudulent v = true ->
  Forall is_fraud_attempt_flag (flagsOf st (User.id user)) ->
  JsMap.get (User.id user) (users st) = Some account ->
  handle st (PostBetsPlace clk auth betData)
  = (mkState
       (if Nat.leb 2 (List.length (flagsOf st (User.id user)))
        then JsMap.set (User.id user) (User.block account) (users st)
        else users st)
       (bets st) (sessions st)
       (JsMap.set (User.id user)
          (flagsOf st (User.id user) ++ [flagOf clk betData v])%list
          (accountFlags st)),
     rejectedWith v).
Proof.
  intros Hauth Hj Hf Hall Hget. cbn [handle]. unfold protected.
  rewrite Hauth, (placeBet_fraudulent st clk user betData v Hj Hf).
  cbv zeta. rewrite Hget. fold (flagOf clk betData v).
  rewrite filter_fraud_attempts.
  - rewrite length_app. cbn [List.length].
    replace (List.length (flagsOf st (User.id user)) + 1)%nat
      with (S (List.length (flagsOf st (User.id user)))) by lia.
    reflexivity.
  - apply Forall_app. split; trivial. now repeat constructor.
Qed.

Lemma run_step {rt : JsRuntime} (st : State) (req : Request)
  (reqs : list Request) (st1 : State) (r : Response) :
  handle st req = (st1, r) ->
  run st (req :: reqs) = (fst (run st1 reqs), r :: snd (run st1 reqs)).
Proof.
  intros H. cbn [run]. rewrite H. now destruct (run st1 reqs).
Qed.

(** The same on a state that holds the account and its flag list under
    the same key. *)
Lemma strike_on {rt : JsRuntime} (us : JsMap.t User.t) (bs : JsMap.t Bet.t)
  (ss : JsMap.t Session.t) (fs : JsMap.t (list Flag.t)) (uid : JsValue)
  (account : User.t) (flags : list Flag.t) (clk : PlaceClock)
  (auth : option string) (user : User.t) (betData : Object) (v : Verdict) :
  authenticateToken (mkState us bs ss fs) auth = inr user ->
  User.id user = uid ->
  judged clk betData v -> isFraudulent v = true ->
  Forall is_fraud_attempt_flag flags ->
  handle
    (mkState (JsMap.set uid account us) bs ss (JsMap.set uid flags fs))
    (PostBetsPlace clk auth betData)
  = (mkState
       (JsMap.set uid
          (if Nat.leb 2 (List.length flags) then User.block account
           else account) us)
       bs ss
       (JsMap.set uid (flags ++ [flagOf clk betData v])%list fs),
     rejectedWith v).
Proof.
  intros Hauth Hid Hj Hf Hall.
  rewrite (strike _ clk auth user account betData v); trivial.
  - rewrite Hid, flagsOf_set. cbn [users bets sessions accountFlags].
    rewrite !set_set. now destruct (Nat.leb 2 (List.length flags)).
  - now rewrite Hid, flagsOf_set.
  - rewrite Hid. cbn [users]. apply get_set_same.
Qed.

(** X4.  Three strikes.  After an accepted registration whose body has no
    [id] field, three bet requests sent with the registration's token,
    each judged fraudulent, are each answered 400 with their verdict; the
    account is then blocked with exactly these three flags, no bet has
    been stored, a login with the registered credentials is answered 403
    "Account is blocked", and the token still passes
    [authenticateToken]. *)
Theorem three_strikes_lock_the_account {rt : JsRuntime} (st : State)
  (rclk : RegisterClock) (userData : Object)
  (c1 c2 c3 : PlaceClock) (b1 b2 b3 : Object) (v1 v2 v3 : Verdict)
  (lclk : LoginClock) :
  hasRequiredFields userData -> noAccountWith st userData ->
  own userData "id" = None ->
  judged c1 b1 v1 -> isFraudulent v1 = true ->
  judged c2 b2 v2 -> isFraudulent v2 = true ->
  judged c3 b3 v3 -> isFraudulent v3 = true ->
  exists st' token,
    run st [PostRegister rclk userData;
            PostBetsPlace c1 (Some ("Bearer " ++ token)) b1;
            PostBetsPlace c2 (Some ("Bearer " ++ token)) b2;
            PostBetsPlace c3 (Some ("Bearer " ++ token)) b3;
            PostLogin lclk userData]
    = (st',
       [mkResponse 201
          (Authenticated "User registered successfully" token
             (PublicUser.of_user (registeredUser rclk userData)));
        rejectedWith v1; rejectedWith v2; rejectedWith v3;
        mkResponse 403 (Error "Account is blocked")])
    /\ statusOf st' (JString (Js.int_toString (idNow rclk))) = Some blocked
    /\ flagsOf st' (JString (Js.int_toString (idNow rclk)))
       = [flagOf c1 b1 v1; flagOf c2 b2 v2; flagOf c3 b3 v3]
    /\ bets st' = bets st
    /\ authenticateToken st' (Some ("Bearer " ++ token))
       = inr (registeredUser rclk userData).
Proof.
  intros Hreq Hnone Hid Hj1 Hf1 Hj2 Hf2 Hj3 Hf3.
  set (user := registeredUser rclk userData).
  set (token := registerToken rclk).
  set (ss := JsMap.set (JString token) (Session.mk user (sessionAt rclk))
               (sessions st)).
  assert (Huid : User.id user = JString (Js.int_toString (idNow rclk))).
  { unfold user, registeredUser. cbn [User.id]. now rewrite Hid. }
  assert (Hauth : forall us bs fs,
             authenticateToken (mkState us bs ss fs)
               (Some ("Bearer " ++ token)) = inr user).
  { intros us bs fs.
    apply (bearer_authenticates _ _ (Session.mk user (sessionAt rclk))).
    - apply encode_spaceless.
    - apply encode_nonempty, append_colon_nonempty.
    - cbn [sessions]. apply get_set_same. }
  eexists. exists token.
  rewrite (run_step st (PostRegister rclk userData) _ _ _
             (register_created st rclk userData Hreq Hnone)).
  fold user token ss.
  rewrite (run_step _ _ _ _ _
             (strike_on _ _ _ _ _ user [] c1 _ user b1 v1
                (Hauth _ _ _) Huid Hj1 Hf1 (Forall_nil _))).
  assert (F1 : Forall is_fraud_attempt_flag ([] ++ [flagOf c1 b1 v1]))
    by now repeat constructor.
  rewrite (run_step _ _ _ _ _
             (strike_on _ _ _ _ _ _ _ c2 _ user b2 v2
                (Hauth _ _ _) Huid Hj2 Hf2 F1)).
  assert (F2 : Forall is_fraud_attempt_flag
                 (([] ++ [flagOf c1 b1 v1]) ++ [flagOf c2 b2 v2]))
    by now repeat constructor.
  rewrite (run_step _ _ _ _ _
             (strike_on _ _ _ _ _ _ _ c3 _ user b3 v3
                (Hauth _ _ _) Huid Hj3 Hf3 F2)).
  clear F1 F2.
  cbn [run handle].
  cbn [List.length Nat.leb app].
  rewrite login_cases. cbn [users bets sessions accountFlags].
  rewrite (find_values_set (hasCredentials userData) _ (User.block user));
    [|now apply (others_lack_credentials st userData)
     |now apply (registered_hasCredentials rclk)].
  cbn [User.block User.status fst snd].
  split; [reflexivity|].
  split; [unfold statusOf; cbn [users]; now rewrite get_set_same|].
  split; [apply flagsOf_set|]. split; [reflexivity|]. apply Hauth.
Qed.

Lemma three_strikes_lock_the_account_witness :
  exists st' token,
    @run Reference.host emptyState
      [PostRegister Sample.aliceClock Sample.alice;
       PostBetsPlace (Sample.at_ 1700000001000) (Some ("Bearer " ++ token))
         Sample.negativeBet;
       PostBetsPlace (Sample.at_ 1700000002000) (Some ("Bearer " ++ token))
         Sample.betM1Altered;
       PostBetsPlace (Sample.at_ 1700000003000) (Some ("Bearer " ++ token))
         Sample.betWithBypass;
       PostLogin (mkLoginClock 1700000004000 1700000004000) Sample.alice]
    = (st',
       [mkResponse 201
          (Authenticated "User registered successfully" token
             (PublicUser.of_user Sample.aliceUser));
        rejectedWith
          (mkVerdict true "Fraud detected: Invalid bet amount"
             "negative-amount");
        rejectedWith
          (mkVerdict true "Fraud detected: Match ID tampering detected"
             "match-alteration");
        rejectedWith
          (mkVerdict true "Fraud detected: Unauthorized request fields"
             "request-tampering");
        mkResponse 403 (Error "Account is blocked")])
    /\ statusOf st' Sample.aliceId = Some blocked.
Proof.
  destruct (@three_strikes_lock_the_account Reference.host emptyState
              Sample.aliceClock Sample.alice
              (Sample.at_ 1700000001000) (Sample.at_ 1700000002000)
              (Sample.at_ 1700000003000)
              Sample.negativeBet Sample.betM1Altered Sample.betWithBypass
              (mkVerdict true "Fraud detected: Invalid bet amount"
                 "negative-amount")
              (mkVerdict true "Fraud detected: Match ID tampering detected"
                 "match-alteration")
              (mkVerdict true "Fraud detected: Unauthorized request fields"
                 "request-tampering")
              (mkLoginClock 1700000004000 1700000004000)
              (conj eq_refl (conj eq_refl eq_refl))
              (fun existing (H : In existing []) => match H with end)
              eq_refl
              (conj eq_refl eq_refl) eq_refl
              (conj eq_refl eq_refl) eq_refl
              (conj eq_refl eq_refl) eq_refl)
    as (st' & token & Hrun & Hs & _).
  exists st', token. split; [exact Hrun|exact Hs].
Defined.

(** ** What one request does to each store *)

Lemma handle_users {rt : JsRuntime} (st : State) (req : Request) :
  users (fst (handle st req)) = users st
  \/ (exists clk userData,
        hasRequiredFields userData /\ noAccountWith st userData
        /\ users (fst (handle st req))
           = JsMap.set (JString (Js.int_toString (idNow clk)))
               (registeredUser clk userData) (users st))
  \/ (exists userId account,
        JsMap.get userId (users st) = Some account
        /\ users (fst (handle st req))
           = JsMap.set userId (User.block account) (users st)).
Proof.
  destruct req as [clk body|clk body|clk auth body|auth|now auth].
  - cbn [handle].
    destruct (register st clk body) as [st' r] eqn:E.
    destruct (Z.eq_dec (code r) 201) as [Hc|Hc].
    + destruct (register_201 st st' clk body r E Hc) as [Hreq Hnone].
      right. left. exists clk, body.
      split; [exact Hreq|]. split; [exact Hnone|].
      rewrite (register_created st clk body Hreq Hnone) in E.
      inversion E. reflexivity.
    + left. revert E. unfold register.
      repeat match goal with
             | |- context [if ?c then _ else _] => destruct c
             end;
        intros E; inversion E; subst; trivial. now elim Hc.
  - left. cbn [handle]. rewrite login_cases.
    destruct (find _ _) as [u|]; trivial. now destruct (User.status u).
  - cbn [handle]. unfold protected.
    destruct (authenticateToken st auth) as [r|user]; [now left|].
    destruct (placeBet_users st clk user body) as [H|(account & Hg & H)].
    + now left.
    + right. right. now exists (User.id user), account.
  - left. cbn [handle]. unfold protected.
    now destruct (authenticateToken st auth).
  - left. cbn [handle]. unfold protected, accountStatus.
    destruct (authenticateToken st auth); trivial.
    now destruct (JsMap.get _ _).
Qed.

Lemma handle_bets {rt : JsRuntime} (st : State) (req : Request) :
  bets (fst (handle st req)) = bets st
  \/ exists betId bet,
       Bet.status bet = "pending"
       /\ bets (fst (handle st req))
          = JsMap.set (JString betId) bet (bets st).
Proof.
  destruct req as [clk body|clk body|clk auth body|auth|now auth].
  - left. cbn [handle]. unfold register.
    repeat match goal with
           | |- context [if ?c then _ else _] => destruct c
           end; reflexivity.
  - left. cbn [handle]. rewrite login_cases.
    destruct (find _ _) as [u|]; trivial. now destruct (User.status u).
  - cbn [handle]. unfold protected.
    destruct (authenticateToken st auth) as [r|user]; [now left|].
    unfold placeBet.
    destruct (missingBetInformation body); [now left|].
    destruct (fraudDetection _ _) as [v|]; [|now left].
    destruct (isFraudulent v); [now left|].
    destruct (Js.substring0 _ _) as [prefix|]; [|now left].
    right. eexists. eexists. split; [|reflexivity]. reflexivity.
  - left. cbn [handle]. unfold protected.
    now destruct (authenticateToken st auth).
  - left. cbn [handle]. unfold protected, accountStatus.
    destruct (authenticateToken st auth); trivial.
    now destruct (JsMap.get _ _).
Qed.

Lemma handle_sessions {rt : JsRuntime} (st : State) (req : Request) :
  sessions (fst (handle st req)) = sessions st
  \/ exists token session,
       sessions (fst (handle st req))
       = JsMap.set (JString token) session (sessions st).
Proof.
  destruct req as [clk body|clk body|clk auth body|auth|now auth].
  - cbn [handle]. unfold register.
    repeat match goal with
           | |- context [if ?c then _ else _] => destruct c
           end; try (now left).
    right. eexists. eexists. reflexivity.
  - cbn [handle]. rewrite login_cases.
    destruct (find _ _) as [u|]; [|now left].
    destruct (User.status u); [|now left].
    right. eexists. eexists. reflexivity.
  - left. cbn [handle]. unfold protected.
    destruct (authenticateToken st auth) as [r|user]; trivial.
    unfold placeBet.
    destruct (missingBetInformation body); trivial.
    destruct (fraudDetection _ _) as [v|]; trivial.
    destruct (isFraudulent v); trivial.
    now destruct (Js.substring0 _ _).
  - left. cbn [handle]. unfold protected.
    now destruct (authenticateToken st auth).
  - left. cbn [handle]. unfold protected, accountStatus.
    destruct (authenticateToken st auth); trivial.
    now destruct (JsMap.get _ _).
Qed.

Lemma handle_accountFlags {rt : JsRuntime} (st : State) (req : Request) :
  accountFlags (fst (handle st req)) = accountFlags st
  \/ (exists clk userData,
        req = PostRegister clk userData
        /\ accountFlags (fst (handle st req))
           = JsMap.set (JString (Js.int_toString (idNow clk))) []
               (accountFlags st))
  \/ (exists userId flag,
        is_fraud_attempt_flag flag
        /\ accountFlags (fst (handle st req))
           = JsMap.set userId (flagsOf st userId ++ [flag])%list
               (accountFlags st)).
Proof.
  destruct req as [clk body|clk body|clk auth body|auth|now auth].
  - cbn [handle]. unfold register.
    repeat match goal with
           | |- context [if ?c then _ else _] => destruct c
           end; try (now left).
    right. left. exists clk, body. now split.
  - left. cbn [handle]. rewrite login_cases.
    destruct (find _ _) as [u|]; trivial. now destruct (User.status u).
  - cbn [handle]. unfold protected.
    destruct (authenticateToken st auth) as [r|user]; [now left|].
    unfold placeBet.
    destruct (missingBetInformation body); [now left|].
    destruct (fraudDetection _ _) as [v|]; [|now left].
    destruct (isFraudulent v).
    + right. right. eexists. eexists. split; [|reflexivity]. reflexivity.
    + left. now destruct (Js.substring0 _ _).
  - left. cbn [handle]. unfold protected.
    now destruct (authenticateToken st auth).
  - left. cbn [handle]. unfold protected, accountStatus.
    destruct (authenticateToken st auth); trivial.
    now destruct (JsMap.get _ _).
Qed.

(** An invariant of the handlers holds after every sequence of requests. *)
Lemma run_invariant {rt : JsRuntime} (P : State -> Prop) :
  (forall st req, P st -> P (fst (handle st req))) ->
  forall reqs st, P st -> P (fst (run st reqs)).
Proof.
  intros Hstep. induction reqs as [|req reqs IH]; intros st H; trivial.
  cbn [run]. specialize (Hstep st req H).
  destruct (handle st req) as [st1 r].
  specialize (IH st1 Hstep). now destruct (run st1 reqs).
Qed.

(** ** More facts about [Map] *)

Lemma get_in_values {V} (k : JsValue) (v : V) (m : JsMap.t V) :
  JsMap.get k m = Some v -> In v (JsMap.values m).
Proof.
  unfold JsMap.values. induction m as [|[k' v'] m IH]; simpl; [discriminate|].
  destruct (Js.same_value_zero k' k).
  - intros H. inversion H. now left.
  - intros H. right. now apply IH.
Qed.

Lemma Forall_values_set {V} (P : V -> Prop) (k : JsValue) (v : V)
  (m : JsMap.t V) :
  Forall P (JsMap.values m) -> P v -> Forall P (JsMap.values (JsMap.set k v m)).
Proof.
  intros Hm Hv. apply Forall_forall. intros x Hx.
  destruct (in_values_set_inv k v x m Hx) as [->|Hin]; trivial.
  now apply (proj1 (Forall_forall P _) Hm).
Qed.

(** A [set] changes the lookup of another key only if the two are the
    same key of the map. *)
Lemma get_set_other {V} (k k2 : JsValue) (v : V) (m : JsMap.t V) :
  JsMap.get k (JsMap.set k2 v m) = JsMap.get k m
  \/ (JsMap.get k (JsMap.set k2 v m) = Some v
      /\ JsMap.get k m = JsMap.get k2 m).
Proof.
  induction m as [|[k' v'] m IH]; simpl.
  - destruct (Js.same_value_zero k2 k); auto.
  - destruct (Js.same_value_zero k' k2) eqn:E2; simpl;
      destruct (Js.same_value_zero k' k) eqn:E; auto.
Qed.

Lemma keeps_refl {V} (m : JsMap.t V) : keeps m m.
Proof. intros k v H. eauto. Qed.

Lemma keeps_trans {V} (m1 m2 m3 : JsMap.t V) :
  keeps m1 m2 -> keeps m2 m3 -> keeps m1 m3.
Proof.
  intros H12 H23 k v H. destruct (H12 k v H) as [v' H']. exact (H23 k v' H').
Qed.

Lemma keeps_set {V} (k : JsValue) (v : V) (m : JsMap.t V) :
  keeps m (JsMap.set k v m).
Proof.
  intros k0 v0 H. destruct (get_set_cases k0 k v m) as [E|E]; rewrite E; eauto.
Qed.

Lemma FOP_set_new {V} (R : V -> V -> Prop) (k : JsValue) (v : V)
  (m : JsMap.t V) :
  (forall x, In x (JsMap.values m) -> R x v /\ R v x) ->
  ForallOrdPairs R (JsMap.values m) ->
  ForallOrdPairs R (JsMap.values (JsMap.set k v m)).
Proof.
  induction m as [|[k' v'] m IH]; intros Hv Hm.
  - simpl. repeat constructor.
  - change (JsMap.values ((k', v') :: m)) with (v' :: JsMap.values m) in *.
    inversion Hm as [|? ? Hhd Htl]; subst. cbn [JsMap.set].
    destruct (Js.same_value_zero k' k).
    + change (ForallOrdPairs R (v :: JsMap.values m)). constructor; trivial.
      apply Forall_forall. intros x Hx. apply Hv. now right.
    + change (ForallOrdPairs R (v' :: JsMap.values (JsMap.set k v m))).
      constructor.
      * apply Forall_values_set; trivial. apply Hv. now left.
      * apply IH; trivial. intros x Hx. apply Hv. now right.
Qed.

Lemma FOP_set_same {V} (R : V -> V -> Prop) (k : JsValue) (v v0 : V)
  (m : JsMap.t V) :
  (forall x, R v0 x -> R v x) -> (forall x, R x v0 -> R x v) ->
  JsMap.get k m = Some v0 ->
  ForallOrdPairs R (JsMap.values m) ->
  ForallOrdPairs R (JsMap.values (JsMap.set k v m)).
Proof.
  intros Hl Hr. induction m as [|[k' v'] m IH]; intros Hget Hm.
  - discriminate.
  - change (JsMap.values ((k', v') :: m)) with (v' :: JsMap.values m) in *.
    inversion Hm as [|? ? Hhd Htl]; subst. cbn [JsMap.set JsMap.get] in *.
    destruct (Js.same_value_zero k' k).
    + inversion Hget; subst v'.
      change (ForallOrdPairs R (v :: JsMap.values m)). constructor; trivial.
      revert Hhd. apply Forall_impl. exact Hl.
    + change (ForallOrdPairs R (v' :: JsMap.values (JsMap.set k v m))).
      constructor; [|now apply IH].
      apply Forall_values_set; trivial. apply Hr.
      apply (proj1 (Forall_forall _ _) Hhd). now apply (get_in_values k).
Qed.

Lemma FOP_nth {A} (R : A -> A -> Prop) (l : list A) :
  ForallOrdPairs R l ->
  forall i j a b,
    (i < j)%nat -> nth_error l i = Some a -> nth_error l j = Some b -> R a b.
Proof.
  induction 1 as [|x l Hx Hl IH]; intros i j a b Hij Ha Hb.
  - now destruct i.
  - destruct j as [|j]; [lia|]. cbn [nth_error] in Hb.
    destruct i as [|i]; cbn [nth_error] in Ha.
    + inversion Ha; subst. apply (proj1 (Forall_forall _ _) Hx).
      now apply (nth_error_In _ j).
    + apply (IH i j); trivial. lia.
Qed.

(** ** [===] is symmetric *)

Lemma SFeqb_sym (a b : SpecFloat.spec_float) :
  SpecFloat.SFeqb a b = SpecFloat.SFeqb b a.
Proof.
  unfold SpecFloat.SFeqb.
  destruct a as [sa|sa| |sa ma ea], b as [sb|sb| |sb mb eb]; simpl;
    try reflexivity;
    try (destruct sa; reflexivity); try (destruct sb; reflexivity);
    try (destruct sa, sb; reflexivity).
  change (Pos.compare_cont Eq ma mb) with (Pos.compare ma mb).
  change (Pos.compare_cont Eq mb ma) with (Pos.compare mb ma).
  rewrite (Z.compare_antisym ea eb), (Pos.compare_antisym ma mb).
  destruct sa, sb; trivial;
    destruct (ea ?= eb); simpl; trivial; destruct (ma ?= mb)%positive;
    reflexivity.
Qed.

Lemma strict_eq_sym (a b : JsValue) : Js.strict_eq a b = Js.strict_eq b a.
Proof.
  destruct a as [| |x|x|x], b as [| |y|y|y]; simpl; trivial.
  - now destruct x, y.
  - now rewrite !FloatAxioms.eqb_spec, SFeqb_sym.
  - apply String.eqb_sym.
Qed.

Lemma apart_sym (a b : User.t) : apart a b -> apart b a.
Proof.
  unfold apart. now rewrite (strict_eq_sym (User.username b)),
    (strict_eq_sym (User.email b)).
Qed.

(** ** Invariants of the stores *)

Lemma handle_distinct {rt : JsRuntime} (st : State) (req : Request) :
  distinctAccounts st -> distinctAccounts (fst (handle st req)).
Proof.
  unfold distinctAccounts. intros H.
  destruct (handle_users st req)
    as [E|[(clk & userData & Hreq & Hnone & E)|(userId & account & Hg & E)]];
    rewrite E; trivial.
  - apply FOP_set_new; trivial. intros x Hx.
    assert (Hxa : apart x (registeredUser clk userData))
      by exact (Hnone x Hx).
    split; [exact Hxa|now apply apart_sym].
  - apply (FOP_set_same apart userId (User.block account) account); trivial.
Qed.

Lemma handle_pending {rt : JsRuntime} (st : State) (req : Request) :
  allPending st -> allPending (fst (handle st req)).
Proof.
  unfold allPending. intros H.
  destruct (handle_bets st req) as [E|(betId & bet & Hp & E)]; rewrite E;
    trivial.
  now apply Forall_values_set.
Qed.

Lemma flagsOf_all (st : State) (userId : JsValue) :
  allFraudAttempts st -> Forall is_fraud_attempt_flag (flagsOf st userId).
Proof.
  unfold allFraudAttempts, flagsOf. intros H.
  destruct (JsMap.get userId (accountFlags st)) as [flags|] eqn:E;
    [|constructor].
  apply (proj1 (Forall_forall _ _) H). now apply (get_in_values userId).
Qed.

Lemma handle_fraud_attempts {rt : JsRuntime} (st : State) (req : Request) :
  allFraudAttempts st -> allFraudAttempts (fst (handle st req)).
Proof.
  intros H. pose proof H as H0. unfold allFraudAttempts in *.
  destruct (handle_accountFlags st req)
    as [E|[(clk & userData & _ & E)|(userId & flag & Hf & E)]];
    rewrite E; trivial.
  - apply Forall_values_set; trivial.
  - apply Forall_values_set; trivial.
    apply Forall_app. split; [now apply flagsOf_all|]. now repeat constructor.
Qed.

(** X5.  Usernames and emails stay unique.  In every state that the
    server reaches from its empty stores, whatever the requests, two
    accounts at different places of the account store differ in username
    and differ in email, by [===]. *)
Theorem usernames_and_emails_stay_unique {rt : JsRuntime}
  (reqs : list Request) (i j : nat) (a b : User.t) :
  i <> j ->
  nth_error (JsMap.values (users (fst (run emptyState reqs)))) i = Some a ->
  nth_error (JsMap.values (users (fst (run emptyState reqs)))) j = Some b ->
  Js.strict_eq (User.username a) (User.username b) = false
  /\ Js.strict_eq (User.email a) (User.email b) = false.
Proof.
  intros Hij Ha Hb.
  assert (H : distinctAccounts (fst (run emptyState reqs))).
  { apply (run_invariant distinctAccounts handle_distinct). constructor. }
  destruct (Nat.lt_total i j) as [Hlt|[Heq|Hgt]]; [|contradiction|].
  - exact (FOP_nth apart _ H i j a b Hlt Ha Hb).
  - apply apart_sym. exact (FOP_nth apart _ H j i b a Hgt Hb Ha).
Qed.

Lemma usernames_and_emails_stay_unique_witness :
  Js.strict_eq (User.username Sample.bobUser) (User.username Sample.aliceUser)
  = false
  /\ Js.strict_eq (User.email Sample.bobUser) (User.email Sample.aliceUser)
     = false.
Proof.
  apply (@usernames_and_emails_stay_unique Reference.host
           [PostRegister Sample.aliceClock Sample.alice;
            PostRegister Sample.aliceClock Sample.aliceAgain;
            PostRegister Sample.bobClock Sample.bob]
           1%nat 0%nat Sample.bobUser Sample.aliceUser).
  - discriminate.
  - reflexivity.
  - reflexivity.
Defined.

(** X6.  Bets are never settled.  In every state that the server reaches
    from its empty stores, every stored bet has status "pending". *)
Theorem stored_bets_are_pending {rt : JsRuntime} (reqs : list Request)
  (bet : Bet.t) :
  In bet (JsMap.values (bets (fst (run emptyState reqs)))) ->
  Bet.status bet = "pending".
Proof.
  assert (H : allPending (fst (run emptyState reqs))).
  { apply (run_invariant allPending handle_pending). constructor. }
  intros Hin. exact (proj1 (Forall_forall _ _) H bet Hin).
Qed.

Lemma stored_bets_are_pending_witness :
  Bet.status
    (newBet (Sample.at_ 1700000001000) Sample.aliceId
       "BET-1700000001000-17000" Sample.betM1)
  = "pending".
Proof.
  apply (@stored_bets_are_pending Reference.host Sample.scenario).
  vm_compute. left. reflexivity.
Defined.

(** X7.  Every flag counts.  In every state that the server reaches from
    its empty stores, an account-status report lists only fraud-attempt
    flags, its [fraudWarnings] is the number of flags it lists, and its
    restrictions are empty exactly when it lists no flag. *)
Theorem every_flag_is_a_warning {rt : JsRuntime} (reqs : list Request)
  (now : Z) (auth : option string) (report : AccountStatus.t) :
  snd (handle (fst (run emptyState reqs)) (GetAccountStatus now auth))
  = mkResponse 200 (AccountReport report) ->
  Forall is_fraud_attempt_flag (AccountStatus.flags report)
  /\ AccountStatus.fraudWarnings report
     = List.length (AccountStatus.flags report)
  /\ (AccountStatus.flags report = [] ->
      AccountStatus.restrictions report = [])
  /\ (AccountStatus.flags report <> [] ->
      AccountStatus.restrictions report
      = ["betting_restricted"; "withdrawal_restricted"]).
Proof.
  assert (H : allFraudAttempts (fst (run emptyState reqs))).
  { apply (run_invariant allFraudAttempts handle_fraud_attempts).
    constructor. }
  revert H. generalize (fst (run emptyState reqs)). intros st H.
  cbn [handle]. unfold protected, accountStatus.
  destruct (authenticateToken st auth) as [r|user] eqn:Ea.
  - apply authenticateToken_inl in Ea. cbn [snd]. intros E. subst r.
    discriminate Ea.
  - destruct (JsMap.get (User.id user) (users st)) as [account|];
      [|discriminate].
    unfold respond. cbn [snd]. intros E. inversion E; subst report; clear E.
    cbn [AccountStatus.flags AccountStatus.fraudWarnings
         AccountStatus.restrictions].
    pose proof (flagsOf_all st (User.id user) H) as Hall.
    rewrite (filter_fraud_attempts _ Hall).
    split; [exact Hall|]. split; [reflexivity|]. split.
    + intros ->. reflexivity.
    + destruct (flagsOf st (User.id user)) as [|f flags]; [congruence|].
      intros _. inversion Hall as [|? ? Hf _]; subst. cbn [existsb].
      unfold is_fraud_attempt at 1. now rewrite Hf.
Qed.

Lemma every_flag_is_a_warning_witness :
  exists report,
    snd (@handle Reference.host
           (fst (@run Reference.host emptyState Sample.scenario))
           (GetAccountStatus 1700090004000 Sample.bearer))
    = mkResponse 200 (AccountReport report)
    /\ AccountStatus.fraudWarnings report = 3%nat
    /\ AccountStatus.fraudWarnings report
       = List.length (AccountStatus.flags report).
Proof.
  eexists. split; [vm_compute; reflexivity|]. split; [reflexivity|].
  refine (proj1 (proj2 (@every_flag_is_a_warning Reference.host
                          Sample.scenario 1700090004000 Sample.bearer _ _))).
  vm_compute. reflexivity.
Defined.

(** ** Nothing is deleted *)

Lemma handle_keeps {rt : JsRuntime} (st : State) (req : Request) :
  keepsAll st (fst (handle st req)).
Proof.
  split; [|split; [|split]].
  - destruct (handle_users st req)
      as [E|[(clk & userData & _ & _ & E)|(userId & account & _ & E)]];
      rewrite E; auto using keeps_refl, keeps_set.
  - destruct (handle_bets st req) as [E|(betId & bet & _ & E)]; rewrite E;
      auto using keeps_refl, keeps_set.
  - destruct (handle_sessions st req) as [E|(token & session & E)]; rewrite E;
      auto using keeps_refl, keeps_set.
  - destruct (handle_accountFlags st req)
      as [E|[(clk & userData & _ & E)|(userId & flag & _ & E)]];
      rewrite E; auto using keeps_refl, keeps_set.
Qed.

Lemma run_keeps {rt : JsRuntime} (reqs : list Request) :
  forall st, keepsAll st (fst (run st reqs)).
Proof.
  induction reqs as [|req reqs IH]; intros st.
  - repeat split; apply keeps_refl.
  - cbn [run]. pose proof (handle_keeps st req) as H.
    destruct (handle st req) as [st1 r]. specialize (IH st1).
    destruct (run st1 reqs) as [st2 rs]. cbn [fst] in *.
    destruct H as (H1 & H2 & H3 & H4), IH as (I1 & I2 & I3 & I4).
    repeat split; eapply keeps_trans; eassumption.
Qed.

(** X8.  Nothing is ever deleted, and no token expires.  Whatever the
    requests, every key of the account store, of the bet store and of the
    flag store is still a key afterwards, and an [Authorization] header
    that passed [authenticateToken] still passes it. *)
Theorem nothing_is_ever_deleted {rt : JsRuntime} (st : State)
  (reqs : list Request) :
  keeps (users st) (users (fst (run st reqs)))
  /\ keeps (bets st) (bets (fst (run st reqs)))
  /\ keeps (accountFlags st) (accountFlags (fst (run st reqs)))
  /\ forall auth user,
       authenticateToken st auth = inr user ->
       exists user', authenticateToken (fst (run st reqs)) auth = inr user'.
Proof.
  destruct (run_keeps reqs st) as (H1 & H2 & H3 & H4).
  repeat (split; trivial).
  intros auth user. unfold authenticateToken.
  destruct (tokenOf auth) as [token|]; [|discriminate].
  destruct (String.eqb token ""); [discriminate|].
  destruct (JsMap.get (JString token) (sessions st)) as [session|] eqn:E;
    [|discriminate].
  intros _. destruct (H3 _ _ E) as [session' E']. rewrite E'. eauto.
Qed.

Lemma nothing_is_ever_deleted_witness :
  exists user',
    authenticateToken
      (fst (@run Reference.host Sample.registered (tl Sample.scenario)))
      Sample.bearer
    = inr user'.
Proof.
  exact (proj2 (proj2 (proj2
           (@nothing_is_ever_deleted Reference.host Sample.registered
              (tl Sample.scenario))))
           Sample.bearer Sample.aliceUser eq_refl).
Defined.

(** ** Flag lists only grow *)

Lemma handle_flags_grow {rt : JsRuntime} (st : State) (req : Request)
  (userId : JsValue) :
  not_registration req ->
  exists added,
    flagsOf (fst (handle st req)) userId = (flagsOf st userId ++ added)%list
    /\ Forall is_fraud_attempt_flag added.
Proof.
  intros Hreq. unfold flagsOf at 1.
  destruct (handle_accountFlags st req)
    as [E|[(clk & userData & E0 & E)|(uid & flag & Hf & E)]]; rewrite E.
  - exists []. rewrite app_nil_r. now split.
  - subst req. destruct Hreq.
  - destruct (get_set_other userId uid (flagsOf st uid ++ [flag])%list
                (accountFlags st)) as [Eg|[Eg Esame]]; rewrite Eg.
    + exists []. rewrite app_nil_r. now split.
    + exists [flag]. unfold flagsOf. rewrite Esame. now repeat constructor.
Qed.

(** X9.  Flag lists only grow.  Over every sequence of bet placements,
    logins, history and status queries, the flag list under any identity
    afterwards is the one before followed by the flags appended since,
    all of them fraud attempts: no flag is removed, reordered or
    rewritten. *)
Theorem flag_lists_only_grow {rt : JsRuntime} (reqs : list Request) :
  forall (st : State) (userId : JsValue),
    Forall not_registration reqs ->
    exists added,
      flagsOf (fst (run st reqs)) userId = (flagsOf st userId ++ added)%list
      /\ Forall is_fraud_attempt_flag added.
Proof.
  induction reqs as [|req reqs IH]; intros st userId Hall.
  - exists []. rewrite app_nil_r. now split.
  - inversion Hall as [|? ? Hreq Hrest]; subst. cbn [run].
    destruct (handle_flags_grow st req userId Hreq) as (a1 & E1 & F1).
    destruct (handle st req) as [st1 r]. cbn [fst] in E1.
    destruct (IH st1 userId Hrest) as (a2 & E2 & F2).
    destruct (run st1 reqs) as [st2 rs]. cbn [fst] in *.
    exists (a1 ++ a2)%list. rewrite E2, E1, app_assoc. split; trivial.
    apply Forall_app. now split.
Qed.

Lemma flag_lists_only_grow_witness :
  exists added,
    flagsOf
      (fst (@run Reference.host Sample.twoFlags
              [PostBetsPlace (Sample.at_ 1700000003000) Sample.bearer
                 Sample.negativeBet;
               GetAccountStatus 1700000004000 Sample.bearer]))
      Sample.aliceId
    = (flagsOf Sample.twoFlags Sample.aliceId ++ added)%list
    /\ Forall is_fraud_attempt_flag added.
Proof.
  apply (@flag_lists_only_grow Reference.host).
  repeat constructor.
Defined.

(** X10.  Accounts are stored under strings.  In every state that the
    server reaches from its empty stores, every identity under which the
    account store holds an account is a string. *)
Theorem accounts_are_stored_under_strings {rt : JsRuntime}
  (reqs : list Request) (userId : JsValue) (account : User.t) :
  JsMap.get userId (users (fst (run emptyState reqs))) = Some account ->
  exists uid, userId = JString uid.
Proof.
  apply account_identity_is_string. apply reachable_wellKeyed. constructor.
Qed.

Lemma accounts_are_stored_under_strings_witness :
  exists uid, Sample.aliceId = JString uid.
Proof.
  apply (@accounts_are_stored_under_strings Reference.host Sample.scenario
           Sample.aliceId (User.block Sample.aliceUser)).
  reflexivity.
Defined.

(** ** Placements and the other identities *)

Lemma same_value_zero_of_string (s : string) (k : JsValue) :
  Js.same_value_zero (JString s) k = true -> k = JString s.
Proof.
  destruct k; simpl; try discriminate.
  intros H. apply String.eqb_eq in H. now subst.
Qed.

(** A [set] under a key leaves the lookup of every string that is not
    that key as it was. *)
Lemma get_string_set_other {V} (k : JsValue) (s : string) (v : V)
  (m : JsMap.t V) :
  k <> JString s ->
  JsMap.get (JString s) (JsMap.set k v m) = JsMap.get (JString s) m.
Proof.
  intros Hk. induction m as [|[k0 v0] m IH]; simpl.
  - destruct (Js.same_value_zero k (JString s)) eqn:E; trivial.
    apply same_value_zero_string in E. contradiction.
  - destruct (Js.same_value_zero k0 k) eqn:E; simpl.
    + destruct (Js.same_value_zero k0 (JString s)) eqn:E'; trivial.
      apply same_value_zero_string in E'. subst k0.
      apply same_value_zero_of_string in E. contradiction.
    + now rewrite IH.
Qed.

(** X11.  What a bet placement leaves alone.  Whatever the request and
    its verdict, a bet placement whose caller has the session identity
    [k] leaves the account stored under every string identity other than
    [k], and the flag list under it, as they were.  Accounts are told
    apart by identity only: a caller whose session identity is the key of
    another account is not a different identity. *)
Theorem a_placement_leaves_other_identities_alone {rt : JsRuntime}
  (st : State) (clk : PlaceClock) (auth : option string) (user : User.t)
  (betData : Object) (other : string) :
  authenticateToken st auth = inr user ->
  User.id user <> JString other ->
  JsMap.get (JString other)
    (users (fst (handle st (PostBetsPlace clk auth betData))))
  = JsMap.get (JString other) (users st)
  /\ flagsOf (fst (handle st (PostBetsPlace clk auth betData)))
       (JString other)
     = flagsOf st (JString other).
Proof.
  intros Hauth Hother. cbn [handle]. unfold protected. rewrite Hauth.
  unfold placeBet.
  destruct (missingBetInformation betData); [now split|].
  destruct (fraudDetection _ _) as [v|]; [|now split].
  destruct (isFraudulent v).
  - unfold respond. cbn [fst]. split.
    + cbn [users].
      destruct (Nat.leb 3 _); trivial.
      destruct (JsMap.get (User.id user) (users st)); trivial.
      now apply get_string_set_other.
    + unfold flagsOf at 1. cbn [accountFlags].
      now rewrite get_string_set_other.
  - destruct (Js.substring0 (User.id user) 5); now split.
Qed.

(** alice's third rejected bet blocks her and leaves the account and the
    flags under bob's key alone; so do the rejected bets that bob sends
    under the identity 7 of his registration. *)
Lemma a_placement_leaves_other_identities_alone_witness :
  (JsMap.get (JString "1700000000500")
     (users
        (fst (@handle Reference.host Sample.twoFlags
                (PostBetsPlace (Sample.at_ 1700000003000) Sample.bearer
                   Sample.negativeBet))))
   = JsMap.get (JString "1700000000500") (users Sample.twoFlags)
   /\ flagsOf
        (fst (@handle Reference.host Sample.twoFlags
                (PostBetsPlace (Sample.at_ 1700000003000) Sample.bearer
                   Sample.negativeBet)))
        (JString "1700000000500")
      = flagsOf Sample.twoFlags (JString "1700000000500"))
  /\ (JsMap.get (JString "1700000000500")
        (users
           (fst (@handle Reference.host Sample.bobRegistered
                   (PostBetsPlace (Sample.at_ 1700000003000) Sample.bobBearer
                      Sample.negativeBet))))
      = Some Sample.bobUser
      /\ flagsOf
           (fst (@handle Reference.host Sample.bobRegistered
                   (PostBetsPlace (Sample.at_ 1700000003000) Sample.bobBearer
                      Sample.negativeBet)))
           (JString "1700000000500")
         = []).
Proof.
  split.
  - apply (@a_placement_leaves_other_identities_alone Reference.host
             Sample.twoFlags (Sample.at_ 1700000003000) Sample.bearer
             Sample.aliceUser Sample.negativeBet "1700000000500").
    + reflexivity.
    + discriminate.
  - apply (@a_placement_leaves_other_identities_alone Reference.host
             Sample.bobRegistered (Sample.at_ 1700000003000) Sample.bobBearer
             Sample.bobUser Sample.negativeBet "1700000000500").
    + reflexivity.
    + discriminate.
Defined.

(** ** Acceptance *)

(** X12.  A bet is accepted exactly when no rule fires.  For a caller
    whose identity is a string and a request that passes the
    required-field check with a string [matchId]: when none of the five
    rules holds the request is answered 201 and no flag list changes;
    when one of them holds it is answered 400, the bet store is
    unchanged and the caller's flag list is one longer. *)
Theorem accepted_iff_no_rule_fires {rt : JsRuntime} (st : State)
  (clk : PlaceClock) (auth : option string) (user : User.t) (uid : string)
  (betData : Object) (m : string) :
  authenticateToken st auth = inr user ->
  User.id user = JString uid ->
  missingBetInformation betData = false ->
  prop betData "matchId" = JString m ->
  (Forall (fun r => fires r = false) (ruleTable (checkNow clk) betData) ->
   code (snd (handle st (PostBetsPlace clk auth betData))) = 201
   /\ accountFlags (fst (handle st (PostBetsPlace clk auth betData)))
      = accountFlags st)
  /\ (Exists (fun r => fires r = true) (ruleTable (checkNow clk) betData) ->
      code (snd (handle st (PostBetsPlace clk auth betData))) = 400
      /\ bets (fst (handle st (PostBetsPlace clk auth betData))) = bets st
      /\ List.length
           (flagsOf (fst (handle st (PostBetsPlace clk auth betData)))
              (JString uid))
         = S (List.length (flagsOf st (JString uid)))).
Proof.
  intros Hauth Hid Hmiss Hm.
  pose proof (fraudDetection_table (checkNow clk) betData m Hm) as Hfd.
  split.
  - intros Hquiet. rewrite (overwrite_quiet _ _ Hquiet) in Hfd.
    cbn [handle]. unfold protected. rewrite Hauth.
    rewrite (placeBet_legitimate st clk user betData (mkVerdict false "" "")
               uid (conj Hmiss Hfd) eq_refl Hid).
    now split.
  - intros Hex.
    destruct (last_firing_or_quiet (ruleTable (checkNow clk) betData))
      as [[r Hr]|Hquiet].
    + rewrite (overwrite_last_firing _ r _ Hr) in Hfd.
      cbn [handle]. unfold protected. rewrite Hauth.
      rewrite (placeBet_fraudulent st clk user betData _ (conj Hmiss Hfd)
                 eq_refl).
      cbv zeta. cbn [fst snd code bets]. split; [reflexivity|].
      split; [reflexivity|]. rewrite Hid, flagsOf_set, length_app.
      cbn [List.length]. lia.
    + exfalso. apply Exists_exists in Hex. destruct Hex as (r & Hin & Hr).
      rewrite (proj1 (Forall_forall _ _) Hquiet r Hin) in Hr. discriminate.
Qed.

Lemma accepted_iff_no_rule_fires_witness :
  code (snd (@handle Reference.host Sample.registered
               (PostBetsPlace (Sample.at_ 1700000001000) Sample.bearer
                  Sample.legitBet)))
  = 201
  /\ code (snd (@handle Reference.host Sample.registered
                  (PostBetsPlace (Sample.at_ 1700000001000) Sample.bearer
                     Sample.doubleFraud)))
     = 400.
Proof.
  split.
  - apply (proj1 (@accepted_iff_no_rule_fires Reference.host
                    Sample.registered (Sample.at_ 1700000001000)
                    Sample.bearer Sample.aliceUser "1700000000000"
                    Sample.legitBet "match-123"
                    eq_refl eq_refl eq_refl eq_refl)).
    vm_compute. repeat constructor.
  - apply (proj2 (@accepted_iff_no_rule_fires Reference.host
                    Sample.registered (Sample.at_ 1700000001000)
                    Sample.bearer Sample.aliceUser "1700000000000"
                    Sample.doubleFraud "match-123"
                    eq_refl eq_refl eq_refl eq_refl)).
    vm_compute. left. reflexivity.
Defined.

(** ** The JSON round trip and property assignment *)

Lemma own_roundtrip_from (o : Object) :
  forall seen k,
    own (Json.roundtrip_from seen o) k
    = if existsb (String.eqb k) seen then None
      else match own o k with
           | Some v => Json.scalar v
           | None => None
           end.
Proof.
  induction o as [|[k0 v0] o IH]; intros seen k.
  - simpl. now destruct (existsb _ seen).
  - cbn [Json.roundtrip_from own].
    destruct (existsb (String.eqb k0) seen) eqn:E0.
    + rewrite IH. destruct (existsb (String.eqb k) seen) eqn:Ek; trivial.
      destruct (String.eqb k0 k) eqn:E; trivial.
      apply String.eqb_eq in E. subst k0. congruence.
    + destruct (String.eqb k0 k) eqn:E.
      * apply String.eqb_eq in E. subst k0. rewrite E0.
        destruct (Json.scalar v0) as [v'|].
        -- cbn [own]. now rewrite String.eqb_refl.
        -- rewrite IH. cbn [existsb]. now rewrite String.eqb_refl.
      * assert (Ek : existsb (String.eqb k) (k0 :: seen)
                     = existsb (String.eqb k) seen).
        { cbn [existsb]. now rewrite String.eqb_sym, E. }
        destruct (Json.scalar v0) as [v'|]; cbn [own]; rewrite ?E, IH, Ek;
          reflexivity.
Qed.

Lemma own_roundtrip (o : Object) (k : string) :
  own (Json.roundtrip o) k
  = match own o k with
    | Some v => Json.scalar v
    | None => None
    end.
Proof. unfold Json.roundtrip. now rewrite own_roundtrip_from. Qed.

Lemma own_assign (o : Object) (k : string) (v : JsValue) (k' : string) :
  own (assign o k v) k' = if String.eqb k k' then Some v else own o k'.
Proof.
  induction o as [|[k0 v0] o IH]; cbn [assign own]; trivial.
  destruct (String.eqb k0 k) eqn:E; cbn [own].
  - apply String.eqb_eq in E. subst k0. now destruct (String.eqb k k').
  - rewrite IH. destruct (String.eqb k0 k') eqn:E'; trivial.
    apply String.eqb_eq in E'. subst k0. now rewrite String.eqb_sym, E.
Qed.

(** What the server reads under [k'] after [o.k = v] went over the
    wire. *)
Lemma prop_sent_assign (o : Object) (k : string) (v : JsValue) (k' : string) :
  prop (Json.roundtrip (assign o k v)) k'
  = if String.eqb k k'
    then match Json.scalar v with Some v' => v' | None => JUndefined end
    else prop (Json.roundtrip o) k'.
Proof.
  unfold prop. rewrite !own_roundtrip, own_assign.
  now destruct (String.eqb k k').
Qed.

(** ** Floats *)

Lemma SFcompare_finite_refl (s : bool) (m : positive) (e : Z) :
  SpecFloat.SFcompare (SpecFloat.S754_finite s m e) (SpecFloat.S754_finite s m e)
  = Some Eq.
Proof.
  simpl. rewrite Z.compare_refl.
  change (Pos.compare_cont Eq m m) with (Pos.compare m m).
  rewrite Pos.compare_refl. now destruct s.
Qed.

Lemma negated_abs_finite (x : float) :
  PrimFloat.is_finite x = true ->
  PrimFloat.is_finite (- PrimFloat.abs x)%float = true.
Proof.
  unfold PrimFloat.is_finite, PrimFloat.is_nan, PrimFloat.is_infinity.
  rewrite !FloatAxioms.eqb_spec, !FloatAxioms.abs_spec, !FloatAxioms.opp_spec,
    !FloatAxioms.abs_spec.
  change (Prim2SF PrimFloat.infinity) with (SpecFloat.S754_infinity false).
  destruct (Prim2SF x) as [s|[|]| |s m e]; try (simpl; easy).
  intros _. simpl. unfold SpecFloat.SFeqb.
  now rewrite SFcompare_finite_refl.
Qed.

Lemma negated_abs_nonzero (x : float) :
  PrimFloat.eqb x 0 = false ->
  PrimFloat.eqb (- PrimFloat.abs x)%float 0 = false.
Proof.
  rewrite !FloatAxioms.eqb_spec, !FloatAxioms.opp_spec, !FloatAxioms.abs_spec.
  change (Prim2SF 0) with (SpecFloat.S754_zero false).
  now destruct (Prim2SF x) as [s|s| |s m e].
Qed.

Lemma negated_abs_nonpositive (x : float) :
  PrimFloat.is_nan x = false ->
  PrimFloat.leb (- PrimFloat.abs x)%float 0 = true.
Proof.
  unfold PrimFloat.is_nan.
  rewrite FloatAxioms.leb_spec, FloatAxioms.eqb_spec, FloatAxioms.opp_spec,
    FloatAxioms.abs_spec.
  change (Prim2SF 0) with (SpecFloat.S754_zero false).
  now destruct (Prim2SF x) as [s|s| |s m e].
Qed.

Lemma finite_not_nan (x : float) :
  PrimFloat.is_finite x = true -> PrimFloat.is_nan x = false.
Proof.
  unfold PrimFloat.is_finite. now destruct (PrimFloat.is_nan x).
Qed.

(** ** Strings *)

Lemma prefix_refl (s : string) : String.prefix s s = true.
Proof.
  induction s as [|a s IH]; simpl; trivial.
  now destruct (ascii_dec a a).
Qed.

Lemma includes_suffix (needle s : string) :
  Js.string_includes needle (s ++ needle) = true.
Proof.
  induction s as [|a s IH].
  - destruct needle as [|b needle]; trivial.
    cbn [append Js.string_includes]. now rewrite prefix_refl.
  - cbn [append Js.string_includes].
    destruct (String.prefix needle (String a (s ++ needle))); trivial.
Qed.

Lemma append_altered_nonempty (s : string) :
  String.eqb (s ++ "-altered") "" = false.
Proof. now destruct s. Qed.

(** ** Probes against the mock server *)

Lemma prop_roundtrip (o : Object) (k : string) :
  prop (Json.roundtrip o) k
  = match own o k with
    | Some v => match Json.scalar v with Some v' => v' | None => JUndefined end
    | None => JUndefined
    end.
Proof. unfold prop. rewrite own_roundtrip. now destruct (own o k). Qed.

(** What the quiet rules of a legitimate payload say. *)
Lemma legitimate_rules {rt : JsRuntime} (clk : PlaceClock) (betData : Object) :
  legitimate clk betData ->
  PrimFloat.leb (Js.parseFloat (prop (Json.roundtrip betData) "amount")) 0
  = false
  /\ PrimFloat.ltb 20 (Js.parseFloat (prop (Json.roundtrip betData) "odds"))
     = false
  /\ match prop (Json.roundtrip betData) "matchId" with
     | JString m => Js.string_includes "-altered" m
     | _ => false
     end = false
  /\ Js.truthy (prop (Json.roundtrip betData) "timestamp")
     && Js.date_lt (Js.newDate (prop (Json.roundtrip betData) "timestamp"))
          (checkNow clk - 3600000) = false
  /\ Js.truthy (prop (Json.roundtrip betData) "serverBypass")
     || Js.truthy (prop (Json.roundtrip betData) "adminApproval") = false.
Proof.
  intros [_ Hq]. unfold ruleTable, ruleTableWith in Hq.
  rewrite !Forall_cons_iff in Hq. cbn [fires] in Hq. tauto.
Qed.

Lemma complete_fields (betData : Object) :
  missingBetInformation betData = false ->
  Js.truthy (prop betData "matchId") = true
  /\ Js.truthy (prop betData "amount") = true
  /\ Js.truthy (prop betData "odds") = true
  /\ Js.truthy (prop betData "selection") = true.
Proof.
  unfold missingBetInformation.
  destruct (Js.truthy (prop betData "matchId")),
    (Js.truthy (prop betData "amount")), (Js.truthy (prop betData "odds")),
    (Js.truthy (prop betData "selection")); simpl; intros H;
    try discriminate H; auto.
Qed.

Lemma fields_complete (betData : Object) :
  Js.truthy (prop betData "matchId") = true ->
  Js.truthy (prop betData "amount") = true ->
  Js.truthy (prop betData "odds") = true ->
  Js.truthy (prop betData "selection") = true ->
  missingBetInformation betData = false.
Proof. unfold missingBetInformation. now intros -> -> -> ->. Qed.

(** A probe that the server rejects by rule [r]. *)
Lemma probe_rejected {rt : JsRuntime} {crt : ClientRuntime}
  (client : ApiClient.t) (st : State) (now : Z) (clk : PlaceClock)
  (legit : Object) (fraudType : JsValue) (user : User.t) (m : string)
  (r : Rule) :
  authenticateToken st (ApiClient.authorization client) = inr user ->
  missingBetInformation
    (Json.roundtrip (ApiClient.fraudulentBetData now legit fraudType))
  = false ->
  prop (Json.roundtrip (ApiClient.fraudulentBetData now legit fraudType))
    "matchId" = JString m ->
  last_firing
    (ruleTable (checkNow clk)
       (Json.roundtrip (ApiClient.fraudulentBetData now legit fraudType))) r ->
  exists st' flag,
    ApiClient.placeFraudulentBet client st now clk legit fraudType
    = (st', detectedAs (category r) (reasonText r))
    /\ bets st' = bets st
    /\ is_fraud_attempt_flag flag
    /\ flagsOf st' (User.id user) = (flagsOf st (User.id user) ++ [flag])%list.
Proof.
  intros Hauth Hmiss Hm Hr.
  destruct (rejected_by_rule st clk _ user _ m r Hauth Hmiss Hm Hr)
    as (st' & H & Hb & _ & Hf).
  exists st'. eexists. unfold ApiClient.placeFraudulentBet. rewrite H.
  split; [reflexivity|]. split; [exact Hb|]. split; [|exact Hf]. reflexivity.
Qed.

(** A probe that no rule matches, sent by an account whose identity is a
    string. *)
Lemma probe_accepted {rt : JsRuntime} {crt : ClientRuntime}
  (client : ApiClient.t) (st : State) (now : Z) (clk : PlaceClock)
  (legit : Object) (fraudType : JsValue) (user : User.t) (uid m : string) :
  authenticateToken st (ApiClient.authorization client) = inr user ->
  User.id user = JString uid ->
  missingBetInformation
    (Json.roundtrip (ApiClient.fraudulentBetData now legit fraudType))
  = false ->
  prop (Json.roundtrip (ApiClient.fraudulentBetData now legit fraudType))
    "matchId" = JString m ->
  Forall (fun r => fires r = false)
    (ruleTable (checkNow clk)
       (Json.roundtrip (ApiClient.fraudulentBetData now legit fraudType))) ->
  exists bet,
    bet = newBet clk (JString uid) (betIdOf clk (String.substring 0 5 uid))
            (Json.roundtrip (ApiClient.fraudulentBetData now legit fraudType))
    /\ ApiClient.placeFraudulentBet client st now clk legit fraudType
       = (mkState (users st)
            (JsMap.set (JString (betIdOf clk (String.substring 0 5 uid))) bet
               (bets st))
            (sessions st) (accountFlags st),
          ApiClient.mkProbe true
            (BetAccepted "Bet placed successfully" (Bet.id bet)
               (PlacedBet.mk (Bet.id bet) (Bet.matchId bet)
                  (Bet.selection bet) (Bet.odds bet) (Bet.amount bet)
                  "pending"))
            false None).
Proof.
  intros Hauth Hid Hmiss Hm Hq.
  pose proof (fraudDetection_table (checkNow clk) _ m Hm) as Hfd.
  rewrite (overwrite_quiet _ _ Hq) in Hfd.
  unfold ApiClient.placeFraudulentBet. cbn [handle]. unfold protected.
  rewrite Hauth.
  rewrite (placeBet_legitimate st clk user _ (mkVerdict false "" "") uid
             (conj Hmiss Hfd) eq_refl Hid).
  cbv zeta. eexists. split; reflexivity.
Qed.

Ltac sent_props :=
  repeat (rewrite prop_sent_assign;
          match goal with
          | |- context [String.eqb ?a ?b] =>
              let c := eval vm_compute in (String.eqb a b) in
              change (String.eqb a b) with c
          end; cbv iota).

(** X13.  The request-tampering probe.  For a client whose header
    authenticates and a bet that arrives complete, the probe of kind
    "request-tampering" is always refused by the server, as
    request-tampering whatever else the bet holds; the client reports it
    detected with status 400, no bet is stored and one flag is appended to
    the caller's list. *)
Theorem tampering_probe_is_rejected {rt : JsRuntime} {crt : ClientRuntime}
  (client : ApiClient.t) (st : State) (now : Z) (clk : PlaceClock)
  (legit : Object) (user : User.t) :
  authenticateToken st (ApiClient.authorization client) = inr user ->
  arrivesComplete legit ->
  exists st' flag,
    ApiClient.placeFraudulentBet client st now clk legit
      (JString "request-tampering")
    = (st',
       detectedAs "request-tampering"
         "Fraud detected: Unauthorized request fields")
    /\ bets st' = bets st
    /\ is_fraud_attempt_flag flag
    /\ flagsOf st' (User.id user) = (flagsOf st (User.id user) ++ [flag])%list.
Proof.
  intros Hauth [Hmiss [m Hm]].
  apply complete_fields in Hmiss. destruct Hmiss as (H1 & H2 & H3 & H4).
  apply (probe_rejected client st now clk legit _ user m
           (mkRule true "request-tampering"
              "Fraud detected: Unauthorized request fields") Hauth).
  - apply fields_complete; cbn [ApiClient.fraudulentBetData Js.strict_eq String.eqb Ascii.eqb Bool.eqb];
      sent_props; assumption.
  - cbn [ApiClient.fraudulentBetData Js.strict_eq String.eqb Ascii.eqb Bool.eqb].
    sent_props. exact Hm.
  - eexists. exists []. split; [|split; [reflexivity|constructor]].
    unfold ruleTable, ruleTableWith.
    cbn [ApiClient.fraudulentBetData Js.strict_eq String.eqb Ascii.eqb Bool.eqb].
    sent_props. cbn [Json.scalar Js.truthy orb].
    match goal with
    | |- [?a; ?b; ?c; ?d; ?e] = _ => change ([a; b; c; d; e]) with ([a; b; c; d] ++ [e])%list
    end.
    reflexivity.
Qed.

Ltac probe_payload :=
  cbn [ApiClient.fraudulentBetData Js.strict_eq String.eqb Ascii.eqb Bool.eqb];
  sent_props.

(** X14.  The match-alteration probe.  For a client whose header
    authenticates and a bet that the server would accept, the probe of
    kind "match-alteration" is refused as match-alteration: the client
    reports it detected with status 400, no bet is stored and one flag is
    appended to the caller's list. *)
Theorem alteration_probe_is_rejected {rt : JsRuntime} {crt : ClientRuntime}
  (client : ApiClient.t) (st : State) (now : Z) (clk : PlaceClock)
  (legit : Object) (user : User.t) :
  authenticateToken st (ApiClient.authorization client) = inr user ->
  legitimate clk legit ->
  exists st' flag,
    ApiClient.placeFraudulentBet client st now clk legit
      (JString "match-alteration")
    = (st',
       detectedAs "match-alteration"
         "Fraud detected: Match ID tampering detected")
    /\ bets st' = bets st
    /\ is_fraud_attempt_flag flag
    /\ flagsOf st' (User.id user) = (flagsOf st (User.id user) ++ [flag])%list.
Proof.
  intros Hauth Hlegit.
  destruct (legitimate_rules clk legit Hlegit) as (_ & _ & _ & R4 & R5).
  destruct Hlegit as [[Hmiss _] _].
  apply complete_fields in Hmiss. destruct Hmiss as (_ & H2 & H3 & H4).
  apply (probe_rejected client st now clk legit _ user
           (Js.toString (prop legit "matchId") ++ "-altered")
           (mkRule true "match-alteration"
              "Fraud detected: Match ID tampering detected") Hauth).
  - apply fields_complete; probe_payload; trivial.
    cbn [Json.scalar Js.truthy]. now rewrite append_altered_nonempty.
  - probe_payload. reflexivity.
  - eexists. eexists. split; [|split; [reflexivity|]].
    + unfold ruleTable, ruleTableWith. probe_payload.
      cbn [Json.scalar]. rewrite includes_suffix.
      match goal with
      | |- [?a; ?b; ?c; ?d; ?e] = _ =>
          change ([a; b; c; d; e]) with ([a; b] ++ c :: [d; e])%list
      end.
      reflexivity.
    + repeat constructor; cbn [fires]; assumption.
Qed.

Lemma sent_number (x : float) :
  Js.truthy
    (match Json.scalar (JNumber x) with Some v => v | None => JUndefined end)
  = true ->
  PrimFloat.is_finite x = true /\ PrimFloat.eqb x 0 = false.
Proof.
  cbn [Json.scalar]. destruct (PrimFloat.is_finite x); [|discriminate].
  destruct (PrimFloat.eqb x 0); [discriminate|]. now split.
Qed.

(** What the server reads as the amount of a probe that negates the
    number [x]. *)
Lemma sent_negated_amount {rt : JsRuntime} (x : float) :
  PrimFloat.is_finite x = true -> PrimFloat.eqb x 0 = false ->
  (match Json.scalar (JNumber (- PrimFloat.abs x)%float) with
   | Some v => v
   | None => JUndefined
   end = JNumber (- PrimFloat.abs x)%float)
  /\ Js.truthy (JNumber (- PrimFloat.abs x)%float) = true
  /\ PrimFloat.leb (Js.parseFloat (JNumber (- PrimFloat.abs x)%float)) 0
     = true.
Proof.
  intros Hfin Hnz.
  pose proof (negated_abs_finite x Hfin) as Hf.
  pose proof (negated_abs_nonzero x Hnz) as Hz.
  pose proof (negated_abs_nonpositive x (finite_not_nan x Hfin)) as Hle.
  cbn [Json.scalar Js.truthy Js.parseFloat]. rewrite Hf, Hz.
  rewrite (finite_not_nan _ Hf). repeat split. exact Hle.
Qed.

Lemma own_of_prop (o : Object) (k : string) (v : JsValue) :
  prop o k = v -> v <> JUndefined -> own o k = Some v.
Proof. unfold prop. destruct (own o k); congruence. Qed.

(** X15.  The negative-amount probe.  For a client whose header
    authenticates and a bet that the server would accept, with a number
    as amount, the probe of kind "negative-amount" is refused as
    negative-amount: the client reports it detected with status 400, no
    bet is stored and one flag is appended to the caller's list. *)
Theorem negative_amount_probe_is_rejected {rt : JsRuntime}
  {crt : ClientRuntime} (client : ApiClient.t) (st : State) (now : Z)
  (clk : PlaceClock) (legit : Object) (user : User.t) (x : float) :
  authenticateToken st (ApiClient.authorization client) = inr user ->
  legitimate clk legit ->
  prop legit "amount" = JNumber x ->
  exists st' flag,
    ApiClient.placeFraudulentBet client st now clk legit
      (JString "negative-amount")
    = (st', detectedAs "negative-amount" "Fraud detected: Invalid bet amount")
    /\ bets st' = bets st
    /\ is_fraud_attempt_flag flag
    /\ flagsOf st' (User.id user) = (flagsOf st (User.id user) ++ [flag])%list.
Proof.
  intros Hauth Hlegit Hx.
  destruct (legitimate_rules clk legit Hlegit) as (_ & R2 & R3 & R4 & R5).
  destruct Hlegit as [[Hmiss [m Hm]] _].
  apply complete_fields in Hmiss. destruct Hmiss as (H1 & H2 & H3 & H4).
  rewrite prop_roundtrip, (own_of_prop legit "amount" _ Hx) in H2
    by discriminate.
  destruct (sent_number x H2) as [Hfin Hnz].
  destruct (sent_negated_amount x Hfin Hnz) as (Es & Et & El).
  apply (probe_rejected client st now clk legit _ user m
           (mkRule true "negative-amount" "Fraud detected: Invalid bet amount")
           Hauth).
  - apply fields_complete; probe_payload; trivial.
    unfold ApiClient.negatedAmount. rewrite Hx. cbn [ApiClient.toNumber].
    now rewrite Es.
  - probe_payload. exact Hm.
  - eexists. eexists. split; [|split; [reflexivity|]].
    + unfold ruleTable, ruleTableWith. probe_payload.
      unfold ApiClient.negatedAmount. rewrite Hx. cbn [ApiClient.toNumber].
      rewrite Es, El.
      match goal with
      | |- [?a; ?b; ?c; ?d; ?e] = _ =>
          change ([a; b; c; d; e]) with ([] ++ a :: [b; c; d; e])%list
      end.
      reflexivity.
    + repeat constructor; cbn [fires]; assumption.
Qed.

(** X16.  The odds-manipulation probe goes through up to 20.  The probe
    sends ten times the odds, as a string.  On a host that reads that
    string back as the number it prints, and for a bet that the server
    would accept, placed by an account whose identity is a string: the
    probe is refused as odds-manipulation when ten times the odds exceeds
    20, and otherwise it is accepted, stored as a pending bet with the
    inflated odds, and reported by the client as not detected. *)
Theorem odds_probe_is_rejected_above_twenty {rt : JsRuntime}
  {crt : ClientRuntime} (client : ApiClient.t) (st : State) (now : Z)
  (clk : PlaceClock) (legit : Object) (user : User.t) (uid : string)
  (z : float) :
  authenticateToken st (ApiClient.authorization client) = inr user ->
  User.id user = JString uid ->
  legitimate clk legit ->
  z = (Js.parseFloat (prop legit "odds") * 10)%float ->
  numberToString z <> "" ->
  parseFloatString (numberToString z) = z ->
  (PrimFloat.ltb 20 z = true ->
   exists st' flag,
     ApiClient.placeFraudulentBet client st now clk legit
       (JString "odds-manipulation")
     = (st',
        detectedAs "odds-manipulation"
          "Fraud detected: Suspicious odds manipulation")
     /\ bets st' = bets st
     /\ is_fraud_attempt_flag flag
     /\ flagsOf st' (User.id user)
        = (flagsOf st (User.id user) ++ [flag])%list)
  /\ (PrimFloat.ltb 20 z = false ->
      exists st' betId bet,
        ApiClient.placeFraudulentBet client st now clk legit
          (JString "odds-manipulation")
        = (st',
           ApiClient.mkProbe true
             (BetAccepted "Bet placed successfully" (Bet.id bet)
                (PlacedBet.mk (Bet.id bet) (Bet.matchId bet)
                   (Bet.selection bet) (Bet.odds bet) (Bet.amount bet)
                   "pending"))
             false None)
        /\ Bet.odds bet = JString (numberToString z)
        /\ bets st' = JsMap.set (JString betId) bet (bets st)
        /\ accountFlags st' = accountFlags st).
Proof.
  intros Hauth Hid Hlegit Hz Hne Hparse.
  destruct (legitimate_rules clk legit Hlegit) as (R1 & _ & R3 & R4 & R5).
  destruct Hlegit as [[Hmiss [m Hm]] _].
  apply complete_fields in Hmiss. destruct Hmiss as (H1 & H2 & H3 & H4).
  apply String.eqb_neq in Hne.
  assert (Hmiss' :
            missingBetInformation
              (Json.roundtrip
                 (ApiClient.fraudulentBetData now legit
                    (JString "odds-manipulation"))) = false).
  { apply fields_complete; probe_payload; trivial.
    unfold ApiClient.inflatedOdds. rewrite <- Hz.
    cbn [Json.scalar Js.truthy]. now rewrite Hne. }
  assert (Hm' :
            prop
              (Json.roundtrip
                 (ApiClient.fraudulentBetData now legit
                    (JString "odds-manipulation"))) "matchId" = JString m).
  { probe_payload. exact Hm. }
  assert (Htable :
            ruleTable (checkNow clk)
              (Json.roundtrip
                 (ApiClient.fraudulentBetData now legit
                    (JString "odds-manipulation")))
            = [mkRule
                 (PrimFloat.leb
                    (Js.parseFloat (prop (Json.roundtrip legit) "amount")) 0)
                 "negative-amount" "Fraud detected: Invalid bet amount";
               mkRule (PrimFloat.ltb 20 z) "odds-manipulation"
                 "Fraud detected: Suspicious odds manipulation";
               mkRule
                 (match prop (Json.roundtrip legit) "matchId" with
                  | JString m => Js.string_includes "-altered" m
                  | _ => false
                  end)
                 "match-alteration"
                 "Fraud detected: Match ID tampering detected";
               mkRule
                 (Js.truthy (prop (Json.roundtrip legit) "timestamp")
                  && Js.date_lt
                       (Js.newDate (prop (Json.roundtrip legit) "timestamp"))
                       (checkNow clk - 3600000))
                 "timestamp-manipulation"
                 "Fraud detected: Timestamp manipulation detected";
               mkRule
                 (Js.truthy (prop (Json.roundtrip legit) "serverBypass")
                  || Js.truthy (prop (Json.roundtrip legit) "adminApproval"))
                 "request-tampering"
                 "Fraud detected: Unauthorized request fields"]).
  { unfold ruleTable, ruleTableWith. probe_payload.
    unfold ApiClient.inflatedOdds. rewrite <- Hz.
    cbn [Json.scalar Js.parseFloat]. now rewrite Hparse. }
  split; intros Hlt.
  - apply (probe_rejected client st now clk legit _ user m
             (mkRule true "odds-manipulation"
                "Fraud detected: Suspicious odds manipulation")
             Hauth Hmiss' Hm').
    rewrite Htable, Hlt. eexists [_]. eexists.
    split; [reflexivity|]. split; [reflexivity|].
    repeat constructor; cbn [fires]; assumption.
  - destruct (probe_accepted client st now clk legit _ user uid m
                Hauth Hid Hmiss' Hm') as (bet & Hbet & Hp).
    { rewrite Htable, Hlt. repeat constructor; cbn [fires]; assumption. }
    eexists. eexists. exists bet. split; [exact Hp|].
    split; [|now split].
    subst bet. unfold newBet. cbn [Bet.odds]. probe_payload.
    unfold ApiClient.inflatedOdds. now rewrite <- Hz.
Qed.

(** X17.  The timestamp-manipulation probe.  The probe is stamped one day
    before the client's clock.  On a host that parses the timestamp it
    prints, for a bet that the server would accept, and when the client's
    clock is less than 23 hours ahead of the server's, the probe is
    refused as timestamp-manipulation: the client reports it detected
    with status 400, no bet is stored and one flag is appended. *)
Theorem timestamp_probe_is_rejected {rt : JsRuntime} {crt : ClientRuntime}
  (client : ApiClient.t) (st : State) (now : Z) (clk : PlaceClock)
  (legit : Object) (user : User.t) :
  authenticateToken st (ApiClient.authorization client) = inr user ->
  legitimate clk legit ->
  dateToISOString (now - 86400000) <> "" ->
  dateParse (dateToISOString (now - 86400000)) = Some (now - 86400000) ->
  now - checkNow clk < 82800000 ->
  exists st' flag,
    ApiClient.placeFraudulentBet client st now clk legit
      (JString "timestamp-manipulation")
    = (st',
       detectedAs "timestamp-manipulation"
         "Fraud detected: Timestamp manipulation detected")
    /\ bets st' = bets st
    /\ is_fraud_attempt_flag flag
    /\ flagsOf st' (User.id user) = (flagsOf st (User.id user) ++ [flag])%list.
Proof.
  intros Hauth Hlegit Hne Hparse Hclock.
  destruct (legitimate_rules clk legit Hlegit) as (_ & _ & _ & _ & R5).
  destruct Hlegit as [[Hmiss [m Hm]] _].
  apply complete_fields in Hmiss. destruct Hmiss as (H1 & H2 & H3 & H4).
  apply String.eqb_neq in Hne.
  apply (probe_rejected client st now clk legit _ user m
           (mkRule true "timestamp-manipulation"
              "Fraud detected: Timestamp manipulation detected") Hauth).
  - apply fields_complete; probe_payload; trivial.
  - probe_payload. exact Hm.
  - eexists. eexists. split; [|split; [reflexivity|]].
    + unfold ruleTable, ruleTableWith. probe_payload.
      cbn [Json.scalar Js.truthy Js.newDate]. rewrite Hne, Hparse.
      cbn [negb andb Js.date_lt].
      replace (now - 86400000 <? checkNow clk - 3600000) with true
        by (symmetry; apply Z.ltb_lt; lia).
      match goal with
      | |- [?a; ?b; ?c; ?d; ?e] = _ =>
          change ([a; b; c; d; e]) with ([a; b; c] ++ d :: [e])%list
      end.
      reflexivity.
    + repeat constructor; cbn [fires]; assumption.
Qed.

Lemma prop_assign (o : Object) (k : string) (v : JsValue) (k' : string) :
  prop (assign o k v) k' = if String.eqb k k' then v else prop o k'.
Proof. unfold prop. rewrite own_assign. now destruct (String.eqb k k'). Qed.

(** X18.  A probe of an unknown kind.  For a [fraudType] that is none of
    the five named kinds the probe negates the amount and sends five times
    the odds.  For a bet that the server would accept, with a number as
    amount, it is refused: as odds-manipulation when the odds it sends are
    read as more than 20, and as negative-amount otherwise. *)
Theorem unknown_technique_probe_is_rejected {rt : JsRuntime}
  {crt : ClientRuntime} (client : ApiClient.t) (st : State) (now : Z)
  (clk : PlaceClock) (legit : Object) (fraudType : JsValue) (user : User.t)
  (x : float) (odds : string) :
  authenticateToken st (ApiClient.authorization client) = inr user ->
  legitimate clk legit ->
  unknownTechnique fraudType ->
  prop legit "amount" = JNumber x ->
  odds = numberToString (Js.parseFloat (prop legit "odds") * 5)%float ->
  odds <> "" ->
  exists st' flag,
    ApiClient.placeFraudulentBet client st now clk legit fraudType
    = (st',
       if PrimFloat.ltb 20 (parseFloatString odds)
       then detectedAs "odds-manipulation"
              "Fraud detected: Suspicious odds manipulation"
       else detectedAs "negative-amount" "Fraud detected: Invalid bet amount")
    /\ bets st' = bets st
    /\ is_fraud_attempt_flag flag
    /\ flagsOf st' (User.id user) = (flagsOf st (User.id user) ++ [flag])%list.
Proof.
  intros Hauth Hlegit (U1 & U2 & U3 & U4 & U5) Hx Hodds Hne.
  destruct (legitimate_rules clk legit Hlegit) as (_ & _ & R3 & R4 & R5).
  destruct Hlegit as [[Hmiss [m Hm]] _].
  apply complete_fields in Hmiss. destruct Hmiss as (H1 & H2 & H3 & H4).
  rewrite prop_roundtrip, (own_of_prop legit "amount" _ Hx) in H2
    by discriminate.
  destruct (sent_number x H2) as [Hfin Hnz].
  destruct (sent_negated_amount x Hfin Hnz) as (Es & Et & El).
  apply String.eqb_neq in Hne.
  assert (Hpayload :
            ApiClient.fraudulentBetData now legit fraudType
            = assign
                (assign legit "amount" (JNumber (- PrimFloat.abs x)%float))
                "odds" (JString odds)).
  { unfold ApiClient.fraudulentBetData. rewrite U1, U2, U3, U4, U5.
    cbv zeta. unfold ApiClient.inflatedOdds, ApiClient.negatedAmount.
    rewrite prop_assign. cbn [String.eqb Ascii.eqb Bool.eqb].
    rewrite Hx. cbn [ApiClient.toNumber]. now rewrite <- Hodds. }
  assert (Hmiss' :
            missingBetInformation
              (Json.roundtrip
                 (ApiClient.fraudulentBetData now legit fraudType)) = false).
  { rewrite Hpayload. apply fields_complete; sent_props; trivial.
    - now rewrite Es.
    - cbn [Json.scalar Js.truthy]. now rewrite Hne. }
  assert (Hm' :
            prop
              (Json.roundtrip
                 (ApiClient.fraudulentBetData now legit fraudType)) "matchId"
            = JString m).
  { rewrite Hpayload. sent_props. exact Hm. }
  destruct (PrimFloat.ltb 20 (parseFloatString odds)) eqn:Elt.
  - apply (probe_rejected client st now clk legit _ user m
             (mkRule true "odds-manipulation"
                "Fraud detected: Suspicious odds manipulation")
             Hauth Hmiss' Hm').
    rewrite Hpayload. eexists. eexists. split; [|split; [reflexivity|]].
    + unfold ruleTable, ruleTableWith. sent_props.
      cbn [Json.scalar Js.parseFloat]. rewrite Elt.
      match goal with
      | |- [?a; ?b; ?c; ?d; ?e] = _ =>
          change ([a; b; c; d; e]) with ([a] ++ b :: [c; d; e])%list
      end.
      reflexivity.
    + repeat constructor; cbn [fires]; assumption.
  - apply (probe_rejected client st now clk legit _ user m
             (mkRule true "negative-amount"
                "Fraud detected: Invalid bet amount")
             Hauth Hmiss' Hm').
    rewrite Hpayload. eexists. eexists. split; [|split; [reflexivity|]].
    + unfold ruleTable, ruleTableWith. sent_props.
      rewrite Es, El. cbn [Json.scalar Js.parseFloat]. rewrite Elt.
      match goal with
      | |- [?a; ?b; ?c; ?d; ?e] = _ =>
          change ([a; b; c; d; e]) with ([] ++ a :: [b; c; d; e])%list
      end.
      reflexivity.
    + repeat constructor; cbn [fires]; assumption.
Qed.

Lemma settle_thrown (r : Response) :
  code r = 400 \/ code r = 401 \/ code r = 403 \/ code r = 500 ->
  ApiClient.settle r = ApiClient.Thrown r.
Proof.
  unfold ApiClient.settle. intros [H|[H|[H|H]]]; now rewrite H.
Qed.

Lemma settle_returned (r : Response) :
  code r = 200 -> ApiClient.settle r = ApiClient.Returned r.
Proof. unfold ApiClient.settle. now intros ->. Qed.

(** X19.  What a probe report means.  [success] is the negation of
    [fraudDetected].  A probe reported as not detected was stored as a
    pending bet and left the flags and the accounts alone.  A probe
    reported as detected stored no bet, and the status it carries is 400,
    401 or 500; in particular a client without a token reports every
    probe as detected, with status 401 "Unauthorized: Missing token" and
    the stores of the server as they were. *)
Theorem probe_report_follows_the_status {rt : JsRuntime}
  {crt : ClientRuntime} (client : ApiClient.t) (st : State) (now : Z)
  (clk : PlaceClock) (legit : Object) (fraudType : JsValue) (st' : State)
  (probe : ApiClient.Probe) :
  ApiClient.placeFraudulentBet client st now clk legit fraudType
  = (st', probe) ->
  ApiClient.success probe = negb (ApiClient.fraudDetected probe)
  /\ (ApiClient.fraudDetected probe = false ->
      exists betId bet,
        ApiClient.answer probe
        = BetAccepted "Bet placed successfully" (Bet.id bet)
            (PlacedBet.mk (Bet.id bet) (Bet.matchId bet) (Bet.selection bet)
               (Bet.odds bet) (Bet.amount bet) "pending")
        /\ bets st' = JsMap.set (JString betId) bet (bets st)
        /\ accountFlags st' = accountFlags st /\ users st' = users st)
  /\ (ApiClient.fraudDetected probe = true ->
      bets st' = bets st
      /\ (ApiClient.statusCode probe = Some 400
          \/ ApiClient.statusCode probe = Some 401
          \/ ApiClient.statusCode probe = Some 500))
  /\ (ApiClient.authorization client = None ->
      st' = st
      /\ probe
         = ApiClient.mkProbe false (Error "Unauthorized: Missing token") true
             (Some 401)).
Proof.
  unfold ApiClient.placeFraudulentBet.
  set (P := Json.roundtrip (ApiClient.fraudulentBetData now legit fraudType)).
  cbn [handle]. unfold protected.
  destruct (authenticateToken st (ApiClient.authorization client))
    as [r|user] eqn:Ea.
  - pose proof (authenticateToken_inl _ _ _ Ea) as Hc.
    rewrite settle_thrown by auto. intros H. inversion H; subst; clear H.
    cbn [ApiClient.report ApiClient.success ApiClient.fraudDetected
         ApiClient.statusCode]. rewrite Hc.
    split; [reflexivity|]. split; [discriminate|]. split; [auto|].
    intros Hnone. rewrite Hnone in Ea. inversion Ea. now split.
  - assert (Hsome : ApiClient.authorization client <> None).
    { intros Hnone. rewrite Hnone in Ea. discriminate Ea. }
    unfold placeBet.
    destruct (missingBetInformation P).
    { intros H. inversion H; subst. cbn.
      split; [reflexivity|]. split; [discriminate|]. split; [auto|].
      intros Hnone. contradiction. }
    destruct (fraudDetection (checkNow clk) P) as [v|].
    2:{ intros H. inversion H; subst. cbn.
        split; [reflexivity|]. split; [discriminate|]. split; [auto|].
        intros Hnone. contradiction. }
    destruct (isFraudulent v).
    { intros H. inversion H; subst. cbn.
      split; [reflexivity|]. split; [discriminate|]. split; [auto|].
      intros Hnone. contradiction. }
    destruct (Js.substring0 (User.id user) 5) as [prefix|].
    2:{ intros H. inversion H; subst. cbn.
        split; [reflexivity|]. split; [discriminate|]. split; [auto|].
        intros Hnone. contradiction. }
    intros H. inversion H; subst. cbn.
    split; [reflexivity|].
    split; [|split; [discriminate|intros Hnone; contradiction]].
    intros _. exists (betIdOf clk prefix).
    exists (newBet clk (User.id user) (betIdOf clk prefix) P).
    split; [reflexivity|]. now repeat split.
Qed.

(** X20.  The client's login and the header it sends afterwards.  When
    [login] of the client returns, the response has status 200 and
    carries a token that passes [authenticateToken] as an active account
    of the store with the credentials sent, and the client has passed
    that token to [setAuthToken].  A client built without a token sends
    it from then on, so its requests authenticate; a client built with a
    token keeps sending the header of its constructor.  When [login]
    throws, the status is 401 or 403 and neither the client nor the
    stores of the server have changed. *)
Theorem client_login_and_the_header_sent {rt : JsRuntime}
  (client : ApiClient.t) (st : State) (clk : LoginClock)
  (credentials : Object) (st' : State) (client' : ApiClient.t)
  (outcome : ApiClient.Settled) :
  ApiClient.login client st clk credentials = (st', client', outcome) ->
  match outcome with
  | ApiClient.Returned r =>
      code r = 200
      /\ exists token user,
           body r
           = Authenticated "Login successful" token (PublicUser.of_user user)
           /\ client' = ApiClient.setAuthToken token client
           /\ authenticateToken st' (Some ("Bearer " ++ token)) = inr user
           /\ User.status user = active
           /\ hasCredentials (Json.roundtrip credentials) user = true
           /\ In user (JsMap.values (users st))
           /\ (ApiClient.headers client = None ->
               ApiClient.authorization client'
               = Some ("Bearer " ++ token))
           /\ (forall header,
                 ApiClient.headers client = Some header ->
                 ApiClient.authorization client' = Some header)
  | ApiClient.Thrown r =>
      st' = st /\ client' = client /\ (code r = 401 \/ code r = 403)
  end.
Proof.
  unfold ApiClient.login. cbn [handle]. rewrite login_cases.
  destruct (find _ _) as [u|] eqn:E.
  - apply find_some in E. destruct E as [Hin Hu].
    destruct (User.status u) eqn:Es.
    + rewrite settle_returned by reflexivity. cbn [body].
      assert (Hne : Base64.encode
                      (Js.toString (User.id u) ++ ":"
                       ++ Js.int_toString (loginTokenNow clk)) <> "")
        by apply encode_nonempty, append_colon_nonempty.
      apply String.eqb_neq in Hne. rewrite Hne.
      intros H. inversion H; subst; clear H.
      split; [reflexivity|]. eexists. exists u.
      split; [reflexivity|]. split; [reflexivity|]. split.
      { apply (bearer_authenticates _ _ (Session.mk u (loginSessionAt clk))).
        - apply encode_spaceless.
        - now apply String.eqb_neq.
        - cbn [sessions]. apply get_set_same. }
      repeat (split; trivial).
      * intros Hnone. unfold ApiClient.authorization.
        cbn [ApiClient.setAuthToken ApiClient.headers ApiClient.common].
        now rewrite Hnone.
      * intros header Hsome. unfold ApiClient.authorization.
        cbn [ApiClient.setAuthToken ApiClient.headers ApiClient.common].
        now rewrite Hsome.
    + rewrite settle_thrown by (cbn; auto).
      intros H. inversion H; subst. cbn. auto.
  - rewrite settle_thrown by (cbn; auto).
    intros H. inversion H; subst. cbn. auto.
Qed.

(** ** The probes on the sample bets *)

Lemma tampering_probe_is_rejected_witness :
  exists st' flag,
    @ApiClient.placeFraudulentBet Reference.host ReferenceClient.host
      ProbeSample.client Sample.registered ProbeSample.now ProbeSample.clk
      Sample.legitBet (JString "request-tampering")
    = (st',
       detectedAs "request-tampering"
         "Fraud detected: Unauthorized request fields")
    /\ bets st' = bets Sample.registered
    /\ is_fraud_attempt_flag flag
    /\ flagsOf st' Sample.aliceId
       = (flagsOf Sample.registered Sample.aliceId ++ [flag])%list.
Proof.
  apply (@tampering_probe_is_rejected Reference.host ReferenceClient.host
           ProbeSample.client Sample.registered ProbeSample.now
           ProbeSample.clk Sample.legitBet Sample.aliceUser eq_refl).
  split; [reflexivity|]. exists "match-123". reflexivity.
Defined.

Lemma alteration_probe_is_rejected_witness :
  exists st' flag,
    @ApiClient.placeFraudulentBet Reference.host ReferenceClient.host
      ProbeSample.client Sample.registered ProbeSample.now ProbeSample.clk
      Sample.legitBet (JString "match-alteration")
    = (st',
       detectedAs "match-alteration"
         "Fraud detected: Match ID tampering detected")
    /\ bets st' = bets Sample.registered
    /\ is_fraud_attempt_flag flag
    /\ flagsOf st' Sample.aliceId
       = (flagsOf Sample.registered Sample.aliceId ++ [flag])%list.
Proof.
  apply (@alteration_probe_is_rejected Reference.host ReferenceClient.host
           ProbeSample.client Sample.registered ProbeSample.now
           ProbeSample.clk Sample.legitBet Sample.aliceUser eq_refl).
  split; [split; [reflexivity|exists "match-123"; reflexivity]|].
  vm_compute. repeat constructor.
Defined.

Lemma negative_amount_probe_is_rejected_witness :
  exists st' flag,
    @ApiClient.placeFraudulentBet Reference.host ReferenceClient.host
      ProbeSample.client Sample.registered ProbeSample.now ProbeSample.clk
      Sample.legitBet (JString "negative-amount")
    = (st', detectedAs "negative-amount" "Fraud detected: Invalid bet amount")
    /\ bets st' = bets Sample.registered
    /\ is_fraud_attempt_flag flag
    /\ flagsOf st' Sample.aliceId
       = (flagsOf Sample.registered Sample.aliceId ++ [flag])%list.
Proof.
  apply (@negative_amount_probe_is_rejected Reference.host
           ReferenceClient.host ProbeSample.client Sample.registered
           ProbeSample.now ProbeSample.clk Sample.legitBet Sample.aliceUser
           50%float eq_refl).
  - split; [split; [reflexivity|exists "match-123"; reflexivity]|].
    vm_compute. repeat constructor.
  - reflexivity.
Defined.

Lemma odds_probe_is_rejected_above_twenty_witness :
  (exists st' flag,
      @ApiClient.placeFraudulentBet Reference.host ReferenceClient.host
        ProbeSample.client Sample.registered ProbeSample.now ProbeSample.clk
        Sample.legitBet (JString "odds-manipulation")
      = (st',
         detectedAs "odds-manipulation"
           "Fraud detected: Suspicious odds manipulation")
      /\ bets st' = bets Sample.registered
      /\ is_fraud_attempt_flag flag
      /\ flagsOf st' Sample.aliceId
         = (flagsOf Sample.registered Sample.aliceId ++ [flag])%list)
  /\ (exists st' betId bet,
        @ApiClient.placeFraudulentBet Reference.host ReferenceClient.host
          ProbeSample.client Sample.registered ProbeSample.now
          ProbeSample.clk Sample.legitBet75 (JString "odds-manipulation")
        = (st',
           ApiClient.mkProbe true
             (BetAccepted "Bet placed successfully" (Bet.id bet)
                (PlacedBet.mk (Bet.id bet) (Bet.matchId bet)
                   (Bet.selection bet) (Bet.odds bet) (Bet.amount bet)
                   "pending"))
             false None)
        /\ Bet.odds bet = JString "18"
        /\ bets st' = JsMap.set (JString betId) bet (bets Sample.registered)
        /\ accountFlags st' = accountFlags Sample.registered).
Proof.
  split.
  - assert (L : @legitimate Reference.host ProbeSample.clk Sample.legitBet).
    { split; [split; [reflexivity|exists "match-123"; reflexivity]|].
      vm_compute. repeat constructor. }
    assert (Hne : @numberToString Reference.host 25%float <> "")
      by (vm_compute; discriminate).
    assert (Hparse :
              @parseFloatString Reference.host
                (@numberToString Reference.host 25%float) = 25%float)
      by (vm_compute; reflexivity).
    apply (proj1 (@odds_probe_is_rejected_above_twenty Reference.host
                    ReferenceClient.host ProbeSample.client Sample.registered
                    ProbeSample.now ProbeSample.clk Sample.legitBet
                    Sample.aliceUser "1700000000000" 25%float eq_refl eq_refl
                    L eq_refl Hne Hparse)).
    reflexivity.
  - assert (L : @legitimate Reference.host ProbeSample.clk Sample.legitBet75).
    { split; [split; [reflexivity|exists "match-456"; reflexivity]|].
      vm_compute. repeat constructor. }
    assert (Hne : @numberToString Reference.host 18%float <> "")
      by (vm_compute; discriminate).
    assert (Hparse :
              @parseFloatString Reference.host
                (@numberToString Reference.host 18%float) = 18%float)
      by (vm_compute; reflexivity).
    apply (proj2 (@odds_probe_is_rejected_above_twenty Reference.host
                    ReferenceClient.host ProbeSample.client Sample.registered
                    ProbeSample.now ProbeSample.clk Sample.legitBet75
                    Sample.aliceUser "1700000000000" 18%float eq_refl eq_refl
                    L eq_refl Hne Hparse)).
    reflexivity.
Defined.

Lemma timestamp_probe_is_rejected_witness :
  exists st' flag,
    @ApiClient.placeFraudulentBet Reference.host ReferenceClient.host
      ProbeSample.client Sample.registered ProbeSample.now ProbeSample.clk
      Sample.legitBet (JString "timestamp-manipulation")
    = (st',
       detectedAs "timestamp-manipulation"
         "Fraud detected: Timestamp manipulation detected")
    /\ bets st' = bets Sample.registered
    /\ is_fraud_attempt_flag flag
    /\ flagsOf st' Sample.aliceId
       = (flagsOf Sample.registered Sample.aliceId ++ [flag])%list.
Proof.
  apply (@timestamp_probe_is_rejected Reference.host ReferenceClient.host
           ProbeSample.client Sample.registered ProbeSample.now
           ProbeSample.clk Sample.legitBet Sample.aliceUser eq_refl).
  - split; [split; [reflexivity|exists "match-123"; reflexivity]|].
    vm_compute. repeat constructor.
  - vm_compute. discriminate.
  - vm_compute. reflexivity.
  - reflexivity.
Defined.

Lemma unknown_technique_probe_is_rejected_witness :
  exists st' flag,
    @ApiClient.placeFraudulentBet Reference.host ReferenceClient.host
      ProbeSample.client Sample.registered ProbeSample.now ProbeSample.clk
      Sample.legitBet75 JUndefined
    = (st', detectedAs "negative-amount" "Fraud detected: Invalid bet amount")
    /\ bets st' = bets Sample.registered
    /\ is_fraud_attempt_flag flag
    /\ flagsOf st' Sample.aliceId
       = (flagsOf Sample.registered Sample.aliceId ++ [flag])%list.
Proof.
  apply (@unknown_technique_probe_is_rejected Reference.host
           ReferenceClient.host ProbeSample.client Sample.registered
           ProbeSample.now ProbeSample.clk Sample.legitBet75 JUndefined
           Sample.aliceUser 75%float "9" eq_refl).
  - split; [split; [reflexivity|exists "match-456"; reflexivity]|].
    vm_compute. repeat constructor.
  - repeat split.
  - reflexivity.
  - vm_compute. reflexivity.
  - discriminate.
Defined.

Lemma probe_report_follows_the_status_witness :
  @ApiClient.placeFraudulentBet Reference.host ReferenceClient.host
    (ApiClient.create None) Sample.registered ProbeSample.now ProbeSample.clk
    Sample.legitBet (JString "negative-amount")
  = (Sample.registered,
     ApiClient.mkProbe false (Error "Unauthorized: Missing token") true
       (Some 401)).
Proof.
  destruct (proj2 (proj2 (proj2
             (@probe_report_follows_the_status Reference.host
                ReferenceClient.host (ApiClient.create None)
                Sample.registered ProbeSample.now ProbeSample.clk
                Sample.legitBet (JString "negative-amount") _ _ eq_refl)))
             eq_refl) as [Hst Hprobe].
  reflexivity.
Defined.

(** A client built without a token authenticates after [login]; one built
    with a stale token still sends it after [login] and is refused. *)
Lemma client_login_and_the_header_sent_witness :
  (exists user,
      authenticateToken
        (fst (fst (@ApiClient.login Reference.host (ApiClient.create None)
                     Sample.registered
                     (mkLoginClock 1700000000100 1700000000100)
                     Sample.alice)))
        (ApiClient.authorization
           (snd (fst (@ApiClient.login Reference.host (ApiClient.create None)
                        Sample.registered
                        (mkLoginClock 1700000000100 1700000000100)
                        Sample.alice))))
      = inr user
      /\ User.status user = active)
  /\ ApiClient.authorization
       (snd (fst (@ApiClient.login Reference.host
                    (ApiClient.create (Some "stale")) Sample.registered
                    (mkLoginClock 1700000000100 1700000000100)
                    Sample.alice)))
     = Some "Bearer stale"
  /\ snd (@handle Reference.host
            (fst (fst (@ApiClient.login Reference.host
                         (ApiClient.create (Some "stale")) Sample.registered
                         (mkLoginClock 1700000000100 1700000000100)
                         Sample.alice)))
            (GetBetsHistory (Some "Bearer stale")))
     = mkResponse 401 (Error "Unauthorized: Invalid token").
Proof.
  split; [|split].
  - destruct (@client_login_and_the_header_sent Reference.host
                (ApiClient.create None) Sample.registered
                (mkLoginClock 1700000000100 1700000000100) Sample.alice
                _ _ _ eq_refl)
      as (_ & token & user & _ & _ & Ha & Hs & _ & _ & Hsent & _).
    exists user. rewrite <- (Hsent eq_refl) in Ha.
    split; [exact Ha|exact Hs].
  - destruct (@client_login_and_the_header_sent Reference.host
                (ApiClient.create (Some "stale")) Sample.registered
                (mkLoginClock 1700000000100 1700000000100) Sample.alice
                _ _ _ eq_refl)
      as (_ & token & user & _ & _ & _ & _ & _ & _ & _ & Hkept).
    exact (Hkept "Bearer stale" eq_refl).
  - reflexivity.
Defined.

Example roundtrip_ex :
  Json.roundtrip
    [("a", JNumber PrimFloat.nan); ("b", JUndefined); ("c", JNumber (-0));
     ("d", JNumber PrimFloat.infinity); ("e", JString "x"); ("f", JNumber 2.5)]
  = [("a", JNull); ("c", JNumber 0); ("d", JNull); ("e", JString "x");
     ("f", JNumber 2.5)].
Proof. vm_compute. reflexivity. Qed.

Example iso_of_time_ex :
  ReferenceClient.iso_of_time 1704067200000 = "2024-01-01T00:00:00.000Z"
  /\ ReferenceClient.iso_of_time 951782400000 = "2000-02-29T00:00:00.000Z"
  /\ ReferenceClient.iso_of_time 1709251199999 = "2024-02-29T23:59:59.999Z"
  /\ Reference.parse_iso (ReferenceClient.iso_of_time 1699913600123)
     = Some 1699913600123.
Proof. vm_compute. repeat split. Qed.

(** The payloads of the six kinds of probe for a sample bet, as the
    server parses them. *)
Example fraudulentBetData_ex :
  map
    (fun fraudType =>
       Json.roundtrip
         (@ApiClient.fraudulentBetData Reference.host ReferenceClient.host
            ProbeSample.now Sample.legitBet75 fraudType))
    [JString "negative-amount"; JString "odds-manipulation";
     JString "match-alteration"; JString "timestamp-manipulation";
     JString "request-tampering"; JString "anything-else"]
  = [[("matchId", JString "match-456"); ("amount", JNumber (-75));
      ("odds", JString "1.8"); ("selection", JString "away")];
     [("matchId", JString "match-456"); ("amount", JNumber 75);
      ("odds", JString "18"); ("selection", JString "away")];
     [("matchId", JString "match-456-altered"); ("amount", JNumber 75);
      ("odds", JString "1.8"); ("selection", JString "away")];
     [("matchId", JString "match-456"); ("amount", JNumber 75);
      ("odds", JString "1.8"); ("selection", JString "away");
      ("timestamp", JString "2023-11-13T22:13:21.000Z")];
     [("matchId", JString "match-456"); ("amount", JNumber 75);
      ("odds", JString "1.8"); ("selection", JString "away");
      ("serverBypass", JBool true); ("adminApproval", JBool true)];
     [("matchId", JString "match-456"); ("amount", JNumber (-75));
      ("odds", JString "9"); ("selection", JString "away")]].
Proof. vm_compute. reflexivity. Qed.

Example inflated_odds_ex :
  (Reference.parse_decimal "1.8" * 10 = 18)%float
  /\ (Reference.parse_decimal "1.8" * 5 = 9)%float
  /\ (Reference.parse_decimal "2.5" * 10 = 25)%float.
Proof. vm_compute. repeat split. Qed.
